(** * Arise / Ramadan Journal: the order-form pipeline

    A shallow embedding of the client-side order flow of the Ramadan
    Journal page:

    - [ramadan-journal/assets/js/modules/form-handler.js] (the form module:
      field validation, honeypot gate, order id, submission, confirmation);
    - the UI module (modal management and focus restoration) that owns
      [window.openOrderForm], [window.closeOrderForm] and
      [window.closeConfirmation];
    - the phone pattern of the standalone
      [ramadan-journal/assets/js/form-handler.js].

    JavaScript strings are modelled by [string]; every [ascii] stands for one
    code unit below 256 (the Latin-1 range).  On that range the white space
    removed by [String.prototype.trim] and matched by the class [\s] is
    TAB, LF, VT, FF, CR, SPACE and NBSP (code 160).

    The page is modelled by the elements the scripts look up: the twelve
    form controls, the error slots (elements whose id is a control's name
    followed by [Error]), both modals, the two confirmation displays, the
    submit button with its two children and the form with its action
    attribute and its controls.  Elements that are looked up separately are
    separate components of the state. *)

From Stdlib Require Import String Ascii ZArith List DecimalString Lia.
From Stdlib Require Import DecimalPos DecimalZ.
From stdpp Require Import gmap strings list fin_maps.

Local Open Scope string_scope.

(* ===================================================================== *)
(** ** Strings as the scripts use them *)
(* ===================================================================== *)

(** White space of ECMAScript ([WhiteSpace] and [LineTerminator]) below
    code 256. *)
Definition isWhiteSpace (c : ascii) : bool :=
  let n := nat_of_ascii c in
  ((9 <=? n)%nat && (n <=? 13)%nat) || (n =? 32)%nat || (n =? 160)%nat.

Fixpoint trimStart (s : string) : string :=
  match s with
  | EmptyString => EmptyString
  | String c s' => if isWhiteSpace c then trimStart s' else s
  end.

Fixpoint trimEnd (s : string) : string :=
  match s with
  | EmptyString => EmptyString
  | String c s' =>
      match trimEnd s' with
      | EmptyString => if isWhiteSpace c then EmptyString else String c EmptyString
      | t => String c t
      end
  end.

(** [String.prototype.trim]. *)
Definition trim (s : string) : string := trimEnd (trimStart s).

(** [String.prototype.includes]: [needle] occurs somewhere in [s]. *)
Fixpoint includes (s needle : string) : bool :=
  String.prefix needle s ||
  match s with
  | EmptyString => false
  | String _ s' => includes s' needle
  end.

(** [String.prototype.substring (from, to)] for [from <= to]. *)
Definition js_substring (from to : nat) (s : string) : string :=
  String.substring from (Nat.min to (String.length s) - from) s.

Definition upperChar (c : ascii) : ascii :=
  let n := nat_of_ascii c in
  if ((97 <=? n)%nat && (n <=? 122)%nat) then ascii_of_nat (n - 32) else c.

(** [String.prototype.toUpperCase] on the code units a radix-36 rendering
    contains; other code units below 128 are left alone as well. *)
Fixpoint toUpperCase (s : string) : string :=
  match s with
  | EmptyString => EmptyString
  | String c s' => String (upperChar c) (toUpperCase s')
  end.

(** JavaScript truthiness of a string: the empty string is falsy. *)
Definition truthy (s : string) : bool := negb (s =? "").

(* ===================================================================== *)
(** ** Regular expressions *)
(* ===================================================================== *)

Module RegExp.

(** The members of a bracket expression. *)
Inductive citem : Type :=
| CChar (c : ascii)
| CRange (lo hi : ascii)
| CSpace.

Definition in_item (c : ascii) (i : citem) : bool :=
  match i with
  | CChar d => Ascii.eqb c d
  | CRange lo hi =>
      (nat_of_ascii lo <=? nat_of_ascii c)%nat &&
      (nat_of_ascii c <=? nat_of_ascii hi)%nat
  | CSpace => isWhiteSpace c
  end.

(** [Class false items] is [[items]], [Class true items] is [[^items]];
    [Rep r lo hi] is [r{lo,hi}].  [Never] and [Eps] only arise as
    derivatives. *)
Inductive regex : Type :=
| Never
| Eps
| Lit (c : ascii)
| Class (negated : bool) (items : list citem)
| Cat (r1 r2 : regex)
| Alt (r1 r2 : regex)
| Opt (r : regex)
| Plus (r : regex)
| Rep (r : regex) (lo hi : nat).

Definition in_class (negated : bool) (items : list citem) (c : ascii) : bool :=
  xorb negated (existsb (in_item c) items).

Fixpoint nullable (r : regex) : bool :=
  match r with
  | Never => false
  | Eps => true
  | Lit _ => false
  | Class _ _ => false
  | Cat r1 r2 => nullable r1 && nullable r2
  | Alt r1 r2 => nullable r1 || nullable r2
  | Opt _ => true
  | Plus r => nullable r
  | Rep r lo hi => (lo =? 0)%nat || (nullable r && (lo <=? hi)%nat)
  end.

(** Brzozowski derivative: the strings [w] such that [c w] matches. *)
Fixpoint deriv (c : ascii) (r : regex) : regex :=
  match r with
  | Never => Never
  | Eps => Never
  | Lit d => if Ascii.eqb c d then Eps else Never
  | Class n items => if in_class n items c then Eps else Never
  | Cat r1 r2 =>
      if nullable r1 then Alt (Cat (deriv c r1) r2) (deriv c r2)
      else Cat (deriv c r1) r2
  | Alt r1 r2 => Alt (deriv c r1) (deriv c r2)
  | Opt r => deriv c r
  | Plus r => Cat (deriv c r) (Opt (Plus r))
  | Rep r lo hi =>
      match hi with
      | O => Never
      | S hi' => Cat (deriv c r) (Rep r (pred lo) hi')
      end
  end.

(** [RegExp.prototype.test] for a pattern written [/^r$/] without flags:
    the whole string has to match. *)
Fixpoint test (r : regex) (s : string) : bool :=
  match s with
  | EmptyString => nullable r
  | String c s' => test (deriv c r) s'
  end.

(** Sequence of the listed parts. *)
Fixpoint seq (rs : list regex) : regex :=
  match rs with
  | [] => Eps
  | [r] => r
  | r :: rs' => Cat r (seq rs')
  end.

(** The strings a pattern denotes.  [r{lo,hi}] is the empty string when
    [lo] is zero, or one [r] followed by [r{lo-1,hi-1}]. *)
Inductive matches : regex -> string -> Prop :=
| MEps : matches Eps ""
| MLit c : matches (Lit c) (String c "")
| MClass n items c :
    in_class n items c = true -> matches (Class n items) (String c "")
| MCat r1 r2 s1 s2 :
    matches r1 s1 -> matches r2 s2 -> matches (Cat r1 r2) (s1 +:+ s2)
| MAltL r1 r2 s : matches r1 s -> matches (Alt r1 r2) s
| MAltR r1 r2 s : matches r2 s -> matches (Alt r1 r2) s
| MOptNone r : matches (Opt r) ""
| MOptSome r s : matches r s -> matches (Opt r) s
| MPlusOne r s : matches r s -> matches (Plus r) s
| MPlusMore r s1 s2 :
    matches r s1 -> matches (Plus r) s2 -> matches (Plus r) (s1 +:+ s2)
| MRepDone r hi : matches (Rep r 0 hi) ""
| MRepMore r lo hi s1 s2 :
    matches r s1 -> matches (Rep r (pred lo) hi) s2 ->
    matches (Rep r lo (S hi)) (s1 +:+ s2).

End RegExp.

Import RegExp.

(** [const patterns] of the form module. *)
Module patterns.

(** [/^[^\s@]+@[^\s@]+\.[^\s@]+$/] *)
Definition email : regex :=
  seq [ Plus (Class true [CSpace; CChar "@"]);
        Lit "@";
        Plus (Class true [CSpace; CChar "@"]);
        Lit ".";
        Plus (Class true [CSpace; CChar "@"]) ].

(** [/^[\+]?[0-9\s\-\(\)]{10,20}$/] *)
Definition phone : regex :=
  seq [ Opt (Class false [CChar "+"]);
        Rep (Class false [CRange "0" "9"; CSpace; CChar "-"; CChar "("; CChar ")"])
            10 20 ].

(** [/^[a-zA-Z\s\-']{2,50}$/] *)
Definition name : regex :=
  Rep (Class false [CRange "a" "z"; CRange "A" "Z"; CSpace; CChar "-"; CChar "'"])
      2 50.

(** [/^[a-zA-Z0-9\s\-]{3,10}$/] *)
Definition postalCode : regex :=
  Rep (Class false [CRange "a" "z"; CRange "A" "Z"; CRange "0" "9"; CSpace; CChar "-"])
      3 10.

End patterns.

(** [const PATTERNS] of the standalone
    [ramadan-journal/assets/js/form-handler.js]; only its phone pattern
    differs from [patterns]. *)
Module PATTERNS.

(** [/^[\+]?[(]?[0-9]{1,4}[)]?[-\s\.]?[(]?[0-9]{1,4}[)]?[-\s\.]?[0-9]{1,9}$/] *)
Definition phone : regex :=
  seq [ Opt (Class false [CChar "+"]);
        Opt (Class false [CChar "("]);
        Rep (Class false [CRange "0" "9"]) 1 4;
        Opt (Class false [CChar ")"]);
        Opt (Class false [CChar "-"; CSpace; CChar "."]);
        Opt (Class false [CChar "("]);
        Rep (Class false [CRange "0" "9"]) 1 4;
        Opt (Class false [CChar ")"]);
        Opt (Class false [CChar "-"; CSpace; CChar "."]);
        Rep (Class false [CRange "0" "9"]) 1 9 ].

End PATTERNS.

(* ===================================================================== *)
(** ** The page *)
(* ===================================================================== *)

(** The keys of [const formFields], in the order [Object.values] visits
    them. *)
Inductive FieldKey : Type :=
| firstName | lastName | email | phone | addressLine1 | addressLine2
| city | state | postalCode | country | privacyConsent | _gotcha.

Definition all_keys : list FieldKey :=
  [firstName; lastName; email; phone; addressLine1; addressLine2;
   city; state; postalCode; country; privacyConsent; _gotcha].

(** The string [init] looks a control up by: an id for the first eleven, the
    name attribute for the decoy. *)
Definition key_name (k : FieldKey) : string :=
  match k with
  | firstName => "firstName" | lastName => "lastName" | email => "email"
  | phone => "phone" | addressLine1 => "addressLine1"
  | addressLine2 => "addressLine2" | city => "city" | state => "state"
  | postalCode => "postalCode" | country => "country"
  | privacyConsent => "privacyConsent" | _gotcha => "_gotcha"
  end.

Definition key_index (k : FieldKey) : nat :=
  match k with
  | firstName => 0 | lastName => 1 | email => 2 | phone => 3
  | addressLine1 => 4 | addressLine2 => 5 | city => 6 | state => 7
  | postalCode => 8 | country => 9 | privacyConsent => 10 | _gotcha => 11
  end.

#[global] Instance FieldKey_eq_dec : EqDecision FieldKey.
Proof. solve_decision. Defined.

#[global] Instance FieldKey_countable : Countable FieldKey.
Proof.
  apply (inj_countable' key_index (fun n => nth n all_keys firstName)).
  intros []; reflexivity.
Defined.

(** A form control (input, select or checkbox) with the properties the
    scripts read and write. *)
Record Field : Type := mkField {
  f_name : string;                  (* name attribute *)
  f_type : string;                  (* type property *)
  f_required : bool;
  f_disabled : bool;
  f_value : string;
  f_checked : bool;
  f_defaultValue : string;          (* restored by form.reset() *)
  f_defaultChecked : bool;
  f_error : bool;                   (* classList contains 'error' *)
  f_ariaInvalid : option string     (* aria-invalid attribute *)
}.

Definition set_f_error (b : bool) (f : Field) : Field :=
  mkField (f_name f) (f_type f) (f_required f) (f_disabled f) (f_value f)
          (f_checked f) (f_defaultValue f) (f_defaultChecked f) b (f_ariaInvalid f).

Definition set_f_ariaInvalid (a : string) (f : Field) : Field :=
  mkField (f_name f) (f_type f) (f_required f) (f_disabled f) (f_value f)
          (f_checked f) (f_defaultValue f) (f_defaultChecked f) (f_error f) (Some a).

(** Replace the value the user has typed into a control. *)
Definition set_f_value (v : string) (f : Field) : Field :=
  mkField (f_name f) (f_type f) (f_required f) (f_disabled f) v
          (f_checked f) (f_defaultValue f) (f_defaultChecked f) (f_error f)
          (f_ariaInvalid f).

Definition reset_control (f : Field) : Field :=
  mkField (f_name f) (f_type f) (f_required f) (f_disabled f) (f_defaultValue f)
          (f_defaultChecked f) (f_defaultValue f) (f_defaultChecked f) (f_error f)
          (f_ariaInvalid f).

(** Something that can hold keyboard focus. *)
Inductive ElemRef : Type :=
| RBody
| RField (k : FieldKey)
| RElem (id : string).

(** A modal container: [style.display], the [data-submitted] attribute,
    [dataset.cleanupFn] and the number of keydown listeners [trapFocus] has
    registered on it. *)
Record Modal : Type := mkModal {
  m_display : string;
  m_submitted : option string;
  m_cleanupFn : option string;
  m_keydown : nat
}.

Definition set_m_display (d : string) (m : Modal) : Modal :=
  mkModal d (m_submitted m) (m_cleanupFn m) (m_keydown m).

Definition set_m_submitted (v : string) (m : Modal) : Modal :=
  mkModal (m_display m) (Some v) (m_cleanupFn m) (m_keydown m).

Definition trap (m : Modal) : Modal :=
  mkModal (m_display m) (m_submitted m) (Some "set") (S (m_keydown m)).

(** The submit button: [disabled] and the [style.display] of its
    [.btn-text] and [.btn-spinner] children, when it has them. *)
Record Button : Type := mkButton {
  b_disabled : bool;
  b_text : option string;
  b_spinner : option string
}.

(** A control owned by the form, in tree order: one of the twelve cached
    controls or some other named control with a fixed value (a hidden
    input). *)
Inductive Control : Type :=
| CField (k : FieldKey)
| CHidden (name value : string).

Record Form : Type := mkForm {
  fm_action : option string;        (* getAttribute('action') *)
  fm_controls : list Control
}.

(** The document. *)
Record Dom : Type := mkDom {
  fields : gmap FieldKey Field;
  errorSlots : gmap string string;       (* id |-> textContent *)
  orderModal : option Modal;
  confirmationModal : option Modal;
  orderIdDisplay : option string;        (* textContent *)
  emailDisplay : option string;          (* textContent *)
  submitOrderBtn : option Button;
  shippingForm : option Form;
  bodyOverflow : string;                 (* document.body.style.overflow *)
  activeElement : option ElemRef
}.

Inductive Timer : Type :=
| FocusFirstName        (* setTimeout of openOrderForm, 100 ms *)
| UnlockFullPdf.        (* setTimeout of handleSubmit, 2000 ms *)

Inductive SubmitError : Type :=
| FORMSPREE_NOT_CONFIGURED
| Form_submission_failed
| fetch_rejected.

Inductive ConsoleEntry : Type :=
| Warn (msg : string)
| Error (msg : string) (e : SubmitError).

Record Request : Type := mkRequest {
  rq_url : string;
  rq_method : string;
  rq_accept : string;
  rq_body : list (string * string)
}.

(** The document, the module variables of both scripts, the optional PDF
    preview module (its payload tells whether the full PDF is unlocked) and
    what the scripts have done to the outside: alerts shown, console lines,
    requests sent, timers pending. *)
Record State : Type := mkState {
  dom : Dom;
  initialised : bool;                    (* init of the form module has run *)
  activeModal : option string;           (* UI module *)
  previousFocus : option ElemRef;        (* UI module *)
  pdfPreviewModule : option bool;
  alerts : list string;
  console : list ConsoleEntry;
  requests : list Request;
  timers : list Timer
}.

(** *** Updates *)

Definition set_dom (d : Dom) (st : State) : State :=
  mkState d (initialised st) (activeModal st) (previousFocus st)
          (pdfPreviewModule st) (alerts st) (console st) (requests st) (timers st).

Definition set_initialised (b : bool) (st : State) : State :=
  mkState (dom st) b (activeModal st) (previousFocus st)
          (pdfPreviewModule st) (alerts st) (console st) (requests st) (timers st).

Definition set_activeModal (m : option string) (st : State) : State :=
  mkState (dom st) (initialised st) m (previousFocus st)
          (pdfPreviewModule st) (alerts st) (console st) (requests st) (timers st).

Definition set_previousFocus (r : option ElemRef) (st : State) : State :=
  mkState (dom st) (initialised st) (activeModal st) r
          (pdfPreviewModule st) (alerts st) (console st) (requests st) (timers st).

Definition set_pdfPreviewModule (p : option bool) (st : State) : State :=
  mkState (dom st) (initialised st) (activeModal st) (previousFocus st)
          p (alerts st) (console st) (requests st) (timers st).

Definition set_alerts (a : list string) (st : State) : State :=
  mkState (dom st) (initialised st) (activeModal st) (previousFocus st)
          (pdfPreviewModule st) a (console st) (requests st) (timers st).

Definition set_console (c : list ConsoleEntry) (st : State) : State :=
  mkState (dom st) (initialised st) (activeModal st) (previousFocus st)
          (pdfPreviewModule st) (alerts st) c (requests st) (timers st).

Definition set_requests (r : list Request) (st : State) : State :=
  mkState (dom st) (initialised st) (activeModal st) (previousFocus st)
          (pdfPreviewModule st) (alerts st) (console st) r (timers st).

Definition set_timers (t : list Timer) (st : State) : State :=
  mkState (dom st) (initialised st) (activeModal st) (previousFocus st)
          (pdfPreviewModule st) (alerts st) (console st) (requests st) t.

Definition set_fields (v : gmap FieldKey Field) (d : Dom) : Dom :=
  mkDom v (errorSlots d) (orderModal d) (confirmationModal d) (orderIdDisplay d)
        (emailDisplay d) (submitOrderBtn d) (shippingForm d) (bodyOverflow d)
        (activeElement d).

Definition set_errorSlots (v : gmap string string) (d : Dom) : Dom :=
  mkDom (fields d) v (orderModal d) (confirmationModal d) (orderIdDisplay d)
        (emailDisplay d) (submitOrderBtn d) (shippingForm d) (bodyOverflow d)
        (activeElement d).

Definition set_orderModal (v : option Modal) (d : Dom) : Dom :=
  mkDom (fields d) (errorSlots d) v (confirmationModal d) (orderIdDisplay d)
        (emailDisplay d) (submitOrderBtn d) (shippingForm d) (bodyOverflow d)
        (activeElement d).

Definition set_confirmationModal (v : option Modal) (d : Dom) : Dom :=
  mkDom (fields d) (errorSlots d) (orderModal d) v (orderIdDisplay d)
        (emailDisplay d) (submitOrderBtn d) (shippingForm d) (bodyOverflow d)
        (activeElement d).

Definition set_orderIdDisplay (v : option string) (d : Dom) : Dom :=
  mkDom (fields d) (errorSlots d) (orderModal d) (confirmationModal d) v
        (emailDisplay d) (submitOrderBtn d) (shippingForm d) (bodyOverflow d)
        (activeElement d).

Definition set_emailDisplay (v : option string) (d : Dom) : Dom :=
  mkDom (fields d) (errorSlots d) (orderModal d) (confirmationModal d)
        (orderIdDisplay d) v (submitOrderBtn d) (shippingForm d) (bodyOverflow d)
        (activeElement d).

Definition set_submitOrderBtn (v : option Button) (d : Dom) : Dom :=
  mkDom (fields d) (errorSlots d) (orderModal d) (confirmationModal d)
        (orderIdDisplay d) (emailDisplay d) v (shippingForm d) (bodyOverflow d)
        (activeElement d).

Definition set_bodyOverflow (v : string) (d : Dom) : Dom :=
  mkDom (fields d) (errorSlots d) (orderModal d) (confirmationModal d)
        (orderIdDisplay d) (emailDisplay d) (submitOrderBtn d) (shippingForm d) v
        (activeElement d).

Definition set_activeElement (v : option ElemRef) (d : Dom) : Dom :=
  mkDom (fields d) (errorSlots d) (orderModal d) (confirmationModal d)
        (orderIdDisplay d) (emailDisplay d) (submitOrderBtn d) (shippingForm d)
        (bodyOverflow d) v.

(** Apply a change of the document to the state. *)
Definition on_dom (g : Dom -> Dom) (st : State) : State := set_dom (g (dom st)) st.

(** *** Document operations *)

(** The control [init] would find under key [k]. *)
Definition getField (k : FieldKey) (st : State) : option Field :=
  fields (dom st) !! k.

(** [formFields[k]]: [null] until [init] has cached the lookups. *)
Definition formFields (k : FieldKey) (st : State) : option Field :=
  if initialised st then getField k st else None.

(** Change the control under key [k]. *)
Definition updField (k : FieldKey) (g : Field -> Field) (st : State) : State :=
  on_dom (fun d => set_fields (alter g k (fields d)) d) st.

(** The page after the user has put [v] into the control under [k]. *)
Definition typed (k : FieldKey) (v : string) (st : State) : State :=
  updField k (set_f_value v) st.

(** [const e = document.getElementById(id); if (e) e.textContent = txt]
    for an error slot. *)
Definition setErrorText (id txt : string) (st : State) : State :=
  on_dom (fun d => set_errorSlots (alter (fun _ => txt) id (errorSlots d)) d) st.

(** [element.focus()]. *)
Definition focus (r : ElemRef) (st : State) : State :=
  on_dom (set_activeElement (Some r)) st.

Definition alert (msg : string) (st : State) : State :=
  set_alerts (alerts st ++ [msg])%list st.

Definition console_log (e : ConsoleEntry) (st : State) : State :=
  set_console (console st ++ [e])%list st.

Definition setTimeout (t : Timer) (st : State) : State :=
  set_timers (timers st ++ [t])%list st.

(* ===================================================================== *)
(** ** What a submission reads from its environment *)
(* ===================================================================== *)

Inductive Response : Type :=
| ResponseOk            (* fetch resolves, response.ok *)
| ResponseNotOk         (* fetch resolves, !response.ok *)
| NetworkError.         (* fetch rejects *)

(** [now] is [Date.now()], [isoString] is [new Date().toISOString()],
    [fetched] is how the request settles.  [random36] lists the radix-36
    digits that [Math.random().toString(36)] prints after ["0."] (each
    entry is read modulo 36); the list is empty when the rendering is
    ["0"].  One half, for instance, is 18/36 and prints as ["0.i"]: the
    list is [[18]]. *)
Record Env : Type := mkEnv {
  now : Z;
  random36 : list nat;
  isoString : string;
  fetched : Response
}.

Definition digit36 (d : nat) : ascii :=
  match String.get (d mod 36) "0123456789abcdefghijklmnopqrstuvwxyz" with
  | Some c => c
  | None => "0"%char
  end.

Definition digits36 (ds : list nat) : string :=
  fold_right (fun d s => String (digit36 d) s) EmptyString ds.

(** [Math.random().toString(36)]. *)
Definition random_toString36 (env : Env) : string :=
  match random36 env with
  | [] => "0"
  | ds => "0." +:+ digits36 ds
  end.

(** A number that holds an integer, inside a template literal. *)
Definition number_toString (z : Z) : string :=
  NilZero.string_of_int (Z.to_int z).

(* ===================================================================== *)
(** ** The form module *)
(* ===================================================================== *)

(** The chain of tests of [validateField] after the decoy case: the flag
    [isValid] and [errorMessage]. *)
Definition check (field : Field) : bool * string :=
  let fieldName := f_name field in
  let value := trim (f_value field) in
  if f_required field && negb (truthy value) then
    (false, "This field is required")
  else if (fieldName =? "email") && truthy value
          && negb (test patterns.email value) then
    (false, "Please enter a valid email address")
  else if (fieldName =? "phone") && truthy value
          && negb (test patterns.phone value) then
    (false, "Please enter a valid phone number")
  else if ((fieldName =? "firstName") || (fieldName =? "lastName"))
          && truthy value && negb (test patterns.name value) then
    (false, "Please enter a valid name (2-50 characters)")
  else if (fieldName =? "postalCode") && truthy value
          && negb (test patterns.postalCode value) then
    (false, "Please enter a valid postal code")
  else if (f_type field =? "checkbox") && f_required field
          && negb (f_checked field) then
    (false, "You must consent to the privacy policy")
  else (true, "").

(** [validateField(formFields[k])]. *)
Definition validateField (k : FieldKey) (st : State) : bool * State :=
  match formFields k st with
  | None => (true, st)
  | Some field =>
      let fieldName := f_name field in
      let value := trim (f_value field) in
      let errorId := fieldName +:+ "Error" in
      let st := setErrorText errorId "" st in
      let st := updField k (set_f_error false) st in
      if fieldName =? "_gotcha" then (value =? "", st)
      else
        let '(isValid, errorMessage) := check field in
        if negb isValid then
          let st := updField k (set_f_error true) st in
          let st := setErrorText errorId errorMessage st in
          (false, updField k (set_f_ariaInvalid "true") st)
        else
          (true, updField k (set_f_ariaInvalid "false") st)
  end.

(** One round of the [forEach] of [validateForm]. *)
Definition validateForm_step (acc : bool * State) (k : FieldKey) : bool * State :=
  let '(isValid, st) := acc in
  match formFields k st with
  | Some field =>
      if negb (f_name field =? "addressLine2") && negb (f_name field =? "_gotcha")
      then
        let '(ok, st') := validateField k st in
        (if negb ok then false else isValid, st')
      else (isValid, st)
  | None => (isValid, st)
  end.

Definition validateForm (st : State) : bool * State :=
  fold_left validateForm_step all_keys (true, st).

Definition generateOrderId (env : Env) : string :=
  let timestamp := now env in
  let random := toUpperCase (js_substring 2 9 (random_toString36 env)) in
  "RJ-" +:+ number_toString timestamp +:+ "-" +:+ random.

(** The object built by [getFormData]. *)
Record OrderData : Type := mkOrderData {
  od_orderId : string;
  od_timestamp : string;
  od_firstName : string;
  od_lastName : string;
  od_email : string;
  od_phone : string;
  od_addressLine1 : string;
  od_addressLine2 : string;
  od_city : string;
  od_state : string;
  od_postalCode : string;
  od_country : string;
  od_privacyConsent : bool
}.

(** [formFields[k]?.value.trim() || ''] *)
Definition trimmedValue (k : FieldKey) (st : State) : string :=
  match formFields k st with
  | Some field => trim (f_value field)
  | None => ""
  end.

Definition getFormData (env : Env) (st : State) : OrderData :=
  {| od_orderId := generateOrderId env;
     od_timestamp := isoString env;
     od_firstName := trimmedValue firstName st;
     od_lastName := trimmedValue lastName st;
     od_email := trimmedValue email st;
     od_phone := trimmedValue phone st;
     od_addressLine1 := trimmedValue addressLine1 st;
     od_addressLine2 := trimmedValue addressLine2 st;
     od_city := trimmedValue city st;
     od_state := trimmedValue state st;
     od_postalCode := trimmedValue postalCode st;
     od_country := match formFields country st with
                   | Some field => f_value field
                   | None => ""
                   end;
     od_privacyConsent := match formFields privacyConsent st with
                          | Some field => f_checked field
                          | None => false
                          end |}.

(** *** [FormData] *)

(** A control that contributes no entry to [new FormData(form)]: it is
    disabled, has no name, or is an unchecked checkbox or radio button. *)
Definition skipped (f : Field) : bool :=
  f_disabled f || negb (truthy (f_name f))
  || (((f_type f =? "checkbox") || (f_type f =? "radio")) && negb (f_checked f)).

(** The entry of a control: its name and its current value, as it
    stands. *)
Definition control_entries (st : State) (c : Control) : list (string * string) :=
  match c with
  | CHidden n v => if truthy n then [(n, v)] else []
  | CField k =>
      match getField k st with
      | Some f => if skipped f then [] else [(f_name f, f_value f)]
      | None => []
      end
  end.

Definition new_FormData (form : Form) (st : State) : list (string * string) :=
  flat_map (control_entries st) (fm_controls form).

(** [FormData.prototype.set]: the first entry of that name is replaced and
    the others are removed; without one the entry is appended. *)
Fixpoint fd_set (n v : string) (l : list (string * string)) : list (string * string) :=
  match l with
  | [] => [(n, v)]
  | (n', v') :: l' =>
      if n' =? n
      then (n, v) :: List.filter (fun e => negb (fst e =? n)) l'
      else (n', v') :: fd_set n v l'
  end.

Inductive SubmitResult : Type :=
| Resolved (orderId : string)     (* { success: true, orderId } *)
| Rejected (e : SubmitError).

Definition fetch (r : Request) (st : State) : State :=
  set_requests (requests st ++ [r])%list st.

Definition submitFormData (env : Env) (formData : OrderData) (st : State)
  : SubmitResult * State :=
  let form := shippingForm (dom st) in
  let formAction := match form with Some f => fm_action f | None => None end in
  match form, formAction with
  | Some form, Some formAction =>
      if negb (truthy formAction) || includes formAction "YOUR_FORM_ID" then
        (Rejected FORMSPREE_NOT_CONFIGURED,
         alert "Formspree not configured. Update YOUR_FORM_ID in form action attribute." st)
      else
        let formDataObj := new_FormData form st in
        let formDataObj := fd_set "orderId" (od_orderId formData) formDataObj in
        let formDataObj := fd_set "timestamp" (od_timestamp formData) formDataObj in
        let formDataObj := fd_set "_replyto" (od_email formData) formDataObj in
        let st := fetch (mkRequest formAction "POST" "application/json" formDataObj) st in
        match fetched env with
        | ResponseOk => (Resolved (od_orderId formData), st)
        | ResponseNotOk =>
            (Rejected Form_submission_failed,
             console_log (Error "Submission error:" Form_submission_failed) st)
        | NetworkError =>
            (Rejected fetch_rejected,
             console_log (Error "Submission error:" fetch_rejected) st)
        end
  | _, _ =>
      (Rejected FORMSPREE_NOT_CONFIGURED,
       alert "Formspree not configured. Update YOUR_FORM_ID in form action attribute." st)
  end.

(** The branch of [setSubmitButtonLoading] that [loading] selects, on the
    button and the two children it may have. *)
Definition loading_button (loading : bool) (submitBtn : Button) : Button :=
  if loading
  then mkButton true ((fun _ => "none") <$> b_text submitBtn)
                     ((fun _ => "flex") <$> b_spinner submitBtn)
  else mkButton false ((fun _ => "inline") <$> b_text submitBtn)
                      ((fun _ => "none") <$> b_spinner submitBtn).

(** Nothing happens without a submit button. *)
Definition setSubmitButtonLoading (loading : bool) (st : State) : State :=
  on_dom (fun d =>
            set_submitOrderBtn (loading_button loading <$> submitOrderBtn d) d) st.

Definition updOrderModal (g : Modal -> Modal) (st : State) : State :=
  on_dom (fun d => set_orderModal (g <$> orderModal d) d) st.

Definition updConfirmationModal (g : Modal -> Modal) (st : State) : State :=
  on_dom (fun d => set_confirmationModal (g <$> confirmationModal d) d) st.

Definition openConfirmation (orderData : OrderData) (st : State) : State :=
  match confirmationModal (dom st) with
  | None => st
  | Some _ =>
      let st := on_dom (fun d =>
                  set_orderIdDisplay ((fun _ => od_orderId orderData) <$> orderIdDisplay d) d) st in
      let st := on_dom (fun d =>
                  set_emailDisplay ((fun _ => od_email orderData) <$> emailDisplay d) d) st in
      let st := updConfirmationModal (set_m_display "flex") st in
      on_dom (set_bodyOverflow "hidden") st
  end.

(** [form.reset()]: every control of the form goes back to its default. *)
Definition form_reset (form : Form) (st : State) : State :=
  fold_left (fun st c =>
               match c with
               | CField k => updField k reset_control st
               | CHidden _ _ => st
               end) (fm_controls form) st.

Definition resetForm_step (st : State) (k : FieldKey) : State :=
  match formFields k st with
  | Some field =>
      let st := updField k (set_f_error false) st in
      let st := updField k (set_f_ariaInvalid "false") st in
      setErrorText (f_name field +:+ "Error") "" st
  | None => st
  end.

Definition resetForm (st : State) : State :=
  match shippingForm (dom st) with
  | None => st
  | Some form => fold_left resetForm_step all_keys (form_reset form st)
  end.

(** [init] caches the twelve lookups (and attaches the listeners). *)
Definition init (st : State) : State := set_initialised true st.

(* ===================================================================== *)
(** ** The UI module *)
(* ===================================================================== *)

Definition openOrderForm (st : State) : State :=
  match orderModal (dom st) with
  | None => st
  | Some _ =>
      let st := set_previousFocus (activeElement (dom st)) st in
      let st := set_activeModal (Some "orderModal") st in
      let st := updOrderModal (set_m_display "flex") st in
      let st := on_dom (set_bodyOverflow "hidden") st in
      let st := updOrderModal trap st in
      setTimeout FocusFirstName st
  end.

(** [if (previousFocus) { previousFocus.focus(); previousFocus = null; }] *)
Definition restoreFocus (st : State) : State :=
  match previousFocus st with
  | Some r => set_previousFocus None (focus r st)
  | None => st
  end.

(** [window.formModule] is defined as soon as the form module has
    loaded, so [wasSubmitted && window.formModule] is [wasSubmitted]. *)
Definition closeOrderForm (st : State) : State :=
  match orderModal (dom st) with
  | None => st
  | Some modal =>
      let st := updOrderModal (set_m_display "none") st in
      let st := on_dom (set_bodyOverflow "") st in
      let st := set_activeModal None st in
      let wasSubmitted :=
        match m_submitted modal with Some v => v =? "true" | None => false end in
      let st := if wasSubmitted
                then updOrderModal (set_m_submitted "false") (resetForm st)
                else st in
      restoreFocus st
  end.

Definition closeConfirmation (st : State) : State :=
  match confirmationModal (dom st) with
  | None => st
  | Some _ =>
      let st := updConfirmationModal (set_m_display "none") st in
      let st := on_dom (set_bodyOverflow "") st in
      let st := set_activeModal None st in
      restoreFocus st
  end.

Definition displayed (m : option Modal) : bool :=
  match m with Some m => m_display m =? "flex" | None => false end.

(** [handleEscape] for a keydown whose key is Escape. *)
Definition handleEscape (st : State) : State :=
  if displayed (orderModal (dom st)) then closeOrderForm st
  else if displayed (confirmationModal (dom st)) then closeConfirmation st
  else st.

(* ===================================================================== *)
(** ** Submission *)
(* ===================================================================== *)

(** [formFields._gotcha?.value.trim() !== ''] *)
Definition spam (st : State) : bool :=
  match formFields _gotcha st with
  | Some field => negb (trim (f_value field) =? "")
  | None => true
  end.

(** [document.querySelector('.error')]: the first control, in the order of
    [formFields], that bears the class. *)
Definition firstError (st : State) : option ElemRef :=
  RField <$> List.find (fun k => match getField k st with
                                 | Some f => f_error f
                                 | None => false
                                 end) all_keys.

(** What the [try] block does once [submitFormData] has resolved. *)
Definition submitted (formData : OrderData) (st : State) : State :=
  let st := updOrderModal (set_m_submitted "true") st in
  let st := closeOrderForm st in
  let st := openConfirmation formData st in
  match pdfPreviewModule st with
  | Some _ => setTimeout UnlockFullPdf st
  | None => st
  end.

(** [handleSubmit], run from the submit event to the end of its [finally]
    block, with the request settling as [fetched env] says and no other
    listener running while it is pending.  [e.preventDefault()] leaves
    the state alone. *)
Definition handleSubmit (env : Env) (st : State) : State :=
  if spam st then console_log (Warn "Spam detected") st
  else
    let '(valid, st) := validateForm st in
    if negb valid then
      match firstError st with
      | Some r => focus r st
      | None => st
      end
    else
      let formData := getFormData env st in
      let st := setSubmitButtonLoading true st in
      let '(result, st) := submitFormData env formData st in
      let st :=
        match result with
        | Resolved _ => submitted formData st
        | Rejected _ =>
            alert "Order submission failed. Please try again or contact us directly." st
        end in
      setSubmitButtonLoading false st.

(* ===================================================================== *)
(** ** The page as a state machine *)
(* ===================================================================== *)

Definition fire (t : Timer) (st : State) : State :=
  match t with
  | FocusFirstName =>
      match getField firstName st with
      | Some _ => focus (RField firstName) st
      | None => st
      end
  | UnlockFullPdf => set_pdfPreviewModule ((fun _ => true) <$> pdfPreviewModule st) st
  end.

(** What can happen to the page.  [FocusMoved] is the browser moving the
    focus after a Tab key or a click on a focusable element. *)
Inductive Event : Type :=
| DOMContentLoaded
| OpenOrderForm
| CloseOrderForm
| CloseConfirmation
| ClickOrderOverlay
| ClickConfirmationOverlay
| KeyEscape
| Submit (env : Env)
| TimerElapsed
| FocusMoved (r : ElemRef)
| Input (k : FieldKey) (v : string)
| Blur (k : FieldKey).

(** The blur listener [attachEventListeners] puts on a control. *)
Definition onBlur (k : FieldKey) (st : State) : State :=
  match formFields k st with
  | Some field =>
      if truthy (trim (f_value field)) || f_required field
      then snd (validateField k st) else st
  | None => st
  end.

(** Its input listener. *)
Definition onInput (k : FieldKey) (st : State) : State :=
  match formFields k st with
  | Some field =>
      if f_error field
      then setErrorText (f_name field +:+ "Error") "" (updField k (set_f_error false) st)
      else st
  | None => st
  end.

(** Whether [attachEventListeners] gave the control its two listeners. *)
Definition listens (k : FieldKey) (st : State) : bool :=
  match formFields k st with
  | Some field => negb (f_name field =? "_gotcha")
  | None => false
  end.

Definition handle (st : State) (e : Event) : State :=
  match e with
  | DOMContentLoaded => init st
  | OpenOrderForm => openOrderForm st
  | CloseOrderForm | ClickOrderOverlay => closeOrderForm st
  | CloseConfirmation | ClickConfirmationOverlay => closeConfirmation st
  | KeyEscape => handleEscape st
  | Submit env =>
      match initialised st, shippingForm (dom st) with
      | true, Some _ => handleSubmit env st
      | _, _ => st
      end
  | TimerElapsed =>
      match timers st with
      | t :: ts => fire t (set_timers ts st)
      | [] => st
      end
  | FocusMoved r => on_dom (set_activeElement (Some r)) st
  | Input k v =>
      let st := typed k v st in
      if listens k st then onInput k st else st
  | Blur k => if listens k st then onBlur k st else st
  end.

Definition run (es : list Event) (st : State) : State := fold_left handle es st.

(** The three states of the modal controller. *)
Inductive ModalState : Type := closed | order_form_open | confirmation_open.

Definition modalState (st : State) : option ModalState :=
  match displayed (orderModal (dom st)), displayed (confirmationModal (dom st)) with
  | false, false => Some closed
  | true, false => Some order_form_open
  | false, true => Some confirmation_open
  | true, true => None
  end.

(* ===================================================================== *)
(** ** A concrete page *)
(* ===================================================================== *)

(** A text input as the page declares it, holding [v]. *)
Definition text_input (n : string) (required : bool) (v : string) : Field :=
  mkField n "text" required false v false "" false false None.

(** The order page filled in with Test Order 1 of TEST_ORDERS.md; the form
    posts to the address the setup notes give as an example. *)
Definition sample_fields : gmap FieldKey Field :=
  list_to_map
    [ (firstName, text_input "firstName" true "Fatima");
      (lastName, text_input "lastName" true "Ahmed");
      (email, mkField "email" "email" true false "fatima.ahmed.test@example.com"
                      false "" false false None);
      (phone, mkField "phone" "tel" true false "+92-300-1234567"
                      false "" false false None);
      (addressLine1, text_input "addressLine1" true "House 123, Street 45, Gulshan-e-Iqbal");
      (addressLine2, text_input "addressLine2" false "");
      (city, text_input "city" true "Karachi");
      (state, text_input "state" true "Sindh");
      (postalCode, text_input "postalCode" true "75300");
      (country, mkField "country" "select-one" true false "Pakistan"
                        false "" false false None);
      (privacyConsent, mkField "privacyConsent" "checkbox" true false "on"
                               true "on" false false None);
      (_gotcha, text_input "_gotcha" false "") ].

Definition sample_slots : gmap string string :=
  list_to_map (map (fun k => (key_name k +:+ "Error", "")) all_keys).

Definition sample_form (action : string) : Form :=
  mkForm (Some action)
         (CHidden "_subject" "New Ramadan Journal Order" :: map CField all_keys).

Definition sample_dom (action : string) : Dom :=
  {| fields := sample_fields;
     errorSlots := sample_slots;
     orderModal := Some (mkModal "none" None None 0);
     confirmationModal := Some (mkModal "none" None None 0);
     orderIdDisplay := Some "";
     emailDisplay := Some "";
     submitOrderBtn := Some (mkButton false (Some "inline") (Some "none"));
     shippingForm := Some (sample_form action);
     bodyOverflow := "";
     activeElement := Some RBody |}.

(** The page once both scripts have loaded and [init] has run. *)
Definition page_with (action : string) : State :=
  init {| dom := sample_dom action;
          initialised := false;
          activeModal := None;
          previousFocus := None;
          pdfPreviewModule := None;
          alerts := [];
          console := [];
          requests := [];
          timers := [] |}.

Definition sample_page : State := page_with "https://formspree.io/f/xabc1234".

(** The same page before the form id was filled in. *)
Definition unconfigured_page : State := page_with "https://formspree.io/f/YOUR_FORM_ID".

Definition sample_env (r : Response) : Env :=
  {| now := 1770046200000;
     random36 := [10; 1; 11; 2; 12; 3; 13; 4; 14; 5; 15];
     isoString := "2026-02-02T15:30:00.000Z";
     fetched := r |}.

(* ===================================================================== *)
(** ** Notions used by the statements *)
(* ===================================================================== *)

(** The outcome of [validateField] on a cached reference. *)
Definition passes (field : option Field) : bool :=
  match field with
  | None => true
  | Some f => if f_name f =? "_gotcha" then trim (f_value f) =? "" else fst (check f)
  end.

(** Whether [validateForm] lets the control through: it is not looked at
    when it is missing or named [addressLine2] or [_gotcha]. *)
Definition gate (field : option Field) : bool :=
  match field with
  | None => true
  | Some f =>
      if negb (f_name f =? "addressLine2") && negb (f_name f =? "_gotcha")
      then passes field else true
  end.

(** The fields the order needs: every key but [addressLine2] and the
    decoy. *)
Definition required_keys : list FieldKey :=
  [firstName; lastName; email; phone; addressLine1; city; state; postalCode;
   country; privacyConsent].

Definition required_names : list string := map key_name required_keys.

(** Every control carries the name it is looked up by. *)
Definition names_match (st : State) : bool :=
  forallb (fun k => match getField k st with
                    | Some f => f_name f =? key_name k
                    | None => true
                    end) all_keys.

(** The form exists and its action is a real address. *)
Definition configured (st : State) : bool :=
  match shippingForm (dom st) with
  | Some form =>
      match fm_action form with
      | Some a => truthy a && negb (includes a "YOUR_FORM_ID")
      | None => false
      end
  | None => false
  end.

(** A control without its error class and [aria-invalid] attribute. *)
Definition strip (f : Field) : Field :=
  mkField (f_name f) (f_type f) (f_required f) (f_disabled f) (f_value f)
          (f_checked f) (f_defaultValue f) (f_defaultChecked f) false None.

(** The state without the marks validation leaves: error classes,
    [aria-invalid] attributes and the text of the error slots. *)
Definition erase (st : State) : State :=
  on_dom (fun d => set_errorSlots ∅ (set_fields (strip <$> fields d) d)) st.

(** What the user has entered: value and checked state of each control. *)
Definition entered (st : State) : gmap FieldKey (string * bool) :=
  (fun f => (f_value f, f_checked f)) <$> fields (dom st).

Definition token_alphabet : string := "0123456789ABCDEFGHIJKLMNOPQRSTUVWXYZ".

Fixpoint all_in (alphabet s : string) : bool :=
  match s with
  | EmptyString => true
  | String c s' =>
      existsb (Ascii.eqb c) (list_ascii_of_string alphabet) && all_in alphabet s'
  end.

(** [st] with other marks: the controls [fs] and the error slots [es]. *)
Definition with_marks (fs : gmap FieldKey Field) (es : gmap string string)
  (st : State) : State :=
  on_dom (fun d => set_errorSlots es (set_fields fs d)) st.

(** The sample page with a single blank typed into the decoy. *)
Definition blank_decoy_page : State := typed _gotcha " " sample_page.

(** The sample page with blanks around the first name. *)
Definition padded_name_page : State := typed firstName " Ali " sample_page.

(** The sample page whose decoy input is missing from the document. *)
Definition no_decoy_page : State :=
  on_dom (fun d => set_fields (delete _gotcha (fields d)) d) sample_page.

(** [validateField] of the standalone
    [ramadan-journal/assets/js/form-handler.js], as the error message it
    settles on; the empty message means the field is valid. *)
Module Standalone.

(** What [value] can hold there: the trimmed text, or the checked state of
    a checkbox. *)
Inductive jsval : Type :=
| VStr (s : string)
| VBool (b : bool).

Definition falsy (v : jsval) : bool :=
  match v with
  | VStr s => negb (truthy s)
  | VBool b => negb b
  end.

(** The string [RegExp.prototype.test] turns its argument into. *)
Definition toString (v : jsval) : string :=
  match v with
  | VStr s => s
  | VBool true => "true"
  | VBool false => "false"
  end.

Definition errorMessage (fieldName : FieldKey) (field : Field) : string :=
  let value := if f_type field =? "checkbox"
               then VBool (f_checked field)
               else VStr (trim (f_value field)) in
  if falsy value then "This field is required"
  else
    match fieldName with
    | email =>
        if negb (test patterns.email (toString value))
        then "Please enter a valid email address" else ""
    | phone =>
        if negb (test PATTERNS.phone (toString value))
        then "Please enter a valid phone number" else ""
    | firstName | lastName =>
        if negb (test patterns.name (toString value))
        then "Please enter a valid name (2-50 characters, letters only)" else ""
    | postalCode =>
        if negb (test patterns.postalCode (toString value))
        then "Please enter a valid postal code" else ""
    | privacyConsent =>
        if falsy value then "You must consent to data usage to proceed" else ""
    | _ => ""
    end.

(** [validateField(fieldName)] on a field that exists. *)
Definition validateField (fieldName : FieldKey) (field : Field) : bool :=
  negb (truthy (errorMessage fieldName field)).

End Standalone.

Definition ok_env : Env := sample_env ResponseOk.

Definition not_ok_env : Env := sample_env ResponseNotOk.

(** Where the focus is in the scenarios below: on the button that opens
    the order form, then on the close button of the confirmation modal. *)
Definition order_button : ElemRef := RElem "orderButton".

Definition confirmation_close_button : ElemRef := RElem "closeConfirmationBtn".

(** The user focuses the order button, opens the form, waits for the
    first field to take the focus and submits the sample order, which the
    relay accepts. *)
Definition ordered_page : State :=
  run [FocusMoved order_button; OpenOrderForm; TimerElapsed; Submit ok_env] sample_page.

(** The phone input of the page holding [v]. *)
Definition phone_input (v : string) : Field :=
  mkField "phone" "tel" true false v false "" false false None.

(** An environment whose random number is one half. *)
Definition half_env : Env :=
  {| now := 1770046200000;
     random36 := [18];
     isoString := "2026-02-02T15:30:00.000Z";
     fetched := ResponseOk |}.

(** The two alerts of the form module. *)
Definition failure_message : string :=
  "Order submission failed. Please try again or contact us directly.".

Definition setup_message : string :=
  "Formspree not configured. Update YOUR_FORM_ID in form action attribute.".

(** The request a configured page sends. *)
Definition request_of (env : Env) (st : State) (form : Form) (action : string) : Request :=
  mkRequest action "POST" "application/json"
    (fd_set "_replyto" (trimmedValue email st)
       (fd_set "timestamp" (isoString env)
          (fd_set "orderId" (generateOrderId env) (new_FormData form st)))).

(* ===================================================================== *)
(** ** Notions used by the further properties *)
(* ===================================================================== *)

(** The parts of the state that no operation on the modals touches: the
    submit button, the form, the module flags and what has gone out. *)
Definition chrome (st : State) :=
  (submitOrderBtn (dom st), shippingForm (dom st), initialised st,
   pdfPreviewModule st, alerts st, console st, requests st).

(** Whether a submission gets as far as [submitFormData]. *)
Definition accepted (st : State) : bool := negb (spam st) && fst (validateForm st).

(** What one run of [handleSubmit] sends. *)
Definition sent_request (env : Env) (st : State) : list Request :=
  if accepted st && configured st then
    match shippingForm (dom st) with
    | Some form =>
        match fm_action form with
        | Some action => [request_of env st form action]
        | None => []
        end
    | None => []
    end
  else [].

(** The alerts one run of [handleSubmit] shows. *)
Definition shown_alerts (env : Env) (st : State) : list string :=
  if accepted st then
    if configured st then
      match fetched env with
      | ResponseOk => []
      | _ => [failure_message]
      end
    else [setup_message; failure_message]
  else [].

(** The timer one run of [handleSubmit] starts. *)
Definition scheduled_unlock (env : Env) (st : State) : list Timer :=
  if accepted st && configured st then
    match fetched env, pdfPreviewModule st with
    | ResponseOk, Some _ => [UnlockFullPdf]
    | _, _ => []
    end
  else [].


(** [FormData.prototype.get]: the value of the first entry of that name. *)
Definition fd_get (n : string) (l : list (string * string)) : option string :=
  snd <$> List.find (fun e => fst e =? n) l.

(** The number of entries of that name ([getAll(n).length]). *)
Definition fd_count (n : string) (l : list (string * string)) : nat :=
  length (List.filter (fun e => fst e =? n) l).

(** The random part of an order id. *)
Definition order_token (env : Env) : string :=
  toUpperCase (js_substring 2 9 (random_toString36 env)).




#[global] Instance ElemRef_eq_dec : EqDecision ElemRef.
Proof. solve_decision. Defined.

(** [a === b] for two element references, where [None] is [null] on the
    left and [undefined] on the right. *)
Definition same_element (a b : option ElemRef) : bool :=
  match a, b with
  | Some x, Some y => bool_decide (x = y)
  | _, _ => false
  end.

(** [handleTab] of [trapFocus(element)] for a keydown whose key is Tab.
    [focusableElements] is what [querySelectorAll] found when
    [trapFocus] ran; the answer tells whether [preventDefault] was
    called. *)
Definition handleTab (focusableElements : list ElemRef) (shiftKey : bool)
  (st : State) : bool * State :=
  let firstFocusable := List.hd_error focusableElements in
  let lastFocusable := last focusableElements in
  if shiftKey then
    if same_element (activeElement (dom st)) firstFocusable
    then (true, match lastFocusable with Some r => focus r st | None => st end)
    else (false, st)
  else
    if same_element (activeElement (dom st)) lastFocusable
    then (true, match firstFocusable with Some r => focus r st | None => st end)
    else (false, st).

(** The keydown listeners of the order modal, one for every time
    [trapFocus] has run, answering one Tab key. *)
Fixpoint handleTabs (n : nat) (focusableElements : list ElemRef) (shiftKey : bool)
  (st : State) : State :=
  match n with
  | O => st
  | S n' => handleTabs n' focusableElements shiftKey
              (snd (handleTab focusableElements shiftKey st))
  end.

Definition is_open (e : Event) : bool :=
  match e with
  | OpenOrderForm => true
  | _ => false
  end.

(** How often the order form is opened in a run of events. *)
Definition opens (es : list Event) : nat := length (List.filter is_open es).


(** The number of keydown listeners [trapFocus] has put on the order
    modal, when the page has one. *)
Definition listeners (st : State) : option nat := m_keydown <$> orderModal (dom st).


(* ===================================================================== *)
(** ** The PDF preview module *)
(* ===================================================================== *)

(** [window.pdfPreviewModule], whose [unlockFullPdf] the form module
    calls two seconds after a successful order: the page and zoom
    controls, the lock on the pages after the fifth, and the queue of
    [renderPage].  The drawing itself is pdf.js; the thumbnail strip, the
    live region of [announce], the progress text, the console and the
    debug log are left out, none of which the functions below read. *)
Module PdfPreview.

Local Open Scope Z_scope.

(** [CONFIG].  Scales are counted in steps of 0.25, the [scaleStep]: 1.5
    is 6, 0.5 is 2 and 3.0 is 12.  Doubles hold these multiples of a
    quarter, and their sums and differences, exactly. *)
Definition previewPages : Z := 5.
Definition scale : Z := 6.
Definition minScale : Z := 2.
Definition maxScale : Z := 12.
Definition scaleStep : Z := 1.

(** [#loadingIndicator]: its [style.display], and the message [showError]
    has put in its place, if any. *)
Record Indicator : Type := mkIndicator {
  li_display : string;
  li_error : option string
}.

(** Where a call of [renderPage] is suspended: at
    [await pdfDoc.getPage(pageNum)], or at [await page.render(..).promise]
    with the scale its viewport was made with. *)
Inductive Stage : Type :=
| Idle
| Fetching (pageNum : Z)
| Drawing (pageNum : Z) (scale : Z).

(** The elements [init] looks up, each [None] when the page lacks it;
    the buttons by their [disabled], the spans by their text. *)
Record Elements : Type := mkElements {
  canvasDisplay : string;
  lockedMessage : option string;
  loadingIndicator : option Indicator;
  prevPageBtn : option bool;
  nextPageBtn : option bool;
  zoomInBtn : option bool;
  zoomOutBtn : option bool;
  currentPageSpan : option string;
  totalPagesSpan : option string
}.

Definition set_canvasDisplay (x : string) (d : Elements) : Elements :=
  mkElements x (lockedMessage d) (loadingIndicator d) (prevPageBtn d)
    (nextPageBtn d) (zoomInBtn d) (zoomOutBtn d) (currentPageSpan d)
    (totalPagesSpan d).

Definition set_lockedMessage (x : option string) (d : Elements) : Elements :=
  mkElements (canvasDisplay d) x (loadingIndicator d) (prevPageBtn d)
    (nextPageBtn d) (zoomInBtn d) (zoomOutBtn d) (currentPageSpan d)
    (totalPagesSpan d).

Definition set_loadingIndicator (x : option Indicator) (d : Elements) : Elements :=
  mkElements (canvasDisplay d) (lockedMessage d) x (prevPageBtn d)
    (nextPageBtn d) (zoomInBtn d) (zoomOutBtn d) (currentPageSpan d)
    (totalPagesSpan d).

Definition set_prevPageBtn (x : option bool) (d : Elements) : Elements :=
  mkElements (canvasDisplay d) (lockedMessage d) (loadingIndicator d) x
    (nextPageBtn d) (zoomInBtn d) (zoomOutBtn d) (currentPageSpan d)
    (totalPagesSpan d).

Definition set_nextPageBtn (x : option bool) (d : Elements) : Elements :=
  mkElements (canvasDisplay d) (lockedMessage d) (loadingIndicator d)
    (prevPageBtn d) x (zoomInBtn d) (zoomOutBtn d) (currentPageSpan d)
    (totalPagesSpan d).

Definition set_zoomInBtn (x : option bool) (d : Elements) : Elements :=
  mkElements (canvasDisplay d) (lockedMessage d) (loadingIndicator d)
    (prevPageBtn d) (nextPageBtn d) x (zoomOutBtn d) (currentPageSpan d)
    (totalPagesSpan d).

Definition set_zoomOutBtn (x : option bool) (d : Elements) : Elements :=
  mkElements (canvasDisplay d) (lockedMessage d) (loadingIndicator d)
    (prevPageBtn d) (nextPageBtn d) (zoomInBtn d) x (currentPageSpan d)
    (totalPagesSpan d).

Definition set_currentPageSpan (x : option string) (d : Elements) : Elements :=
  mkElements (canvasDisplay d) (lockedMessage d) (loadingIndicator d)
    (prevPageBtn d) (nextPageBtn d) (zoomInBtn d) (zoomOutBtn d) x
    (totalPagesSpan d).

Definition set_totalPagesSpan (x : option string) (d : Elements) : Elements :=
  mkElements (canvasDisplay d) (lockedMessage d) (loadingIndicator d)
    (prevPageBtn d) (nextPageBtn d) (zoomInBtn d) (zoomOutBtn d)
    (currentPageSpan d) x.
(** The variables of the module.  [pdfDoc] is the number of pages of the
    loaded document; [canvas] and [ctx] tell whether [init] found them.
    [suspended] is the call of [renderPage] that waits for pdf.js, and
    [shown] the page and scale of the drawing that the canvas holds. *)
Record Viewer : Type := mkViewer {
  elements : Elements;
  pdfDoc : option Z;
  canvas : bool;
  ctx : bool;
  currentPage : Z;
  currentScale : Z;
  pageRendering : bool;
  pageNumPending : option Z;
  isUnlocked : bool;
  totalPagesExpected : Z;
  suspended : Stage;
  shown : option (Z * Z)
}.

Definition set_elements (x : Elements) (v : Viewer) : Viewer :=
  mkViewer x (pdfDoc v) (canvas v) (ctx v) (currentPage v) (currentScale v)
    (pageRendering v) (pageNumPending v) (isUnlocked v) (totalPagesExpected
    v) (suspended v) (shown v).

Definition set_pdfDoc (x : option Z) (v : Viewer) : Viewer :=
  mkViewer (elements v) x (canvas v) (ctx v) (currentPage v) (currentScale
    v) (pageRendering v) (pageNumPending v) (isUnlocked v)
    (totalPagesExpected v) (suspended v) (shown v).

Definition set_canvas (x : bool) (v : Viewer) : Viewer :=
  mkViewer (elements v) (pdfDoc v) x (ctx v) (currentPage v) (currentScale
    v) (pageRendering v) (pageNumPending v) (isUnlocked v)
    (totalPagesExpected v) (suspended v) (shown v).

Definition set_ctx (x : bool) (v : Viewer) : Viewer :=
  mkViewer (elements v) (pdfDoc v) (canvas v) x (currentPage v)
    (currentScale v) (pageRendering v) (pageNumPending v) (isUnlocked v)
    (totalPagesExpected v) (suspended v) (shown v).

Definition set_currentPage (x : Z) (v : Viewer) : Viewer :=
  mkViewer (elements v) (pdfDoc v) (canvas v) (ctx v) x (currentScale v)
    (pageRendering v) (pageNumPending v) (isUnlocked v) (totalPagesExpected
    v) (suspended v) (shown v).

Definition set_currentScale (x : Z) (v : Viewer) : Viewer :=
  mkViewer (elements v) (pdfDoc v) (canvas v) (ctx v) (currentPage v) x
    (pageRendering v) (pageNumPending v) (isUnlocked v) (totalPagesExpected
    v) (suspended v) (shown v).

Definition set_pageRendering (x : bool) (v : Viewer) : Viewer :=
  mkViewer (elements v) (pdfDoc v) (canvas v) (ctx v) (currentPage v)
    (currentScale v) x (pageNumPending v) (isUnlocked v) (totalPagesExpected
    v) (suspended v) (shown v).

Definition set_pageNumPending (x : option Z) (v : Viewer) : Viewer :=
  mkViewer (elements v) (pdfDoc v) (canvas v) (ctx v) (currentPage v)
    (currentScale v) (pageRendering v) x (isUnlocked v) (totalPagesExpected
    v) (suspended v) (shown v).

Definition set_isUnlocked (x : bool) (v : Viewer) : Viewer :=
  mkViewer (elements v) (pdfDoc v) (canvas v) (ctx v) (currentPage v)
    (currentScale v) (pageRendering v) (pageNumPending v) x
    (totalPagesExpected v) (suspended v) (shown v).

Definition set_totalPagesExpected (x : Z) (v : Viewer) : Viewer :=
  mkViewer (elements v) (pdfDoc v) (canvas v) (ctx v) (currentPage v)
    (currentScale v) (pageRendering v) (pageNumPending v) (isUnlocked v) x
    (suspended v) (shown v).

Definition set_suspended (x : Stage) (v : Viewer) : Viewer :=
  mkViewer (elements v) (pdfDoc v) (canvas v) (ctx v) (currentPage v)
    (currentScale v) (pageRendering v) (pageNumPending v) (isUnlocked v)
    (totalPagesExpected v) x (shown v).

Definition set_shown (x : option (Z * Z)) (v : Viewer) : Viewer :=
  mkViewer (elements v) (pdfDoc v) (canvas v) (ctx v) (currentPage v)
    (currentScale v) (pageRendering v) (pageNumPending v) (isUnlocked v)
    (totalPagesExpected v) (suspended v) x.
Definition on_elements (g : Elements -> Elements) (v : Viewer) : Viewer :=
  set_elements (g (elements v)) v.

Definition showLoading (show : bool) (v : Viewer) : Viewer :=
  match loadingIndicator (elements v) with
  | None => v
  | Some i =>
      on_elements
        (set_loadingIndicator
           (Some (mkIndicator (if show then "flex" else "none") (li_error i)))) v
  end.

Definition showLockedMessage (show : bool) (v : Viewer) : Viewer :=
  match lockedMessage (elements v) with
  | None => v
  | Some _ =>
      on_elements (set_lockedMessage (Some (if show then "flex" else "none"))) v
  end.

Definition showError (message : string) (v : Viewer) : Viewer :=
  match loadingIndicator (elements v) with
  | None => v
  | Some _ =>
      on_elements (set_loadingIndicator (Some (mkIndicator "flex" (Some message)))) v
  end.

(** [getErrorMessage(error)], from the name and the message of the
    error. *)
Definition getErrorMessage (name message : string) : string :=
  if (name =? "MissingPDFException")%string
  then "PDF file not found. Please contact support."
  else if (name =? "InvalidPDFException")%string
  then "The PDF file appears to be corrupted. Please contact support."
  else if truthy message && includes message "CORS"
  then "PDF could not be loaded due to security restrictions. Try refreshing the page."
  else "Failed to load PDF preview. Please try again or contact support.".

(** [renderPage(pageNum)] up to its first [await]. *)
Definition renderPage (pageNum : Z) (v : Viewer) : Viewer :=
  if negb (bool_decide (is_Some (pdfDoc v))) || negb (canvas v) || negb (ctx v) then v
  else if (pageNum >? previewPages) && negb (isUnlocked v) then
    on_elements (set_canvasDisplay "none") (showLockedMessage true v)
  else
    let v := on_elements (set_canvasDisplay "block") (showLockedMessage false v) in
    if pageRendering v then set_pageNumPending (Some pageNum) v
    else set_suspended (Fetching pageNum) (set_pageRendering true v).

(** The [catch] block of [renderPage]. *)
Definition renderFailed (v : Viewer) : Viewer :=
  showError "Failed to render page. Please try again."
    (set_pageRendering false (set_suspended Idle v)).

(** [renderPage] resumed: the awaited promise is fulfilled ([ok]) or
    rejected.  Sizing the canvas for the viewport clears it. *)
Definition settled (ok : bool) (v : Viewer) : Viewer :=
  match suspended v with
  | Idle => v
  | Fetching pageNum =>
      if ok then set_shown None (set_suspended (Drawing pageNum (currentScale v)) v)
      else renderFailed v
  | Drawing pageNum scale =>
      if ok then
        let v := set_shown (Some (pageNum, scale)) (set_suspended Idle v) in
        let v := set_pageRendering false v in
        match pageNumPending v with
        | Some pending => renderPage pending (set_pageNumPending None v)
        | None => v
        end
      else renderFailed v
  end.

Definition updatePageControls (v : Viewer) : Viewer :=
  let maxPage := if isUnlocked v then totalPagesExpected v else previewPages in
  let v := on_elements (fun d =>
             set_prevPageBtn ((fun _ => currentPage v <=? 1) <$> prevPageBtn d) d) v in
  let v := on_elements (fun d =>
             set_nextPageBtn ((fun _ => currentPage v >=? maxPage) <$> nextPageBtn d) d) v in
  let v := on_elements (fun d =>
             set_zoomInBtn ((fun _ => currentScale v >=? maxScale) <$> zoomInBtn d) d) v in
  on_elements (fun d =>
    set_zoomOutBtn ((fun _ => currentScale v <=? minScale) <$> zoomOutBtn d) d) v.

Definition goToPage (pageNum : Z) (v : Viewer) : Viewer :=
  if (pageNum <? 1) || (pageNum >? totalPagesExpected v) then v
  else if (pageNum >? previewPages) && negb (isUnlocked v) then showLockedMessage true v
  else
    let v := set_currentPage pageNum v in
    let v := renderPage (currentPage v) v in
    let v := updatePageControls v in
    on_elements (fun d =>
      set_currentPageSpan
        ((fun _ => number_toString (currentPage v)) <$> currentPageSpan d) d) v.

Definition onPrevPage (v : Viewer) : Viewer :=
  if currentPage v <=? 1 then v else goToPage (currentPage v - 1) v.

Definition onNextPage (v : Viewer) : Viewer :=
  if (currentPage v >=? previewPages) && negb (isUnlocked v) then showLockedMessage true v
  else if currentPage v >=? totalPagesExpected v then v
  else goToPage (currentPage v + 1) v.

Definition onZoomIn (v : Viewer) : Viewer :=
  if currentScale v >=? maxScale then v
  else
    let v := set_currentScale (Z.min (currentScale v + scaleStep) maxScale) v in
    renderPage (currentPage v) v.

Definition onZoomOut (v : Viewer) : Viewer :=
  if currentScale v <=? minScale then v
  else
    let v := set_currentScale (Z.max (currentScale v - scaleStep) minScale) v in
    renderPage (currentPage v) v.

(** [handleKeyboard(e)]; [inside] tells whether [#preview] exists and
    holds the focused element. *)
Definition handleKeyboard (key : string) (inside : bool) (v : Viewer) : Viewer :=
  if negb inside then v
  else if (key =? "ArrowLeft")%string || (key =? "ArrowUp")%string then onPrevPage v
  else if (key =? "ArrowRight")%string || (key =? "ArrowDown")%string then onNextPage v
  else if (key =? "Home")%string then goToPage 1 v
  else if (key =? "End")%string then
    goToPage (if isUnlocked v then totalPagesExpected v else previewPages) v
  else if (key =? "+")%string || (key =? "=")%string then onZoomIn v
  else if (key =? "-")%string || (key =? "_")%string then onZoomOut v
  else v.

Definition unlockFullPdf (v : Viewer) : Viewer :=
  let v := set_isUnlocked true v in
  let v := on_elements (fun d =>
             set_totalPagesSpan
               ((fun _ => number_toString (totalPagesExpected v)) <$> totalPagesSpan d) d) v in
  let v := updatePageControls v in
  showLockedMessage false v.

(** [loadPDF] from the moment the document has arrived up to its
    [await renderPage(currentPage)]. *)
Definition loaded (numPages : Z) (v : Viewer) : Viewer :=
  let v := set_pdfDoc (Some numPages) v in
  let v := set_totalPagesExpected numPages v in
  let v := on_elements (fun d =>
             set_totalPagesSpan
               ((fun _ => number_toString previewPages) <$> totalPagesSpan d) d) v in
  renderPage (currentPage v) v.

(** The rest of its [try] block, once that page and the thumbnails are
    done. *)
Definition loadFinished (v : Viewer) : Viewer :=
  showLoading false (updatePageControls v).

(** Its [catch] block, but for the fallback frame. *)
Definition loadFailed (name message : string) (v : Viewer) : Viewer :=
  showLoading false (showError (getErrorMessage name message) v).

(** What can happen to the viewer once [init] has run.  A thumbnail
    calls [goToPage] with its page. *)
Inductive Event : Type :=
| ClickPrevPage
| ClickNextPage
| ClickZoomIn
| ClickZoomOut
| ClickThumbnail (pageNum : Z)
| KeyDown (key : string) (inside : bool)
| Loaded (numPages : Z)
| LoadFinished
| LoadFailed (name message : string)
| Settled (ok : bool)
| UnlockFullPdf.

(** [init] attaches the listeners and starts [loadPDF] only when it has
    found the canvas; [unlockFullPdf] is public and can always be
    called. *)
Definition handle (v : Viewer) (e : Event) : Viewer :=
  match e with
  | UnlockFullPdf => unlockFullPdf v
  | Settled ok => settled ok v
  | _ =>
      if canvas v then
        match e with
        | ClickPrevPage => onPrevPage v
        | ClickNextPage => onNextPage v
        | ClickZoomIn => onZoomIn v
        | ClickZoomOut => onZoomOut v
        | ClickThumbnail pageNum => goToPage pageNum v
        | KeyDown key inside => handleKeyboard key inside v
        | Loaded numPages => loaded numPages v
        | LoadFinished => loadFinished v
        | LoadFailed name message => loadFailed name message v
        | _ => v
        end
      else v
  end.

Definition run (es : list Event) (v : Viewer) : Viewer := fold_left handle es v.

(** The viewer as the module's declarations and [init] leave it, on a
    page with the elements [d]. *)
Definition init (d : Elements) (canvas ctx : bool) : Viewer :=
  mkViewer d None canvas ctx 1 scale false None false 30 Idle None.

Definition is_unlock (e : Event) : bool :=
  match e with
  | UnlockFullPdf => true
  | _ => false
  end.

Definition is_failure (e : Event) : bool :=
  match e with
  | Settled false => true
  | _ => false
  end.

(** A preview section with all its elements. *)
Definition sample_elements : Elements :=
  mkElements "" (Some "none") (Some (mkIndicator "flex" None))
    (Some false) (Some false) (Some false) (Some false) (Some "1") (Some "5").

Definition sample_viewer : Viewer := init sample_elements true true.

End PdfPreview.


(** The page a suspended call of [renderPage] is about. *)
Definition stage_page (s : PdfPreview.Stage) : option Z :=
  match s with
  | PdfPreview.Idle => None
  | PdfPreview.Fetching p => Some p
  | PdfPreview.Drawing p _ => Some p
  end.

Definition is_idle (s : PdfPreview.Stage) : bool :=
  match s with
  | PdfPreview.Idle => true
  | _ => false
  end.

(** A page the viewer may show: a page of the preview as long as the
    viewer is locked. *)
Definition allowed (v : PdfPreview.Viewer) (p : Z) : Prop :=
  (1 <= p)%Z /\ (PdfPreview.isUnlocked v = false -> (p <= PdfPreview.previewPages)%Z).

Definition in_bounds (s : Z) : Prop :=
  (PdfPreview.minScale <= s <= PdfPreview.maxScale)%Z.

(** What every event keeps: the current page, the pending page, the page
    being fetched or drawn and the page on the canvas are allowed, the
    scales are within bounds, and [pageRendering] tells whether a call of
    [renderPage] is suspended. *)
Definition pdf_safe (v : PdfPreview.Viewer) : Prop :=
  allowed v (PdfPreview.currentPage v) /\
  (forall p, PdfPreview.pageNumPending v = Some p -> allowed v p) /\
  (forall p, stage_page (PdfPreview.suspended v) = Some p -> allowed v p) /\
  (forall p s, PdfPreview.shown v = Some (p, s) -> allowed v p /\ in_bounds s) /\
  in_bounds (PdfPreview.currentScale v) /\
  (forall p s, PdfPreview.suspended v = PdfPreview.Drawing p s -> in_bounds s) /\
  PdfPreview.pageRendering v = negb (is_idle (PdfPreview.suspended v)).

(** [renderPage] gets past its first test. *)
Definition ready (v : PdfPreview.Viewer) : bool :=
  bool_decide (is_Some (PdfPreview.pdfDoc v)) && PdfPreview.canvas v && PdfPreview.ctx v.

(** The canvas keeps up with the controls: a pending page is the current
    page; without one, the page being fetched or drawn is the current
    page, drawn at the current scale; and when nothing is suspended the
    canvas holds the current page at the current scale. *)
Definition pdf_synced (v : PdfPreview.Viewer) : Prop :=
  (forall q, PdfPreview.pageNumPending v = Some q -> q = PdfPreview.currentPage v) /\
  match PdfPreview.suspended v with
  | PdfPreview.Idle =>
      PdfPreview.pageNumPending v = None /\
      (ready v = true ->
       PdfPreview.shown v = Some (PdfPreview.currentPage v, PdfPreview.currentScale v))
  | PdfPreview.Fetching p =>
      ready v = true /\
      (PdfPreview.pageNumPending v = None -> p = PdfPreview.currentPage v)
  | PdfPreview.Drawing p s =>
      ready v = true /\
      (PdfPreview.pageNumPending v = None ->
       p = PdfPreview.currentPage v /\ s = PdfPreview.currentScale v)
  end.

(* ===================================================================== *)
(** * Properties *)
(* ===================================================================== *)

(** ** Strings *)

Lemma trimEnd_idempotent (s : string) : trimEnd (trimEnd s) = trimEnd s.
Proof.
  induction s as [|c s IH]; simpl; [reflexivity|].
  destruct (trimEnd s) as [|d t] eqn:E.
  - destruct (isWhiteSpace c) eqn:W; simpl; [reflexivity|].
    rewrite W. reflexivity.
  - change (trimEnd (String c (String d t))) with
      (match trimEnd (String d t) with
       | EmptyString => if isWhiteSpace c then EmptyString else String c EmptyString
       | String a u => String c (String a u)
       end).
    rewrite IH. reflexivity.
Qed.

Lemma trimStart_head (s : string) :
  trimStart s = EmptyString \/
  exists c t, trimStart s = String c t /\ isWhiteSpace c = false.
Proof.
  induction s as [|c s IH]; simpl; [auto|].
  destruct (isWhiteSpace c) eqn:W; [exact IH|].
  right. exists c, s. auto.
Qed.

Lemma trimStart_trimEnd (c : ascii) (t : string) :
  isWhiteSpace c = false -> trimStart (trimEnd (String c t)) = trimEnd (String c t).
Proof.
  intros W. simpl. destruct (trimEnd t); rewrite ?W; simpl; rewrite W; reflexivity.
Qed.

Lemma trim_idempotent (s : string) : trim (trim s) = trim s.
Proof.
  unfold trim. destruct (trimStart_head s) as [E|(c & t & E & W)]; rewrite E.
  - reflexivity.
  - rewrite (trimStart_trimEnd c t W). apply trimEnd_idempotent.
Qed.

(** ** The matcher decides the language of a pattern *)

Lemma append_empty (s1 s2 : string) : s1 +:+ s2 = "" -> s1 = "" /\ s2 = "".
Proof. destruct s1; simpl; [auto|discriminate]. Qed.

Lemma append_cons (s1 s2 : string) (c : ascii) (s : string) :
  s1 +:+ s2 = String c s ->
  (s1 = "" /\ s2 = String c s) \/ (exists t, s1 = String c t /\ s = t +:+ s2).
Proof.
  destruct s1 as [|d t]; simpl; intros H; [left; auto|].
  injection H as -> <-. right. exists t. auto.
Qed.

Lemma append_String (c : ascii) (s1 s2 : string) :
  String c s1 +:+ s2 = String c (s1 +:+ s2).
Proof. reflexivity. Qed.

Lemma append_empty_r (s : string) : s +:+ "" = s.
Proof. induction s as [|c s IH]; [reflexivity|]. rewrite append_String, IH. reflexivity. Qed.

Lemma rep_matches_empty (r : regex) (lo hi : nat) :
  matches r "" -> lo <= hi -> matches (Rep r lo hi) "".
Proof.
  intros Hr. revert lo. induction hi as [|hi IH]; intros lo Hle.
  - replace lo with 0 by lia. constructor.
  - destruct lo as [|lo]; [constructor|].
    change "" with ("" +:+ ""). apply MRepMore; [assumption|]. apply IH. simpl. lia.
Qed.

Lemma matches_nullable (r : regex) (s : string) :
  matches r s -> s = "" -> nullable r = true.
Proof.
  induction 1 as [ | | | r1 r2 s1 s2 _ IH1 _ IH2 | r1 r2 s _ IH | r1 r2 s _ IH
                 | | | r s _ IH | r s1 s2 _ IH1 _ _ | | r lo hi s1 s2 _ IH1 _ IH2 ];
    intros E; simpl; try discriminate; try reflexivity.
  - destruct (append_empty _ _ E) as [-> ->]. rewrite IH1, IH2; reflexivity.
  - rewrite IH by assumption. reflexivity.
  - rewrite IH by assumption. apply orb_true_r.
  - auto.
  - destruct (append_empty _ _ E) as [-> ->]. apply IH1. reflexivity.
  - destruct (append_empty _ _ E) as [-> ->].
    rewrite IH1 by reflexivity. specialize (IH2 eq_refl). simpl in IH2.
    apply orb_true_iff in IH2. apply orb_true_iff. right. simpl.
    destruct IH2 as [H|H].
    + apply Nat.eqb_eq in H. apply Nat.leb_le. lia.
    + apply andb_true_iff in H. destruct H as [_ H].
      apply Nat.leb_le in H. apply Nat.leb_le. lia.
Qed.

Lemma nullable_matches (r : regex) : nullable r = true <-> matches r "".
Proof.
  split; [|intros H; apply (matches_nullable r "" H eq_refl)].
  induction r as [ | | c | n items | r1 IH1 r2 IH2 | r1 IH1 r2 IH2 | r IH | r IH
                 | r IH lo hi ]; simpl; intros H; try discriminate.
  - constructor.
  - apply andb_true_iff in H. destruct H as [H1 H2].
    change "" with ("" +:+ ""). constructor; auto.
  - apply orb_true_iff in H. destruct H as [H|H]; [apply MAltL|apply MAltR]; auto.
  - constructor.
  - apply MPlusOne. auto.
  - apply orb_true_iff in H. destruct H as [H|H].
    + apply Nat.eqb_eq in H. subst lo. constructor.
    + apply andb_true_iff in H. destruct H as [H1 H2]. apply Nat.leb_le in H2.
      apply rep_matches_empty; auto.
Qed.

(** A derivative matches what is left after its character. *)
Lemma deriv_sound (c : ascii) (r : regex) (s : string) :
  matches (deriv c r) s -> matches r (String c s).
Proof.
  revert s.
  induction r as [ | | d | n items | r1 IH1 r2 IH2 | r1 IH1 r2 IH2 | r IH | r IH
                 | r IH lo hi ]; simpl; intros s H.
  - inversion H.
  - inversion H.
  - destruct (Ascii.eqb c d) eqn:E; inversion H; subst.
    apply Ascii.eqb_eq in E. subst d. constructor.
  - destruct (in_class n items c) eqn:E; inversion H; subst. constructor. assumption.
  - destruct (nullable r1) eqn:N.
    + inversion H as [ | | | | ? ? ? HL | ? ? ? HR | | | | | | ]; subst.
      * inversion HL; subst.
        change (String c (?a +:+ ?b)) with (String c a +:+ b). constructor; auto.
      * change (String c s) with ("" +:+ String c s).
        constructor; [apply nullable_matches; assumption|auto].
    + inversion H; subst.
      change (String c (?a +:+ ?b)) with (String c a +:+ b). constructor; auto.
  - inversion H; subst; [apply MAltL|apply MAltR]; auto.
  - apply MOptSome. auto.
  - inversion H as [ | | | ? ? a b Ha Hb | | | | | | | | ]; subst.
    inversion Hb; subst.
    + rewrite append_empty_r. apply MPlusOne. auto.
    + change (String c (?a +:+ ?b)) with (String c a +:+ b). apply MPlusMore; auto.
  - destruct hi as [|hi]; [inversion H|].
    inversion H; subst.
    change (String c (?a +:+ ?b)) with (String c a +:+ b). apply MRepMore; auto.
Qed.

Lemma deriv_complete (r : regex) (s0 : string) :
  matches r s0 -> forall c s, s0 = String c s -> matches (deriv c r) s.
Proof.
  induction 1 as [ | d | n items d Hd | r1 r2 s1 s2 H1 IH1 H2 IH2 | r1 r2 s0 _ IH
                 | r1 r2 s0 _ IH | | r s0 _ IH | r s0 _ IH
                 | r s1 s2 H1 IH1 H2 IH2 | | r lo hi s1 s2 H1 IH1 H2 IH2 ];
    intros c s E; simpl; try discriminate.
  - injection E as -> <-. rewrite Ascii.eqb_refl. constructor.
  - injection E as -> <-. rewrite Hd. constructor.
  - destruct (append_cons _ _ _ _ E) as [[-> ->]|(t & -> & ->)].
    + rewrite (proj2 (nullable_matches r1) H1). apply MAltR. auto.
    + destruct (nullable r1); [apply MAltL|]; constructor; auto.
  - apply MAltL. auto.
  - apply MAltR. auto.
  - auto.
  - rewrite <- (append_empty_r s). constructor; [auto|constructor].
  - destruct (append_cons _ _ _ _ E) as [[-> ->]|(t & -> & ->)].
    + apply (IH2 c s eq_refl).
    + constructor; [auto|]. apply MOptSome. assumption.
  - destruct (append_cons _ _ _ _ E) as [[-> ->]|(t & -> & ->)].
    + specialize (IH2 c s eq_refl). simpl in IH2.
      destruct hi as [|hi]; [inversion IH2|].
      inversion IH2 as [ | | | ? ? a b Ha Hb | | | | | | | | ]; subst.
      constructor; [assumption|].
      change b with ("" +:+ b). apply MRepMore; assumption.
    + constructor; auto.
Qed.

(** [test] answers [true] exactly on the strings of the pattern. *)
Theorem test_matches (r : regex) (s : string) : test r s = true <-> matches r s.
Proof.
  revert r. induction s as [|c s IH]; intros r; simpl.
  - apply nullable_matches.
  - rewrite IH. split; [apply deriv_sound|].
    intros H. apply (deriv_complete r _ H c s eq_refl).
Qed.

(** A bounded repetition of a bracket expression: the length is within
    the bounds and every character is in the class. *)
Lemma matches_rep_class (n : bool) (items : list citem) (lo hi : nat) (s : string) :
  matches (Rep (Class n items) lo hi) s <->
  lo <= String.length s <= hi /\
  forallb (in_class n items) (list_ascii_of_string s) = true.
Proof.
  split.
  - remember (Rep (Class n items) lo hi) as r eqn:Er. intros H. revert lo hi Er.
    induction H as [ | | | | | | | | | | r0 hi0 | r0 lo0 hi0 s1 s2 H1 _ H2 IH2 ];
      intros lo hi Er; try discriminate.
    + injection Er as -> <- <-. simpl. split; [lia|reflexivity].
    + injection Er as -> <- <-. inversion H1; subst.
      destruct (IH2 (pred lo0) hi0 eq_refl) as [Hl Hc].
      change (String ?c "" +:+ s2) with (String c s2). simpl.
      split; [lia|]. rewrite Hc.
      match goal with Hin : in_class _ _ _ = true |- _ => rewrite Hin end. reflexivity.
  - revert lo hi. induction s as [|c s IH]; simpl; intros lo hi [Hl Hc].
    + replace lo with 0 by lia. constructor.
    + apply andb_true_iff in Hc. destruct Hc as [Hc1 Hc2].
      destruct hi as [|hi]; [lia|].
      change (String c s) with (String c "" +:+ s).
      apply MRepMore; [constructor; assumption|]. apply IH. split; [lia|assumption].
Qed.

(** The phone pattern of the form module in words: an optional [+], then
    ten to twenty characters, each a digit, white space, a hyphen or a
    parenthesis. *)
Theorem phone_pattern_shape (s : string) :
  test patterns.phone s = true <->
  exists body,
    (s = body \/ s = String "+" body) /\
    10 <= String.length body <= 20 /\
    forallb (in_class false [CRange "0" "9"; CSpace; CChar "-"; CChar "("; CChar ")"])
            (list_ascii_of_string body) = true.
Proof.
  rewrite test_matches. unfold patterns.phone. cbn [seq]. split.
  - intros H. inversion H as [ | | | ? ? s1 s2 H1 H2 | | | | | | | | ]; subst.
    apply matches_rep_class in H2. exists s2. split; [|exact H2].
    inversion H1 as [ | | | | | | | ? ? Hc | | | | ]; subst; [left; reflexivity|].
    inversion Hc as [ | | ? ? c Hin | | | | | | | | | ]; subst.
    unfold in_class in Hin. simpl in Hin. rewrite orb_false_r in Hin.
    apply Ascii.eqb_eq in Hin. subst c. right. reflexivity.
  - intros (body & [->| ->] & Hb).
    + change body with ("" +:+ body). constructor; [constructor|].
      apply matches_rep_class. exact Hb.
    + change (String "+" body) with (String "+" "" +:+ body).
      constructor; [apply MOptSome; constructor; reflexivity|].
      apply matches_rep_class. exact Hb.
Qed.

(** The examples of the order sheet. *)
Example name_examples :
  test patterns.name "O'Brien" = true /\
  test patterns.name "Abdullah Al-Rahman" = true /\
  test patterns.name "Test@123" = false.
Proof. vm_compute. repeat split. Qed.

Example email_examples :
  test patterns.email "fatima.ahmed.test@example.com" = true /\
  test patterns.email "invalid-email-no-at-sign" = false /\
  test patterns.email "user@nodot" = false.
Proof. vm_compute. repeat split. Qed.

(** ** Validation leaves only marks *)

Lemma strip_idempotent (f : Field) : strip (strip f) = strip f.
Proof. reflexivity. Qed.

Lemma check_strip (f : Field) : check (strip f) = check f.
Proof. reflexivity. Qed.

Lemma passes_strip (o : option Field) : passes (strip <$> o) = passes o.
Proof. destruct o; reflexivity. Qed.

Lemma gate_strip (o : option Field) : gate (strip <$> o) = gate o.
Proof. destruct o; reflexivity. Qed.

Lemma erase_updField (k : FieldKey) (g : Field -> Field) (st : State) :
  (forall f, strip (g f) = strip f) -> erase (updField k g st) = erase st.
Proof.
  intros Hg. unfold erase, updField, on_dom, set_dom; simpl.
  f_equal. unfold set_errorSlots, set_fields; simpl. f_equal.
  apply map_eq. intros j. rewrite !lookup_fmap.
  destruct (decide (k = j)) as [->|Hne].
  - rewrite lookup_alter_eq. destruct (fields (dom st) !! j); simpl; [|reflexivity].
    rewrite Hg. reflexivity.
  - rewrite lookup_alter_ne by assumption. reflexivity.
Qed.

Lemma erase_setErrorText (id txt : string) (st : State) :
  erase (setErrorText id txt st) = erase st.
Proof. reflexivity. Qed.

Lemma formFields_erase (k : FieldKey) (st : State) :
  formFields k (erase st) = strip <$> formFields k st.
Proof.
  unfold formFields, getField; simpl. destruct (initialised st); [|reflexivity].
  apply lookup_fmap.
Qed.

Lemma validateField_fst (k : FieldKey) (st : State) :
  fst (validateField k st) = passes (formFields k st).
Proof.
  unfold validateField, passes. destruct (formFields k st) as [f|]; [|reflexivity].
  destruct (f_name f =? "_gotcha"); [reflexivity|].
  destruct (check f) as [[] msg]; reflexivity.
Qed.

Lemma validateField_erase (k : FieldKey) (st : State) :
  erase (snd (validateField k st)) = erase st.
Proof.
  unfold validateField. destruct (formFields k st) as [f|]; [|reflexivity].
  destruct (f_name f =? "_gotcha"); simpl.
  - rewrite erase_updField by reflexivity. apply erase_setErrorText.
  - destruct (check f) as [[] msg]; simpl;
      rewrite ?erase_updField, ?erase_setErrorText, ?erase_updField by reflexivity;
      reflexivity.
Qed.

Lemma gate_erase (k : FieldKey) (st st' : State) :
  erase st' = erase st -> gate (formFields k st') = gate (formFields k st).
Proof.
  intros E. rewrite <- (gate_strip (formFields k st')), <- (gate_strip (formFields k st)).
  rewrite <- !formFields_erase, E. reflexivity.
Qed.

Lemma validateForm_step_spec (b : bool) (st : State) (k : FieldKey) :
  fst (validateForm_step (b, st) k) = b && gate (formFields k st) /\
  erase (snd (validateForm_step (b, st) k)) = erase st.
Proof.
  unfold validateForm_step, gate.
  pose proof (validateField_fst k st) as Hf.
  pose proof (validateField_erase k st) as He.
  destruct (formFields k st) as [f|] eqn:E.
  - destruct (negb (f_name f =? "addressLine2") && negb (f_name f =? "_gotcha")).
    + destruct (validateField k st) as [ok st']; simpl in *. subst ok.
      split; [|assumption].
      match goal with
      | |- (if negb ?x then false else _) = _ => destruct x, b; reflexivity
      end.
    + simpl. split; [destruct b|]; reflexivity.
  - simpl. split; [destruct b|]; reflexivity.
Qed.

Lemma validateForm_fold (keys : list FieldKey) (b : bool) (st : State) :
  fst (fold_left validateForm_step keys (b, st))
    = b && forallb (fun k => gate (formFields k st)) keys /\
  erase (snd (fold_left validateForm_step keys (b, st))) = erase st.
Proof.
  revert b st. induction keys as [|k keys IH]; intros b st; cbn [fold_left forallb].
  - split; [destruct b|]; reflexivity.
  - destruct (validateForm_step_spec b st k) as [Hb He].
    destruct (validateForm_step (b, st) k) as [b' st']; cbn [fst snd] in *.
    destruct (IH b' st') as [Hb' He']. split.
    + rewrite Hb', Hb, <- andb_assoc. f_equal. f_equal.
      clear -He. induction keys as [|j keys IHk]; cbn [forallb]; [reflexivity|].
      rewrite IHk, (gate_erase j st st' He). reflexivity.
    + rewrite He'. assumption.
Qed.

(** [validateForm] answers with the conjunction of the gates and changes
    nothing but marks. *)
Lemma validateForm_spec (st : State) :
  fst (validateForm st) = forallb (fun k => gate (formFields k st)) all_keys /\
  erase (snd (validateForm st)) = erase st.
Proof. apply (validateForm_fold all_keys true st). Qed.

Lemma requests_erase (st : State) : requests (erase st) = requests st.
Proof. reflexivity. Qed.

Lemma gate_required (k : FieldKey) (st : State) :
  names_match st = true -> In k required_keys ->
  gate (formFields k st) = passes (formFields k st).
Proof.
  intros Hn Hk. unfold formFields. destruct (initialised st); [|reflexivity].
  destruct (getField k st) as [f|] eqn:E; [|reflexivity].
  unfold names_match in Hn. rewrite forallb_forall in Hn.
  assert (Hin : In k all_keys) by (destruct k; simpl; tauto).
  specialize (Hn k Hin). rewrite E in Hn. apply String.eqb_eq in Hn.
  unfold gate. rewrite Hn.
  destruct k; simpl in Hk; try reflexivity; exfalso; intuition discriminate.
Qed.

(** ** The gate in front of the relay *)

(** [handleSubmit] leaves the requests alone unless the decoy is clear and
    the form validates. *)
Lemma handleSubmit_requests (env : Env) (st : State) :
  requests (handleSubmit env st) = requests st \/
  (spam st = false /\ fst (validateForm st) = true).
Proof.
  unfold handleSubmit. destruct (spam st); [left; reflexivity|].
  destruct (validateForm_spec st) as [Hv He].
  destruct (validateForm st) as [valid st1]; simpl in *.
  destruct valid; [right; auto|left]; simpl.
  assert (R : requests st1 = requests st)
    by (rewrite <- (requests_erase st1), He; reflexivity).
  destruct (firstError st1); simpl; exact R.
Qed.

Lemma gate_named (k : FieldKey) (st : State) (field : Field) :
  formFields k st = Some field -> In (f_name field) required_names ->
  gate (formFields k st) = passes (formFields k st).
Proof.
  intros E Hin. rewrite E. unfold gate.
  unfold required_names, required_keys in Hin. simpl in Hin.
  repeat (destruct Hin as [<-|Hin]; [reflexivity|]). contradiction.
Qed.

(** C1. A request reaches the relay only if every control with the name
    of a required field passes [validateField] and the trimmed value of
    the decoy is the empty string.  On a page whose controls carry the
    names they are looked up by, this is every reference cached under a
    required key (a missing control passes, as [validateField(null)]
    does). *)
Theorem transmission_only_if_valid (env : Env) (st : State) :
  requests (handleSubmit env st) <> requests st ->
  (forall k field,
      formFields k st = Some field -> In (f_name field) required_names ->
      fst (validateField k st) = true) /\
  (names_match st = true ->
   forall k, In k required_keys -> fst (validateField k st) = true) /\
  (exists decoy, formFields _gotcha st = Some decoy /\ trim (f_value decoy) = "").
Proof.
  intros Hreq.
  destruct (handleSubmit_requests env st) as [E|[Hs Hv]]; [contradiction|].
  destruct (validateForm_spec st) as [Hf _]. rewrite Hf in Hv.
  rewrite forallb_forall in Hv.
  assert (Hall : forall k, In k all_keys) by (intros []; simpl; tauto).
  split; [|split].
  - intros k field E Hin.
    rewrite validateField_fst, <- (gate_named k st field E Hin). apply Hv, Hall.
  - intros Hn k Hk.
    rewrite validateField_fst, <- (gate_required k st Hn Hk). apply Hv, Hall.
  - unfold spam in Hs. destruct (formFields _gotcha st) as [decoy|]; [|discriminate].
    exists decoy. split; [reflexivity|].
    apply String.eqb_eq. destruct (trim (f_value decoy) =? ""); [reflexivity|discriminate].
Qed.

Lemma transmission_only_if_valid_witness :
  (forall k field,
      formFields k sample_page = Some field -> In (f_name field) required_names ->
      fst (validateField k sample_page) = true) /\
  (names_match sample_page = true ->
   forall k, In k required_keys -> fst (validateField k sample_page) = true) /\
  (exists decoy, formFields _gotcha sample_page = Some decoy /\ trim (f_value decoy) = "").
Proof.
  apply (transmission_only_if_valid ok_env sample_page).
  vm_compute. discriminate.
Defined.

(** ** The honeypot *)

Lemma spam_aborts (env : Env) (st : State) :
  spam st = true -> handleSubmit env st = console_log (Warn "Spam detected") st.
Proof. intros H. unfold handleSubmit. rewrite H. reflexivity. Qed.

(** C2, as stated, fails: a decoy holding one blank has a non-empty value,
    yet the form is validated and the order is sent. *)
Lemma blank_decoy_is_transmitted :
  (exists decoy, formFields _gotcha blank_decoy_page = Some decoy /\
                 f_value decoy = " " /\ f_value decoy <> "") /\
  fst (validateForm blank_decoy_page) = true /\
  length (requests (handleSubmit (sample_env ResponseOk) blank_decoy_page)) = 1 /\
  requests blank_decoy_page = [].
Proof.
  split; [|vm_compute; auto].
  eexists. split; [vm_compute; reflexivity|]. split; [reflexivity|discriminate].
Qed.

(** C2, amended. When the decoy holds a value that is not empty once
    trimmed, [handleSubmit] only writes a console warning: the document is
    untouched (no validation mark, no error text, no field touched), no
    alert is shown and no request is sent, whatever the other fields
    hold. *)
Theorem filled_decoy_aborts_silently (env : Env) (st : State) (decoy : Field) :
  formFields _gotcha st = Some decoy ->
  trim (f_value decoy) <> "" ->
  handleSubmit env st = console_log (Warn "Spam detected") st /\
  dom (handleSubmit env st) = dom st /\
  alerts (handleSubmit env st) = alerts st /\
  requests (handleSubmit env st) = requests st /\
  timers (handleSubmit env st) = timers st.
Proof.
  intros Hd Hv.
  assert (Hs : spam st = true).
  { unfold spam. rewrite Hd. destruct (trim (f_value decoy) =? "") eqn:E; [|reflexivity].
    apply String.eqb_eq in E. contradiction. }
  rewrite (spam_aborts env st Hs). repeat split.
Qed.

Lemma filled_decoy_aborts_silently_witness :
  let st := typed _gotcha "spam text" sample_page in
  handleSubmit (sample_env ResponseOk) st = console_log (Warn "Spam detected") st /\
  dom (handleSubmit (sample_env ResponseOk) st) = dom st /\
  alerts (handleSubmit (sample_env ResponseOk) st) = alerts st /\
  requests (handleSubmit (sample_env ResponseOk) st) = requests st /\
  timers (handleSubmit (sample_env ResponseOk) st) = timers st.
Proof.
  apply (filled_decoy_aborts_silently (sample_env ResponseOk)
           (typed _gotcha "spam text" sample_page) (text_input "_gotcha" false "spam text")).
  - vm_compute. reflexivity.
  - vm_compute. discriminate.
Defined.

(** C10. When the document has no decoy input, the reference [init]
    caches is null and [handleSubmit] treats every submission as spam: it
    only writes the console warning; nothing is validated, no request is
    sent and no alert or error is shown, whatever the other fields hold. *)
Theorem missing_decoy_aborts_silently (env : Env) (st : State) :
  getField _gotcha st = None ->
  formFields _gotcha (init st) = None /\
  handleSubmit env (init st) = console_log (Warn "Spam detected") (init st) /\
  dom (handleSubmit env (init st)) = dom (init st) /\
  alerts (handleSubmit env (init st)) = alerts st /\
  requests (handleSubmit env (init st)) = requests st.
Proof.
  intros Hd.
  assert (Hf : formFields _gotcha (init st) = None) by exact Hd.
  assert (Hs : spam (init st) = true) by (unfold spam; rewrite Hf; reflexivity).
  rewrite (spam_aborts env (init st) Hs). repeat split. exact Hf.
Qed.

Lemma missing_decoy_aborts_silently_witness :
  formFields _gotcha (init no_decoy_page) = None /\
  handleSubmit (sample_env ResponseOk) (init no_decoy_page)
    = console_log (Warn "Spam detected") (init no_decoy_page) /\
  dom (handleSubmit (sample_env ResponseOk) (init no_decoy_page)) = dom (init no_decoy_page) /\
  alerts (handleSubmit (sample_env ResponseOk) (init no_decoy_page)) = alerts no_decoy_page /\
  requests (handleSubmit (sample_env ResponseOk) (init no_decoy_page)) = requests no_decoy_page.
Proof.
  apply (missing_decoy_aborts_silently (sample_env ResponseOk) no_decoy_page).
  vm_compute. reflexivity.
Defined.

(** ** What validation and reset can touch *)

Lemma with_marks_same (st : State) :
  with_marks (fields (dom st)) (errorSlots (dom st)) st = st.
Proof. destruct st as [[] ? ? ? ? ? ? ? ?]; reflexivity. Qed.

Lemma erase_with_marks (st st1 : State) :
  erase st1 = erase st ->
  st1 = with_marks (fields (dom st1)) (errorSlots (dom st1)) st /\
  strip <$> fields (dom st1) = strip <$> fields (dom st).
Proof.
  destruct st as [[] ? ? ? ? ? ? ? ?], st1 as [[] ? ? ? ? ? ? ? ?].
  unfold erase, with_marks, on_dom, set_dom, set_errorSlots, set_fields; simpl.
  intros E. injection E as -> -> -> -> -> -> -> -> -> -> -> -> -> -> -> -> ->.
  split; reflexivity.
Qed.

Lemma validateForm_marks (st : State) :
  exists fs es,
    snd (validateForm st) = with_marks fs es st /\
    strip <$> fs = strip <$> fields (dom st).
Proof.
  destruct (validateForm_spec st) as [_ He].
  destruct (erase_with_marks st _ He) as [E1 E2].
  eexists _, _. split; [exact E1|exact E2].
Qed.

Lemma updField_marks (k : FieldKey) (g : Field -> Field) fs es (st : State) :
  updField k g (with_marks fs es st) = with_marks (alter g k fs) es st.
Proof. reflexivity. Qed.

Lemma setErrorText_marks (id txt : string) fs es (st : State) :
  setErrorText id txt (with_marks fs es st)
    = with_marks fs (alter (fun _ => txt) id es) st.
Proof. reflexivity. Qed.

Lemma form_reset_marks (form : Form) fs es (st : State) :
  exists fs', form_reset form (with_marks fs es st) = with_marks fs' es st.
Proof.
  unfold form_reset. revert fs.
  induction (fm_controls form) as [|c cs IH]; intros fs; simpl.
  - eexists; reflexivity.
  - destruct c as [k|n v]; [rewrite updField_marks|]; apply IH.
Qed.

Lemma resetForm_fold_marks (keys : list FieldKey) fs es (st : State) :
  exists fs' es',
    fold_left resetForm_step keys (with_marks fs es st) = with_marks fs' es' st.
Proof.
  revert fs es. induction keys as [|k keys IH]; intros fs es; cbn [fold_left].
  - eexists _, _; reflexivity.
  - unfold resetForm_step at 2.
    destruct (formFields k (with_marks fs es st)); [|apply IH].
    rewrite !updField_marks, setErrorText_marks. apply IH.
Qed.

(** [resetForm] only touches the controls and the error slots. *)
Lemma resetForm_marks fs es (st : State) :
  exists fs' es', resetForm (with_marks fs es st) = with_marks fs' es' st.
Proof.
  unfold resetForm. change (shippingForm (dom (with_marks fs es st)))
    with (shippingForm (dom st)).
  destruct (shippingForm (dom st)) as [form|]; [|eexists _, _; reflexivity].
  destruct (form_reset_marks form fs es st) as [fs' ->].
  apply resetForm_fold_marks.
Qed.

(** ** What the order object and the form data read *)

Lemma strip_inj (f g : Field) :
  Some (strip f) = Some (strip g) ->
  f_name f = f_name g /\ f_type f = f_type g /\ f_required f = f_required g /\
  f_disabled f = f_disabled g /\ f_value f = f_value g /\ f_checked f = f_checked g.
Proof. intros H. injection H. intros. repeat split; assumption. Qed.

Lemma formFields_strip (k : FieldKey) (st st1 : State) :
  erase st1 = erase st -> strip <$> formFields k st1 = strip <$> formFields k st.
Proof. intros E. rewrite <- !formFields_erase, E. reflexivity. Qed.

Lemma trimmedValue_erase (k : FieldKey) (st st1 : State) :
  erase st1 = erase st -> trimmedValue k st1 = trimmedValue k st.
Proof.
  intros E. unfold trimmedValue. pose proof (formFields_strip k st st1 E) as H.
  destruct (formFields k st1), (formFields k st); simpl in H; try discriminate;
    [|reflexivity].
  destruct (strip_inj _ _ H) as (_ & _ & _ & _ & -> & _). reflexivity.
Qed.

Lemma getFormData_erase (env : Env) (st st1 : State) :
  erase st1 = erase st -> getFormData env st1 = getFormData env st.
Proof.
  intros E. unfold getFormData.
  rewrite !(trimmedValue_erase _ st st1 E).
  pose proof (formFields_strip country st st1 E) as Hc.
  pose proof (formFields_strip privacyConsent st st1 E) as Hp.
  f_equal.
  - destruct (formFields country st1), (formFields country st); simpl in Hc;
      try discriminate; [|reflexivity].
    destruct (strip_inj _ _ Hc) as (_ & _ & _ & _ & -> & _). reflexivity.
  - destruct (formFields privacyConsent st1), (formFields privacyConsent st);
      simpl in Hp; try discriminate; [|reflexivity].
    destruct (strip_inj _ _ Hp) as (_ & _ & _ & _ & _ & ->). reflexivity.
Qed.

Lemma control_entries_fields (c : Control) (st st1 : State) :
  strip <$> fields (dom st1) = strip <$> fields (dom st) ->
  control_entries st1 c = control_entries st c.
Proof.
  intros E. destruct c as [k|n v]; [|reflexivity]. simpl.
  assert (H : strip <$> getField k st1 = strip <$> getField k st).
  { unfold getField. rewrite <- !lookup_fmap, E. reflexivity. }
  destruct (getField k st1) as [f|], (getField k st) as [f0|]; simpl in H;
    try discriminate; [|reflexivity].
  unfold skipped.
  destruct (strip_inj _ _ H) as (-> & -> & _ & -> & -> & ->). reflexivity.
Qed.

(** The form data are read off the controls as they stand; validation
    marks do not matter. *)
Lemma new_FormData_fields (form : Form) (st st1 : State) :
  strip <$> fields (dom st1) = strip <$> fields (dom st) ->
  new_FormData form st1 = new_FormData form st.
Proof.
  intros E. unfold new_FormData.
  induction (fm_controls form) as [|c cs IH]; simpl; [reflexivity|].
  rewrite IH, (control_entries_fields c st st1 E). reflexivity.
Qed.

Lemma fd_set_in (n v : string) (l : list (string * string)) :
  In (n, v) (fd_set n v l).
Proof.
  induction l as [|[n' v'] l IH]; simpl; [auto|].
  destruct (n' =? n); simpl; auto.
Qed.

Lemma fd_set_keeps (n v n' v' : string) (l : list (string * string)) :
  n <> n' -> In (n, v) l -> In (n, v) (fd_set n' v' l).
Proof.
  intros Hne. induction l as [|[m w] l IH]; simpl; [tauto|].
  intros [E|Hin].
  - injection E as -> ->. destruct (n =? n') eqn:Q.
    + apply String.eqb_eq in Q. contradiction.
    + left; reflexivity.
  - destruct (m =? n') eqn:Q.
    + right. apply filter_In. split; [assumption|]. simpl.
      destruct (n =? n') eqn:Q'; [|reflexivity].
      apply String.eqb_eq in Q'. contradiction.
    + right. auto.
Qed.

(** ** A submission that passes the gate *)

(** Past the honeypot and the validation gate, [handleSubmit] is the
    submission proper, run on the page with some validation marks. *)
Lemma handleSubmit_valid (env : Env) (st : State) :
  spam st = false -> fst (validateForm st) = true ->
  exists fs es,
    strip <$> fs = strip <$> fields (dom st) /\
    handleSubmit env st =
      let formData := getFormData env st in
      let st2 := setSubmitButtonLoading true (with_marks fs es st) in
      setSubmitButtonLoading false
        (match fst (submitFormData env formData st2) with
         | Resolved _ => submitted formData (snd (submitFormData env formData st2))
         | Rejected _ => alert failure_message (snd (submitFormData env formData st2))
         end).
Proof.
  intros Hs Hv. unfold handleSubmit. rewrite Hs.
  destruct (validateForm_spec st) as [_ He].
  destruct (validateForm_marks st) as (fs & es & E & Hfs).
  destruct (validateForm st) as [valid st1]; simpl in Hv, He, E. subst valid.
  exists fs, es. split; [exact Hfs|]. cbn [negb].
  rewrite (getFormData_erase env st st1 He). rewrite <- E.
  destruct (submitFormData env (getFormData env st) (setSubmitButtonLoading true st1))
    as [[id|e] st3]; reflexivity.
Qed.

Lemma setSubmitButtonLoading_marks (b : bool) fs es (st : State) :
  setSubmitButtonLoading b (with_marks fs es st)
    = with_marks fs es (setSubmitButtonLoading b st).
Proof. reflexivity. Qed.

Lemma configured_inv (st : State) :
  configured st = true ->
  exists form action,
    shippingForm (dom st) = Some form /\ fm_action form = Some action /\
    (negb (truthy action) || includes action "YOUR_FORM_ID") = false.
Proof.
  unfold configured. destruct (shippingForm (dom st)) as [form|]; [|discriminate].
  destruct (fm_action form) as [a|] eqn:Ea; [|discriminate].
  intros H. exists form, a. repeat split; try assumption.
  destruct (truthy a), (includes a "YOUR_FORM_ID"); simpl in *; congruence.
Qed.

Lemma submitFormData_configured (env : Env) (fd : OrderData) (st : State)
  (form : Form) (action : string) :
  shippingForm (dom st) = Some form -> fm_action form = Some action ->
  (negb (truthy action) || includes action "YOUR_FORM_ID") = false ->
  submitFormData env fd st =
    let r := mkRequest action "POST" "application/json"
               (fd_set "_replyto" (od_email fd)
                  (fd_set "timestamp" (od_timestamp fd)
                     (fd_set "orderId" (od_orderId fd) (new_FormData form st)))) in
    match fetched env with
    | ResponseOk => (Resolved (od_orderId fd), fetch r st)
    | ResponseNotOk =>
        (Rejected Form_submission_failed,
         console_log (Error "Submission error:" Form_submission_failed) (fetch r st))
    | NetworkError =>
        (Rejected fetch_rejected,
         console_log (Error "Submission error:" fetch_rejected) (fetch r st))
    end.
Proof.
  intros Hf Ha Hc. unfold submitFormData. rewrite Hf, Ha, Hc. reflexivity.
Qed.

Lemma submitFormData_unconfigured (env : Env) (fd : OrderData) (st : State) :
  configured st = false ->
  submitFormData env fd st = (Rejected FORMSPREE_NOT_CONFIGURED, alert setup_message st).
Proof.
  unfold configured, submitFormData.
  destruct (shippingForm (dom st)) as [form|]; [|reflexivity].
  destruct (fm_action form) as [a|]; [|reflexivity].
  destruct (truthy a), (includes a "YOUR_FORM_ID"); simpl; intros; try discriminate;
    reflexivity.
Qed.

Lemma entered_strip (fs fs' : gmap FieldKey Field) :
  strip <$> fs = strip <$> fs' ->
  (fun f => (f_value f, f_checked f)) <$> fs = (fun f => (f_value f, f_checked f)) <$> fs'.
Proof.
  intros E. apply map_eq. intros k. rewrite !lookup_fmap.
  assert (H : strip <$> fs !! k = strip <$> fs' !! k)
    by (rewrite <- !lookup_fmap, E; reflexivity).
  destruct (fs !! k), (fs' !! k); simpl in *; try discriminate; [|reflexivity].
  destruct (strip_inj _ _ H) as (_ & _ & _ & _ & -> & ->). reflexivity.
Qed.

(** C4. When a valid submission is sent and the request fails (a response
    that is not ok, or a network error), both modals are left as they
    were, so the page stays on the order form; one alert is shown; what
    the user entered is unchanged; and the submit button, when the page
    has one, is enabled again. *)
Theorem failed_submission_is_recoverable (env : Env) (st : State) :
  spam st = false -> fst (validateForm st) = true -> configured st = true ->
  fetched env <> ResponseOk ->
  orderModal (dom (handleSubmit env st)) = orderModal (dom st) /\
  confirmationModal (dom (handleSubmit env st)) = confirmationModal (dom st) /\
  modalState (handleSubmit env st) = modalState st /\
  (exists r, requests (handleSubmit env st) = (requests st ++ [r])%list) /\
  alerts (handleSubmit env st) = (alerts st ++ [failure_message])%list /\
  entered (handleSubmit env st) = entered st /\
  b_disabled <$> submitOrderBtn (dom (handleSubmit env st))
    = (fun _ => false) <$> submitOrderBtn (dom st).
Proof.
  intros Hs Hv Hc Hnet.
  destruct (handleSubmit_valid env st Hs Hv) as (fs & es & Hfs & ->).
  destruct (configured_inv st Hc) as (form & action & Hform & Hact & Hok).
  cbv zeta.
  rewrite (submitFormData_configured env _
             (setSubmitButtonLoading true (with_marks fs es st)) form action
             Hform Hact Hok).
  cbv zeta.
  assert (He : entered (with_marks fs es st) = entered st)
    by (apply entered_strip; exact Hfs).
  destruct (fetched env); [contradiction| |]; cbn;
    (repeat split; try reflexivity; try exact He;
     [eexists; reflexivity | destruct (submitOrderBtn (dom st)); reflexivity]).
Qed.

Lemma resetForm_touches_marks (st : State) :
  exists fs es, resetForm st = with_marks fs es st.
Proof.
  destruct (resetForm_marks (fields (dom st)) (errorSlots (dom st)) st)
    as (fs & es & H).
  rewrite with_marks_same in H. exists fs, es. exact H.
Qed.

(** C3. When a valid submission is sent and the response is ok, the order
    modal is hidden, the confirmation modal is shown, and the confirmation
    view shows the order id and the e-mail address of the order object
    that was submitted: the same id the request carries as [orderId] and
    the same address it carries as [_replyto]. *)
Theorem successful_submission_shows_confirmation (env : Env) (st : State) :
  spam st = false -> fst (validateForm st) = true -> configured st = true ->
  fetched env = ResponseOk ->
  is_Some (orderModal (dom st)) -> is_Some (confirmationModal (dom st)) ->
  is_Some (orderIdDisplay (dom st)) -> is_Some (emailDisplay (dom st)) ->
  m_display <$> orderModal (dom (handleSubmit env st)) = Some "none" /\
  m_display <$> confirmationModal (dom (handleSubmit env st)) = Some "flex" /\
  modalState (handleSubmit env st) = Some confirmation_open /\
  orderIdDisplay (dom (handleSubmit env st)) = Some (od_orderId (getFormData env st)) /\
  emailDisplay (dom (handleSubmit env st)) = Some (od_email (getFormData env st)) /\
  exists r,
    requests (handleSubmit env st) = (requests st ++ [r])%list /\
    In ("orderId", od_orderId (getFormData env st)) (rq_body r) /\
    In ("_replyto", od_email (getFormData env st)) (rq_body r).
Proof.
  intros Hs Hv Hc Hnet [om Hom] [cm Hcm] [oid Hoid] [em Hem].
  destruct (handleSubmit_valid env st Hs Hv) as (fs & es & Hfs & ->).
  destruct (configured_inv st Hc) as (form & action & Hform & Hact & Hok).
  cbv zeta.
  rewrite (submitFormData_configured env _
             (setSubmitButtonLoading true (with_marks fs es st)) form action
             Hform Hact Hok).
  cbv zeta. rewrite Hnet. cbn [fst snd].
  set (fd := getFormData env st).
  unfold submitted, closeOrderForm.
  cbn [updOrderModal on_dom dom set_dom orderModal set_orderModal fetch
       set_requests setSubmitButtonLoading set_submitOrderBtn with_marks
       set_errorSlots set_fields].
  rewrite Hom. cbn [fmap option_fmap option_map m_submitted set_m_submitted].
  change ("true" =? "true") with true. cbv iota.
  match goal with
  | |- context [resetForm ?X] =>
      destruct (resetForm_touches_marks X) as (fs' & es' & ->)
  end.
  unfold openConfirmation, restoreFocus.
  match goal with
  | |- context [previousFocus ?X] => destruct (previousFocus X)
  end; cbn; rewrite ?Hcm, ?Hoid, ?Hem; cbn;
    destruct (pdfPreviewModule st); cbn; unfold modalState; cbn;
    rewrite ?Hom, ?Hcm, ?Hoid, ?Hem; cbn;
    (repeat split; try reflexivity;
     eexists; split; [reflexivity|]; split;
     [apply fd_set_keeps; [discriminate|]; apply fd_set_keeps; [discriminate|];
      apply fd_set_in
     |apply fd_set_in]).
Qed.

Lemma successful_submission_shows_confirmation_witness :
  m_display <$> orderModal (dom (handleSubmit ok_env sample_page)) = Some "none" /\
  m_display <$> confirmationModal (dom (handleSubmit ok_env sample_page)) = Some "flex" /\
  modalState (handleSubmit ok_env sample_page) = Some confirmation_open /\
  orderIdDisplay (dom (handleSubmit ok_env sample_page))
    = Some (od_orderId (getFormData ok_env sample_page)) /\
  emailDisplay (dom (handleSubmit ok_env sample_page))
    = Some (od_email (getFormData ok_env sample_page)) /\
  exists r,
    requests (handleSubmit ok_env sample_page) = (requests sample_page ++ [r])%list /\
    In ("orderId", od_orderId (getFormData ok_env sample_page)) (rq_body r) /\
    In ("_replyto", od_email (getFormData ok_env sample_page)) (rq_body r).
Proof.
  apply (successful_submission_shows_confirmation ok_env sample_page);
    try (vm_compute; reflexivity); vm_compute; eexists; reflexivity.
Defined.

Lemma failed_submission_is_recoverable_witness :
  orderModal (dom (handleSubmit not_ok_env sample_page)) = orderModal (dom sample_page) /\
  confirmationModal (dom (handleSubmit not_ok_env sample_page))
    = confirmationModal (dom sample_page) /\
  modalState (handleSubmit not_ok_env sample_page) = modalState sample_page /\
  (exists r, requests (handleSubmit not_ok_env sample_page)
             = (requests sample_page ++ [r])%list) /\
  alerts (handleSubmit not_ok_env sample_page)
    = (alerts sample_page ++ [failure_message])%list /\
  entered (handleSubmit not_ok_env sample_page) = entered sample_page /\
  b_disabled <$> submitOrderBtn (dom (handleSubmit not_ok_env sample_page))
    = (fun _ => false) <$> submitOrderBtn (dom sample_page).
Proof.
  apply (failed_submission_is_recoverable not_ok_env sample_page);
    try (vm_compute; reflexivity); vm_compute; discriminate.
Defined.

(** ** The unconfigured endpoint *)

(** On every page whose action is missing or holds the placeholder,
    [submitFormData] shows the setup message, rejects with
    [FORMSPREE_NOT_CONFIGURED] and sends nothing. *)
Lemma submitFormData_fails_fast (env : Env) (fd : OrderData) (st : State) :
  configured st = false ->
  fst (submitFormData env fd st) = Rejected FORMSPREE_NOT_CONFIGURED /\
  requests (snd (submitFormData env fd st)) = requests st /\
  alerts (snd (submitFormData env fd st)) = (alerts st ++ [setup_message])%list.
Proof.
  intros H. rewrite (submitFormData_unconfigured env fd st H). repeat split.
Qed.

(** ... and its only caller then shows the generic message as well. *)
Lemma unconfigured_submission_alerts (env : Env) (st : State) :
  spam st = false -> fst (validateForm st) = true -> configured st = false ->
  requests (handleSubmit env st) = requests st /\
  alerts (handleSubmit env st) = (alerts st ++ [setup_message; failure_message])%list.
Proof.
  intros Hs Hv Hc.
  destruct (handleSubmit_valid env st Hs Hv) as (fs & es & Hfs & ->).
  cbv zeta.
  rewrite (submitFormData_unconfigured env _
             (setSubmitButtonLoading true (with_marks fs es st)) Hc).
  cbn. rewrite <- app_assoc. split; reflexivity.
Qed.

(** C5, at the page whose action still holds [YOUR_FORM_ID] and whose
    fields are all valid: [submitFormData] rejects with
    [FORMSPREE_NOT_CONFIGURED] and nothing is sent, but the user is shown
    the setup message and then the generic failure message too. *)
Theorem unconfigured_page_shows_generic_alert :
  configured unconfigured_page = false /\
  fst (submitFormData ok_env (getFormData ok_env unconfigured_page) unconfigured_page)
    = Rejected FORMSPREE_NOT_CONFIGURED /\
  requests (handleSubmit ok_env unconfigured_page) = [] /\
  alerts (handleSubmit ok_env unconfigured_page) = [setup_message; failure_message].
Proof. vm_compute. repeat split. Qed.

(** ** Order identifiers *)

Lemma length_digits36 (ds : list nat) : String.length (digits36 ds) = length ds.
Proof. induction ds; simpl; congruence. Qed.

Lemma length_toUpperCase (s : string) : String.length (toUpperCase s) = String.length s.
Proof. induction s; simpl; congruence. Qed.

Lemma substring_digits36 (n : nat) (ds : list nat) :
  String.substring 0 (Nat.min n (length ds)) (digits36 ds) = digits36 (firstn n ds).
Proof.
  revert n. induction ds as [|d ds IH]; intros [|n]; simpl; try reflexivity.
  rewrite IH. reflexivity.
Qed.

(** [substring(2, 9)] keeps the first seven digits of the rendering, or
    all of them when there are fewer. *)
Lemma random_substring (env : Env) :
  js_substring 2 9 (random_toString36 env) = digits36 (firstn 7 (random36 env)).
Proof.
  unfold random_toString36, js_substring.
  destruct (random36 env) as [|d ds]; [reflexivity|].
  change ("0." +:+ digits36 (d :: ds)) with (String "0" (String "." (digits36 (d :: ds)))).
  cbn [String.length]. rewrite length_digits36.
  replace (Nat.min 9 (S (S (length (d :: ds)))) - 2) with (Nat.min 7 (length (d :: ds)))
    by lia.
  change (String.substring 2 ?n (String ?a (String ?b ?s))) with (String.substring 0 n s).
  apply substring_digits36.
Qed.

Lemma digit36_alphabet (d : nat) :
  existsb (Ascii.eqb (upperChar (digit36 d))) (list_ascii_of_string token_alphabet) = true.
Proof.
  assert (H : forallb (fun i => existsb (Ascii.eqb (upperChar (digit36 i)))
                                  (list_ascii_of_string token_alphabet))
                      (List.seq 0 36) = true) by (vm_compute; reflexivity).
  rewrite forallb_forall in H.
  assert (E : digit36 d = digit36 (d mod 36)).
  { unfold digit36. rewrite Nat.Div0.mod_mod. reflexivity. }
  rewrite E. apply H. apply in_seq. pose proof (Nat.mod_upper_bound d 36). lia.
Qed.

Lemma token_alphabet_digits (ds : list nat) :
  all_in token_alphabet (toUpperCase (digits36 ds)) = true.
Proof.
  induction ds as [|d ds IH]; [reflexivity|].
  cbn [digits36 fold_right toUpperCase all_in].
  fold (digits36 ds). rewrite digit36_alphabet, IH. reflexivity.
Qed.

(** C6, as stated, fails: when the random number is one half its
    rendering is ["0.i"] and the token is the single character [I]. *)
Lemma short_token :
  generateOrderId half_env = "RJ-1770046200000-I" /\
  ~ exists token,
      generateOrderId half_env = "RJ-" +:+ number_toString (now half_env) +:+ "-" +:+ token /\
      String.length token = 7.
Proof.
  split; [vm_compute; reflexivity|].
  intros (token & E & L). vm_compute in E.
  injection E as E. subst token. discriminate L.
Qed.

(** C6, amended. Every order id is [RJ-], the epoch milliseconds in
    decimal, [-] and a token; the token is made of the first seven
    radix-36 digits of the random number in upper case, so it has at most
    seven characters (seven exactly when the rendering has that many
    digits), all of them among [0-9A-Z]. *)
Theorem orderId_format (env : Env) :
  let token := toUpperCase (digits36 (firstn 7 (random36 env))) in
  generateOrderId env = "RJ-" +:+ number_toString (now env) +:+ "-" +:+ token /\
  String.length token = Nat.min 7 (length (random36 env)) /\
  all_in token_alphabet token = true.
Proof.
  cbv zeta. split; [|split].
  - unfold generateOrderId. rewrite random_substring. reflexivity.
  - rewrite length_toUpperCase, length_digits36. apply length_firstn.
  - apply token_alphabet_digits.
Qed.

(** ** Phone numbers *)

(** C8, on both handlers.  The pattern of the form module accepts
    [+92-300-1234567] and rejects [12345], and so does its
    [validateField]; the pattern of the standalone handler accepts
    [+92-300-1234567] but accepts [12345] as well, so its
    [validateField] reports no error for it. *)
Theorem phone_examples :
  test patterns.phone "+92-300-1234567" = true /\
  test patterns.phone "12345" = false /\
  check (phone_input "+92-300-1234567") = (true, "") /\
  check (phone_input "12345") = (false, "Please enter a valid phone number") /\
  test PATTERNS.phone "+92-300-1234567" = true /\
  test PATTERNS.phone "12345" = true /\
  Standalone.errorMessage phone (phone_input "12345") = "" /\
  Standalone.validateField phone (phone_input "12345") = true.
Proof. vm_compute. repeat split. Qed.

(** ** Trimming *)

Lemma check_trimmed (f : Field) (v : string) :
  check (set_f_value (trim v) f) = check (set_f_value v f).
Proof. unfold check; simpl. rewrite trim_idempotent. reflexivity. Qed.

Lemma formFields_typed (k : FieldKey) (v : string) (st : State) :
  formFields k (typed k v st) = set_f_value v <$> formFields k st.
Proof.
  unfold formFields, getField, typed, updField; simpl.
  destruct (initialised st); [apply lookup_alter_eq|reflexivity].
Qed.

(** [validateField] only sees the trimmed value of the control. *)
Lemma validateField_trimmed (k : FieldKey) (v : string) (st : State) :
  fst (validateField k (typed k (trim v) st)) = fst (validateField k (typed k v st)).
Proof.
  rewrite !validateField_fst, !formFields_typed.
  destruct (formFields k st) as [f|]; [|reflexivity]. unfold passes; simpl.
  rewrite trim_idempotent, check_trimmed. reflexivity.
Qed.

Lemma control_entry_raw (form : Form) (st : State) (k : FieldKey) (f : Field) :
  In (CField k) (fm_controls form) -> getField k st = Some f -> skipped f = false ->
  In (f_name f, f_value f) (new_FormData form st).
Proof.
  intros Hin Hf Hs. unfold new_FormData. apply in_flat_map.
  exists (CField k). split; [assumption|]. simpl. rewrite Hf, Hs. left; reflexivity.
Qed.

(** C7, as stated, fails: with blanks typed around the first name the
    form validates and the relay receives the name with its blanks. *)
Lemma padded_name_is_transmitted :
  fst (validateForm padded_name_page) = true /\
  trim " Ali " = "Ali" /\
  exists r,
    requests (handleSubmit ok_env padded_name_page) = [r] /\
    In ("firstName", " Ali ") (rq_body r) /\
    ~ In ("firstName", "Ali") (rq_body r).
Proof.
  split; [vm_compute; reflexivity|]. split; [vm_compute; reflexivity|].
  eexists. split; [vm_compute; reflexivity|]. split.
  - simpl. tauto.
  - simpl. intros H.
    repeat (destruct H as [H|H]; [discriminate H|]). exact H.
Qed.

(** C7, amended. Validation sees every control through [trim]: typing a
    value or its trimmed form gives the same verdict.  What a valid,
    configured submission sends is the form data as the controls hold
    them: every control of the form that is not skipped appears with its
    value as it stands (unless it is named [orderId], [timestamp] or
    [_replyto], which are set afterwards), and [_replyto] is the trimmed
    e-mail address. *)
Theorem trimmed_for_validation_raw_for_transmission (env : Env) (st : State) :
  spam st = false -> fst (validateForm st) = true -> configured st = true ->
  (forall k v, fst (validateField k (typed k (trim v) st))
               = fst (validateField k (typed k v st))) /\
  exists form r,
    shippingForm (dom st) = Some form /\
    requests (handleSubmit env st) = (requests st ++ [r])%list /\
    In ("_replyto", trimmedValue email st) (rq_body r) /\
    forall k f,
      In (CField k) (fm_controls form) -> getField k st = Some f ->
      skipped f = false ->
      f_name f <> "orderId" -> f_name f <> "timestamp" -> f_name f <> "_replyto" ->
      In (f_name f, f_value f) (rq_body r).
Proof.
  intros Hs Hv Hc. split; [intros k v; apply validateField_trimmed|].
  destruct (handleSubmit_valid env st Hs Hv) as (fs & es & Hfs & ->).
  destruct (configured_inv st Hc) as (form & action & Hform & Hact & Hok).
  cbv zeta.
  rewrite (submitFormData_configured env _
             (setSubmitButtonLoading true (with_marks fs es st)) form action
             Hform Hact Hok).
  cbv zeta.
  rewrite (new_FormData_fields form st
             (setSubmitButtonLoading true (with_marks fs es st)) Hfs).
  exists form. eexists. split; [exact Hform|]. split; [|split].
  - destruct (fetched env); cbn [fst snd].
    + unfold submitted, closeOrderForm.
      match goal with
      | |- context [match orderModal (dom ?X) with _ => _ end] =>
          destruct (orderModal (dom X)) as [om|]
      end.
      * match goal with
        | |- context [match m_submitted ?m with _ => _ end] =>
            destruct (match m_submitted m with Some v => v =? "true" | None => false end)
        end.
        -- match goal with
           | |- context [resetForm ?X] =>
               destruct (resetForm_touches_marks X) as (fs' & es' & ->)
           end.
           unfold restoreFocus, openConfirmation.
           repeat match goal with
                  | |- context [match ?o with Some _ => _ | None => _ end] =>
                      destruct o
                  end; reflexivity.
        -- unfold restoreFocus, openConfirmation.
           repeat match goal with
                  | |- context [match ?o with Some _ => _ | None => _ end] =>
                      destruct o
                  end; reflexivity.
      * unfold openConfirmation.
        repeat match goal with
               | |- context [match ?o with Some _ => _ | None => _ end] =>
                   destruct o
               end; reflexivity.
    + reflexivity.
    + reflexivity.
  - apply fd_set_in.
  - intros k f Hin Hf Hsk N1 N2 N3. cbn [rq_body].
    apply fd_set_keeps; [assumption|].
    apply fd_set_keeps; [assumption|].
    apply fd_set_keeps; [assumption|].
    apply (control_entry_raw form st k f Hin Hf Hsk).
Qed.

Lemma trimmed_for_validation_raw_for_transmission_witness :
  (forall k v, fst (validateField k (typed k (trim v) padded_name_page))
               = fst (validateField k (typed k v padded_name_page))) /\
  exists form r,
    shippingForm (dom padded_name_page) = Some form /\
    requests (handleSubmit ok_env padded_name_page)
      = (requests padded_name_page ++ [r])%list /\
    In ("_replyto", trimmedValue email padded_name_page) (rq_body r) /\
    forall k f,
      In (CField k) (fm_controls form) -> getField k padded_name_page = Some f ->
      skipped f = false ->
      f_name f <> "orderId" -> f_name f <> "timestamp" -> f_name f <> "_replyto" ->
      In (f_name f, f_value f) (rq_body r).
Proof.
  apply (trimmed_for_validation_raw_for_transmission ok_env padded_name_page);
    vm_compute; reflexivity.
Defined.

(** ** Focus after the confirmation *)

Lemma closeConfirmation_keeps_focus (st : State) :
  previousFocus st = None ->
  activeElement (dom (closeConfirmation st)) = activeElement (dom st).
Proof.
  intros H. unfold closeConfirmation.
  destruct (confirmationModal (dom st)); [|reflexivity].
  unfold restoreFocus. cbn. rewrite H. reflexivity.
Qed.

Lemma restoreFocus_clears (st : State) : previousFocus (restoreFocus st) = None.
Proof. unfold restoreFocus. destruct (previousFocus st) eqn:E; [reflexivity|exact E]. Qed.

(** [closeOrderForm], which a successful submission calls, uses up the
    element remembered by [openOrderForm]. *)
Lemma closeOrderForm_clears_previousFocus (st : State) :
  is_Some (orderModal (dom st)) -> previousFocus (closeOrderForm st) = None.
Proof.
  intros [om Hom]. unfold closeOrderForm. rewrite Hom. apply restoreFocus_clears.
Qed.

Lemma openConfirmation_previousFocus (fd : OrderData) (st : State) :
  previousFocus (openConfirmation fd st) = previousFocus st.
Proof. unfold openConfirmation. destruct (confirmationModal (dom st)); reflexivity. Qed.

Lemma submitted_clears_previousFocus (fd : OrderData) (st : State) :
  is_Some (orderModal (dom st)) -> previousFocus (submitted fd st) = None.
Proof.
  intros [om Hom]. unfold submitted.
  assert (H : previousFocus
                (openConfirmation fd
                   (closeOrderForm (updOrderModal (set_m_submitted "true") st))) = None).
  { rewrite openConfirmation_previousFocus. apply closeOrderForm_clears_previousFocus.
    cbn. rewrite Hom. eexists; reflexivity. }
  destruct (pdfPreviewModule _); exact H.
Qed.

(** After a successful submission nothing is left to restore ... *)
Lemma success_consumes_previousFocus (env : Env) (st : State) :
  spam st = false -> fst (validateForm st) = true -> configured st = true ->
  fetched env = ResponseOk -> is_Some (orderModal (dom st)) ->
  previousFocus (handleSubmit env st) = None.
Proof.
  intros Hs Hv Hc Hnet Hom.
  destruct (handleSubmit_valid env st Hs Hv) as (fs & es & Hfs & ->).
  destruct (configured_inv st Hc) as (form & action & Hform & Hact & Hok).
  cbv zeta.
  rewrite (submitFormData_configured env _
             (setSubmitButtonLoading true (with_marks fs es st)) form action
             Hform Hact Hok).
  cbv zeta. rewrite Hnet. cbn [fst snd].
  change (previousFocus (setSubmitButtonLoading false ?X)) with (previousFocus X).
  apply submitted_clears_previousFocus. exact Hom.
Qed.

(** ... so that closing the confirmation leaves the focus wherever it has
    moved to in the meantime. *)
Lemma close_after_success_keeps_focus (env : Env) (st : State) (r : ElemRef) :
  spam st = false -> fst (validateForm st) = true -> configured st = true ->
  fetched env = ResponseOk -> is_Some (orderModal (dom st)) ->
  activeElement (dom (closeConfirmation (handle (handleSubmit env st) (FocusMoved r))))
    = Some r.
Proof.
  intros Hs Hv Hc Hnet Hom.
  rewrite closeConfirmation_keeps_focus; [reflexivity|].
  apply (success_consumes_previousFocus env st Hs Hv Hc Hnet Hom).
Qed.

(** C9, at the scenario where the order is placed from the order button
    and the focus then moves to the close button of the confirmation
    modal.  [openOrderForm] remembered the order button, but the
    successful submission has already used that up (the order button
    got the focus back when the order form was hidden), so closing the
    confirmation (Escape, overlay or close action) returns to [closed]
    and leaves the focus on the close button. *)
Theorem confirmation_close_leaves_focus :
  previousFocus (run [FocusMoved order_button; OpenOrderForm] sample_page)
    = Some order_button /\
  modalState ordered_page = Some confirmation_open /\
  activeElement (dom ordered_page) = Some order_button /\
  previousFocus ordered_page = None /\
  Forall (fun close =>
            let st := run [FocusMoved confirmation_close_button; close] ordered_page in
            modalState st = Some closed /\
            activeElement (dom st) = Some confirmation_close_button /\
            activeElement (dom st) <> Some order_button)
         [KeyEscape; ClickConfirmationOverlay; CloseConfirmation].
Proof.
  split; [vm_compute; reflexivity|]. split; [vm_compute; reflexivity|].
  split; [vm_compute; reflexivity|]. split; [vm_compute; reflexivity|].
  repeat constructor; try (vm_compute; reflexivity); vm_compute; discriminate.
Qed.

(* ===================================================================== *)
(** * Further properties *)
(* ===================================================================== *)

(** ** The outcomes of a submission *)

Lemma chrome_with_marks fs es (st : State) : chrome (with_marks fs es st) = chrome st.
Proof. reflexivity. Qed.

Lemma chrome_resetForm (st : State) : chrome (resetForm st) = chrome st.
Proof. destruct (resetForm_touches_marks st) as (fs & es & ->). reflexivity. Qed.

Lemma chrome_restoreFocus (st : State) : chrome (restoreFocus st) = chrome st.
Proof. unfold restoreFocus. destruct (previousFocus st); reflexivity. Qed.

Lemma chrome_closeOrderForm (st : State) : chrome (closeOrderForm st) = chrome st.
Proof.
  unfold closeOrderForm. destruct (orderModal (dom st)) as [om|]; [|reflexivity].
  rewrite chrome_restoreFocus.
  destruct (match m_submitted om with Some v => v =? "true" | None => false end);
    [|reflexivity].
  change (chrome (updOrderModal ?g ?X)) with (chrome X). rewrite chrome_resetForm.
  reflexivity.
Qed.

Lemma chrome_closeConfirmation (st : State) : chrome (closeConfirmation st) = chrome st.
Proof.
  unfold closeConfirmation. destruct (confirmationModal (dom st)); [|reflexivity].
  rewrite chrome_restoreFocus. reflexivity.
Qed.

Lemma chrome_openConfirmation (fd : OrderData) (st : State) :
  chrome (openConfirmation fd st) = chrome st.
Proof. unfold openConfirmation. destruct (confirmationModal (dom st)); reflexivity. Qed.

Lemma timers_closeOrderForm (st : State) : timers (closeOrderForm st) = timers st.
Proof.
  unfold closeOrderForm. destruct (orderModal (dom st)) as [om|]; [|reflexivity].
  unfold restoreFocus.
  destruct (match m_submitted om with Some v => v =? "true" | None => false end).
  - match goal with
    | |- context [resetForm ?X] =>
        destruct (resetForm_touches_marks X) as (fs & es & ->)
    end.
    match goal with |- context [previousFocus ?X] => destruct (previousFocus X) end;
      reflexivity.
  - match goal with |- context [previousFocus ?X] => destruct (previousFocus X) end;
      reflexivity.
Qed.

Lemma timers_openConfirmation (fd : OrderData) (st : State) :
  timers (openConfirmation fd st) = timers st.
Proof. unfold openConfirmation. destruct (confirmationModal (dom st)); reflexivity. Qed.

(** After the relay has accepted the order: nothing goes out any more
    but, with a preview module, the unlock timer. *)
Lemma submitted_chrome (fd : OrderData) (st : State) :
  chrome (submitted fd st) = chrome st /\
  timers (submitted fd st)
    = (timers st ++ match pdfPreviewModule st with
                    | Some _ => [UnlockFullPdf]
                    | None => []
                    end)%list.
Proof.
  unfold submitted.
  set (X := openConfirmation fd (closeOrderForm (updOrderModal (set_m_submitted "true") st))).
  assert (HX : chrome X = chrome st).
  { unfold X. rewrite chrome_openConfirmation, chrome_closeOrderForm. reflexivity. }
  assert (TX : timers X = timers st).
  { unfold X. rewrite timers_openConfirmation, timers_closeOrderForm. reflexivity. }
  assert (PX : pdfPreviewModule X = pdfPreviewModule st).
  { change (snd (fst (fst (fst (chrome X)))) = snd (fst (fst (fst (chrome st))))).
    rewrite HX. reflexivity. }
  rewrite PX. destruct (pdfPreviewModule st).
  - split; [exact HX|]. cbn. rewrite TX. reflexivity.
  - split; [exact HX|]. rewrite TX, app_nil_r. reflexivity.
Qed.

(** The five ways [handleSubmit] can go, each with the state it ends
    in; [fs] and [es] are the controls and error slots as validation
    leaves them. *)
Lemma handleSubmit_outcome (env : Env) (st : State) :
  (spam st = true /\ handleSubmit env st = console_log (Warn "Spam detected") st) \/
  (spam st = false /\
   exists fs es,
     strip <$> fs = strip <$> fields (dom st) /\
     snd (validateForm st) = with_marks fs es st /\
     ((fst (validateForm st) = false /\
       handleSubmit env st =
         match firstError (with_marks fs es st) with
         | Some r => focus r (with_marks fs es st)
         | None => with_marks fs es st
         end) \/
      (fst (validateForm st) = true /\ configured st = false /\
       handleSubmit env st =
         setSubmitButtonLoading false
           (alert failure_message
              (alert setup_message
                 (setSubmitButtonLoading true (with_marks fs es st))))) \/
      (fst (validateForm st) = true /\ configured st = true /\
       exists form action,
         shippingForm (dom st) = Some form /\ fm_action form = Some action /\
         handleSubmit env st =
           let st3 := fetch (request_of env st form action)
                        (setSubmitButtonLoading true (with_marks fs es st)) in
           setSubmitButtonLoading false
             match fetched env with
             | ResponseOk => submitted (getFormData env st) st3
             | ResponseNotOk =>
                 alert failure_message
                   (console_log (Error "Submission error:" Form_submission_failed) st3)
             | NetworkError =>
                 alert failure_message
                   (console_log (Error "Submission error:" fetch_rejected) st3)
             end))).
Proof.
  destruct (spam st) eqn:Hs; [left; split; [reflexivity|apply spam_aborts; exact Hs]|].
  right. split; [reflexivity|].
  destruct (validateForm_marks st) as (fs & es & E & Hfs).
  exists fs, es. split; [exact Hfs|]. split; [exact E|].
  destruct (validateForm_spec st) as [_ He].
  unfold handleSubmit. rewrite Hs.
  destruct (validateForm st) as [valid st1]; simpl in E, He. simpl fst.
  destruct valid; cbn [negb].
  - right. rewrite (getFormData_erase env st st1 He). subst st1.
    destruct (configured st) eqn:Hc.
    + right. split; [reflexivity|]. split; [reflexivity|].
      destruct (configured_inv st Hc) as (form & action & Hform & Hact & Hok).
      exists form, action. split; [exact Hform|]. split; [exact Hact|].
      rewrite (submitFormData_configured env _
                 (setSubmitButtonLoading true (with_marks fs es st)) form action
                 Hform Hact Hok).
      cbv zeta.
      rewrite (new_FormData_fields form st
                 (setSubmitButtonLoading true (with_marks fs es st)) Hfs).
      unfold request_of. destruct (fetched env); reflexivity.
    + left. split; [reflexivity|]. split; [reflexivity|].
      rewrite (submitFormData_unconfigured env _
                 (setSubmitButtonLoading true (with_marks fs es st)) Hc).
      reflexivity.
  - left. split; [reflexivity|]. subst st1. reflexivity.
Qed.

Ltac submit_cases env st :=
  let Hs := fresh "Hs" in
  let Hv := fresh "Hv" in
  let Hc := fresh "Hc" in
  let E := fresh "E" in
  let fs := fresh "fs" in
  let es := fresh "es" in
  let Hfs := fresh "Hfs" in
  let Hm := fresh "Hm" in
  let form := fresh "form" in
  let action := fresh "action" in
  let Hform := fresh "Hform" in
  let Hact := fresh "Hact" in
  destruct (handleSubmit_outcome env st)
    as [[Hs E] | (Hs & fs & es & Hfs & Hm &
                  [[Hv E] | [(Hv & Hc & E) |
                             (Hv & Hc & form & action & Hform & Hact & E)]])];
  rewrite E; clear E.

(** X1. [handleSubmit] sends exactly one request when the decoy is clear,
    the form validates and the action is configured, and none otherwise;
    however the request settles, nothing is sent a second time. *)
Theorem submission_requests (env : Env) (st : State) :
  requests (handleSubmit env st) = (requests st ++ sent_request env st)%list.
Proof.
  unfold sent_request, accepted. submit_cases env st; rewrite ?Hs, ?Hv, ?Hc; cbn [negb andb].
  - rewrite app_nil_r. reflexivity.
  - rewrite app_nil_r. destruct (firstError _); reflexivity.
  - rewrite app_nil_r. reflexivity.
  - rewrite Hform, Hact. cbv zeta.
    destruct (fetched env); try reflexivity.
    change (requests (setSubmitButtonLoading false ?X)) with (requests X).
    match goal with
    | |- requests (submitted ?fd ?X) = _ =>
        destruct (submitted_chrome fd X) as [Hch _];
        change (snd (chrome (submitted fd X)) = snd (chrome X)) ;
        rewrite Hch; reflexivity
    end.
Qed.

(** X2. The alerts of one submission: none when it is dropped as spam,
    fails validation or succeeds; the failure message when the request
    fails; the setup message followed by the failure message when the
    action is not configured. *)
Theorem submission_alerts (env : Env) (st : State) :
  alerts (handleSubmit env st) = (alerts st ++ shown_alerts env st)%list.
Proof.
  unfold shown_alerts, accepted. submit_cases env st; rewrite ?Hs, ?Hv, ?Hc; cbn [negb andb].
  - rewrite app_nil_r. reflexivity.
  - rewrite app_nil_r. destruct (firstError _); reflexivity.
  - cbn. rewrite <- app_assoc. reflexivity.
  - cbv zeta. destruct (fetched env); try reflexivity.
    rewrite app_nil_r.
    change (alerts (setSubmitButtonLoading false ?X)) with (alerts X).
    match goal with
    | |- alerts (submitted ?fd ?X) = _ =>
        destruct (submitted_chrome fd X) as [Hch _];
        change (snd (fst (fst (chrome (submitted fd X)))) = snd (fst (fst (chrome X))));
        rewrite Hch; reflexivity
    end.
Qed.

(** X3. [handleSubmit] starts the timer that unlocks the full PDF only
    after the relay has accepted the order and only when the preview
    module is there; no other timer is started or dropped. *)
Theorem submission_timers (env : Env) (st : State) :
  timers (handleSubmit env st) = (timers st ++ scheduled_unlock env st)%list.
Proof.
  unfold scheduled_unlock, accepted.
  submit_cases env st; rewrite ?Hs, ?Hv, ?Hc; cbn [negb andb].
  - rewrite app_nil_r. reflexivity.
  - rewrite app_nil_r. destruct (firstError _); reflexivity.
  - rewrite app_nil_r. reflexivity.
  - cbv zeta. destruct (fetched env); try (rewrite app_nil_r; reflexivity).
    change (timers (setSubmitButtonLoading false ?X)) with (timers X).
    match goal with
    | |- timers (submitted ?fd ?X) = _ =>
        destruct (submitted_chrome fd X) as [_ Ht]; rewrite Ht
    end.
    reflexivity.
Qed.

(** X4. Whenever a submission gets past the honeypot and validation, the
    submit button ends up enabled with its text shown and its spinner
    hidden, whether the relay accepts, refuses, cannot be reached or is
    not configured; a submission that is dropped or invalid leaves the
    button alone. *)
Theorem submission_button (env : Env) (st : State) :
  submitOrderBtn (dom (handleSubmit env st)) =
    if accepted st
    then (fun b => mkButton false ((fun _ => "inline") <$> b_text b)
                            ((fun _ => "none") <$> b_spinner b))
           <$> submitOrderBtn (dom st)
    else submitOrderBtn (dom st).
Proof.
  unfold accepted. submit_cases env st; rewrite ?Hs, ?Hv; cbn [negb andb].
  - reflexivity.
  - destruct (firstError _); reflexivity.
  - cbn. destruct (submitOrderBtn (dom st)) as [[d [t|] [s|]]|]; reflexivity.
  - cbv zeta. destruct (fetched env).
    + unfold setSubmitButtonLoading at 1. cbn [dom on_dom set_dom submitOrderBtn set_submitOrderBtn].
      match goal with
      | |- context [submitOrderBtn (dom (submitted ?fd ?X))] =>
          destruct (submitted_chrome fd X) as [Hch _];
          change (submitOrderBtn (dom (submitted fd X)))
            with (fst (fst (fst (fst (fst (fst (chrome (submitted fd X))))))));
          rewrite Hch
      end.
      cbn. destruct (submitOrderBtn (dom st)) as [[d [t|] [s|]]|]; reflexivity.
    + cbn. destruct (submitOrderBtn (dom st)) as [[d [t|] [s|]]|]; reflexivity.
    + cbn. destruct (submitOrderBtn (dom st)) as [[d [t|] [s|]]|]; reflexivity.
Qed.

(** ** What validation writes *)

Lemma formFields_Some (k : FieldKey) (st : State) (field : Field) :
  formFields k st = Some field -> initialised st = true /\ getField k st = Some field.
Proof. unfold formFields. destruct (initialised st); [auto|discriminate]. Qed.

Lemma getField_updField_eq (k : FieldKey) (g : Field -> Field) (st : State) :
  getField k (updField k g st) = g <$> getField k st.
Proof. apply lookup_alter_eq. Qed.

Lemma getField_updField_ne (j k : FieldKey) (g : Field -> Field) (st : State) :
  j <> k -> getField j (updField k g st) = getField j st.
Proof. intros H. apply lookup_alter_ne. congruence. Qed.

Lemma slot_setErrorText_eq (id txt : string) (st : State) :
  errorSlots (dom (setErrorText id txt st)) !! id
    = (fun _ => txt) <$> errorSlots (dom st) !! id.
Proof. apply lookup_alter_eq. Qed.

Lemma slot_setErrorText_ne (id id' txt : string) (st : State) :
  id' <> id ->
  errorSlots (dom (setErrorText id txt st)) !! id' = errorSlots (dom st) !! id'.
Proof. intros H. apply lookup_alter_ne. congruence. Qed.

Lemma name_not_decoy (s : string) : s <> "_gotcha" -> (s =? "_gotcha") = false.
Proof. intros H. destruct (s =? "_gotcha") eqn:E; [|reflexivity]. apply String.eqb_eq in E. contradiction. Qed.

(** The answer of [validateField] and what it does to the controls, for
    a cached control other than the decoy. *)
Lemma validateField_controls (k : FieldKey) (st : State) (field : Field) :
  formFields k st = Some field -> f_name field <> "_gotcha" ->
  fst (validateField k st) = fst (check field) /\
  getField k (snd (validateField k st))
    = Some (set_f_ariaInvalid (if fst (check field) then "false" else "true")
              (set_f_error (negb (fst (check field))) field)) /\
  (forall j, j <> k -> getField j (snd (validateField k st)) = getField j st).
Proof.
  intros Hf Hn. destruct (formFields_Some k st field Hf) as [_ Hg].
  unfold validateField. rewrite Hf, (name_not_decoy _ Hn).
  destruct (check field) as [[|] msg]; cbn [fst snd negb].
  - split; [reflexivity|]. split.
    + rewrite !getField_updField_eq.
      change (getField k (setErrorText ?i ?t st)) with (getField k st).
      rewrite Hg. reflexivity.
    + intros j Hj. rewrite !getField_updField_ne by assumption. reflexivity.
  - split; [reflexivity|]. split.
    + rewrite getField_updField_eq.
      change (getField k (setErrorText ?i ?t ?X)) with (getField k X).
      rewrite !getField_updField_eq.
      change (getField k (setErrorText ?i ?t st)) with (getField k st).
      rewrite Hg. reflexivity.
    + intros j Hj. rewrite getField_updField_ne by assumption.
      change (getField j (setErrorText ?i ?t ?X)) with (getField j X).
      rewrite !getField_updField_ne by assumption. reflexivity.
Qed.

(** What it does to the error slots. *)
Lemma validateField_slots (k : FieldKey) (st : State) (field : Field) :
  formFields k st = Some field -> f_name field <> "_gotcha" ->
  errorSlots (dom (snd (validateField k st))) !! (f_name field +:+ "Error")
    = (fun _ => if fst (check field) then "" else snd (check field))
        <$> errorSlots (dom st) !! (f_name field +:+ "Error") /\
  (forall id, id <> f_name field +:+ "Error" ->
     errorSlots (dom (snd (validateField k st))) !! id = errorSlots (dom st) !! id).
Proof.
  intros Hf Hn.
  unfold validateField. rewrite Hf, (name_not_decoy _ Hn).
  destruct (check field) as [[|] msg]; cbn [fst snd negb].
  - split.
    + change (errorSlots (dom (updField k ?g (updField k ?h ?X))))
        with (errorSlots (dom X)).
      apply slot_setErrorText_eq.
    + intros id Hid.
      change (errorSlots (dom (updField k ?g (updField k ?h ?X))))
        with (errorSlots (dom X)).
      apply slot_setErrorText_ne. assumption.
  - split.
    + change (errorSlots (dom (updField k ?g ?X))) with (errorSlots (dom X)).
      rewrite slot_setErrorText_eq.
      change (errorSlots (dom (updField k ?g (updField k ?h ?X))))
        with (errorSlots (dom X)).
      rewrite slot_setErrorText_eq.
      destruct (errorSlots (dom st) !! (f_name field +:+ "Error")); reflexivity.
    + intros id Hid.
      change (errorSlots (dom (updField k ?g ?X))) with (errorSlots (dom X)).
      rewrite slot_setErrorText_ne by assumption.
      change (errorSlots (dom (updField k ?g (updField k ?h ?X))))
        with (errorSlots (dom X)).
      apply slot_setErrorText_ne. assumption.
Qed.

(** X5. What [validateField] leaves on a cached control other than the
    decoy: its answer is the verdict of the rule chain; a failing control
    gets the error class, [aria-invalid] true and its message in its
    error slot; a passing one loses the class, gets [aria-invalid] false
    and an empty slot; a missing slot stays missing; no other control and
    no other slot is touched. *)
Theorem validateField_contract (k : FieldKey) (st : State) (field : Field) :
  formFields k st = Some field -> f_name field <> "_gotcha" ->
  fst (validateField k st) = fst (check field) /\
  getField k (snd (validateField k st))
    = Some (set_f_ariaInvalid (if fst (check field) then "false" else "true")
              (set_f_error (negb (fst (check field))) field)) /\
  errorSlots (dom (snd (validateField k st))) !! (f_name field +:+ "Error")
    = (fun _ => if fst (check field) then "" else snd (check field))
        <$> errorSlots (dom st) !! (f_name field +:+ "Error") /\
  (forall j, j <> k -> getField j (snd (validateField k st)) = getField j st) /\
  (forall id, id <> f_name field +:+ "Error" ->
     errorSlots (dom (snd (validateField k st))) !! id = errorSlots (dom st) !! id).
Proof.
  intros Hf Hn.
  destruct (validateField_controls k st field Hf Hn) as (H1 & H2 & H4).
  destruct (validateField_slots k st field Hf Hn) as (H3 & H5).
  split; [exact H1|]. split; [exact H2|]. split; [exact H3|].
  split; [exact H4|exact H5].
Qed.

Lemma validateField_contract_witness :
  fst (validateField phone (typed phone "12345" sample_page)) = false /\
  (f_error <$> getField phone (snd (validateField phone (typed phone "12345" sample_page))))
    = Some true /\
  errorSlots (dom (snd (validateField phone (typed phone "12345" sample_page))))
    !! "phoneError" = Some "Please enter a valid phone number".
Proof.
  destruct (validateField_contract phone (typed phone "12345" sample_page)
              (phone_input "12345")) as (H1 & H2 & H3 & _).
  - vm_compute. reflexivity.
  - vm_compute. discriminate.
  - split; [exact H1|]. split; [rewrite H2; reflexivity|].
    etransitivity; [exact H3|]. vm_compute. reflexivity.
Defined.

Lemma formFields_typed_ne (j k : FieldKey) (v : string) (st : State) :
  j <> k -> formFields j (typed k v st) = formFields j st.
Proof.
  intros H. unfold formFields. change (initialised (typed k v st)) with (initialised st).
  destruct (initialised st); [|reflexivity].
  apply getField_updField_ne. assumption.
Qed.

(** X6. Whatever is typed into the control named [addressLine2], the
    answer of [validateForm] is the same: the optional address line can
    never block an order. *)
Theorem optional_line_never_blocks (k : FieldKey) (v : string) (st : State)
  (field : Field) :
  formFields k st = Some field -> f_name field = "addressLine2" ->
  fst (validateForm (typed k v st)) = fst (validateForm st).
Proof.
  intros Hf Hn.
  destruct (validateForm_spec st) as [-> _].
  destruct (validateForm_spec (typed k v st)) as [-> _].
  induction all_keys as [|j keys IH]; [reflexivity|]. cbn [forallb].
  rewrite IH. f_equal.
  destruct (decide (j = k)) as [->|Hne].
  - rewrite formFields_typed, Hf. unfold gate; cbn. rewrite Hn. reflexivity.
  - rewrite formFields_typed_ne by assumption. reflexivity.
Qed.

Lemma optional_line_never_blocks_witness :
  fst (validateForm (typed addressLine2 "Flat 4 <b>@@</b>" sample_page))
    = fst (validateForm sample_page).
Proof.
  apply (optional_line_never_blocks addressLine2 "Flat 4 <b>@@</b>" sample_page
           (text_input "addressLine2" false "")).
  - vm_compute. reflexivity.
  - reflexivity.
Defined.

(** ** A submission that fails validation *)









(** ** Typing into a control *)

(** X8. The input listener of a cached control other than the decoy takes
    the error class away and empties the error slot, but leaves
    [aria-invalid] as validation set it: after a failed validation the
    control still says [aria-invalid="true"] while the user corrects
    it. *)
Theorem input_leaves_aria_invalid (k : FieldKey) (v : string) (st : State)
  (field : Field) :
  formFields k st = Some field -> f_name field <> "_gotcha" ->
  getField k (handle st (Input k v)) = Some (set_f_error false (set_f_value v field)) /\
  f_ariaInvalid <$> getField k (handle st (Input k v)) = Some (f_ariaInvalid field) /\
  errorSlots (dom (handle st (Input k v))) !! (f_name field +:+ "Error")
    = (if f_error field
       then (fun _ => "") <$> errorSlots (dom st) !! (f_name field +:+ "Error")
       else errorSlots (dom st) !! (f_name field +:+ "Error")).
Proof.
  intros Hf Hn. destruct (formFields_Some k st field Hf) as [_ Hg].
  assert (Ht : formFields k (typed k v st) = Some (set_f_value v field))
    by (rewrite formFields_typed, Hf; reflexivity).
  assert (G : getField k (handle st (Input k v))
              = Some (set_f_error false (set_f_value v field)) /\
              errorSlots (dom (handle st (Input k v))) !! (f_name field +:+ "Error")
              = (if f_error field
                 then (fun _ => "") <$> errorSlots (dom st) !! (f_name field +:+ "Error")
                 else errorSlots (dom st) !! (f_name field +:+ "Error"))).
  { cbn [handle]. unfold listens, onInput. rewrite Ht.
    change (f_name (set_f_value v field)) with (f_name field).
    change (f_error (set_f_value v field)) with (f_error field).
    rewrite (name_not_decoy _ Hn). cbn [negb].
    destruct (f_error field) eqn:Ee.
    - split.
      + change (getField k (setErrorText ?i ?t ?X)) with (getField k X).
        rewrite getField_updField_eq. unfold typed. rewrite getField_updField_eq, Hg.
        reflexivity.
      + rewrite slot_setErrorText_eq. reflexivity.
    - split; [|reflexivity].
      unfold typed. rewrite getField_updField_eq, Hg.
      destruct field; cbn in *. subst. reflexivity. }
  destruct G as [G1 G2]. split; [exact G1|]. split; [|exact G2].
  rewrite G1. reflexivity.
Qed.

Lemma input_leaves_aria_invalid_witness :
  f_ariaInvalid
    <$> getField phone
          (handle (snd (validateField phone (typed phone "12345" sample_page)))
                  (Input phone "+92-300-1234567"))
  = Some (Some "true").
Proof.
  destruct (input_leaves_aria_invalid phone "+92-300-1234567"
              (snd (validateField phone (typed phone "12345" sample_page)))
              (set_f_ariaInvalid "true" (set_f_error true (phone_input "12345"))))
    as (_ & H & _).
  - vm_compute. reflexivity.
  - vm_compute. discriminate.
  - exact H.
Defined.

(** ** The body of the request *)

Lemma fd_count_filter_out (n : string) (l : list (string * string)) :
  fd_count n (List.filter (fun e => negb (fst e =? n)) l) = 0.
Proof.
  unfold fd_count. induction l as [|[m w] l IH]; [reflexivity|]. cbn [List.filter fst].
  destruct (m =? n) eqn:E; cbn [negb]; [exact IH|].
  cbn [List.filter fst]. rewrite E. exact IH.
Qed.

Lemma fd_count_filter_other (n m : string) (l : list (string * string)) :
  n <> m -> fd_count m (List.filter (fun e => negb (fst e =? n)) l) = fd_count m l.
Proof.
  intros H. unfold fd_count. induction l as [|[p w] l IH]; [reflexivity|].
  cbn [List.filter fst]. destruct (p =? n) eqn:E; cbn [negb].
  - apply String.eqb_eq in E. subst p.
    destruct (n =? m) eqn:E'; [apply String.eqb_eq in E'; contradiction|]. exact IH.
  - cbn [List.filter fst]. destruct (p =? m); cbn [length]; rewrite IH; reflexivity.
Qed.

Lemma fd_count_set (n v : string) (l : list (string * string)) :
  fd_count n (fd_set n v l) = 1.
Proof.
  induction l as [|[m w] l IH]; cbn [fd_set].
  - unfold fd_count. cbn [List.filter fst]. rewrite String.eqb_refl. reflexivity.
  - destruct (m =? n) eqn:E.
    + pose proof (fd_count_filter_out n l) as H. unfold fd_count in *.
      cbn [List.filter fst]. rewrite String.eqb_refl. cbn [length]. rewrite H. reflexivity.
    + unfold fd_count in *. cbn [List.filter fst]. rewrite E. exact IH.
Qed.

Lemma fd_count_set_other (n v m : string) (l : list (string * string)) :
  n <> m -> fd_count m (fd_set n v l) = fd_count m l.
Proof.
  intros H. assert (Hnm : (n =? m) = false).
  { destruct (n =? m) eqn:E; [apply String.eqb_eq in E; contradiction|reflexivity]. }
  induction l as [|[p w] l IH]; cbn [fd_set].
  - unfold fd_count. cbn [List.filter fst]. rewrite Hnm. reflexivity.
  - destruct (p =? n) eqn:E.
    + apply String.eqb_eq in E. subst p.
      pose proof (fd_count_filter_other n m l H) as F. unfold fd_count in *.
      cbn [List.filter fst]. rewrite Hnm. exact F.
    + unfold fd_count in *. cbn [List.filter fst].
      destruct (p =? m); cbn [length]; rewrite IH; reflexivity.
Qed.

Lemma fd_get_set (n v : string) (l : list (string * string)) :
  fd_get n (fd_set n v l) = Some v.
Proof.
  unfold fd_get. induction l as [|[m w] l IH]; cbn [fd_set].
  - cbn [List.find fst]. rewrite String.eqb_refl. reflexivity.
  - destruct (m =? n) eqn:E; cbn [List.find fst].
    + rewrite String.eqb_refl. reflexivity.
    + rewrite E. exact IH.
Qed.

Lemma fd_get_filter_other (n m : string) (l : list (string * string)) :
  n <> m -> fd_get m (List.filter (fun e => negb (fst e =? n)) l) = fd_get m l.
Proof.
  intros H. unfold fd_get. induction l as [|[p w] l IH]; [reflexivity|].
  cbn [List.filter List.find fst]. destruct (p =? n) eqn:E; cbn [negb].
  - apply String.eqb_eq in E. subst p.
    destruct (n =? m) eqn:E'; [apply String.eqb_eq in E'; contradiction|]. exact IH.
  - cbn [List.find fst]. destruct (p =? m); [reflexivity|exact IH].
Qed.

Lemma fd_get_set_other (n v m : string) (l : list (string * string)) :
  n <> m -> fd_get m (fd_set n v l) = fd_get m l.
Proof.
  intros H. assert (Hnm : (n =? m) = false).
  { destruct (n =? m) eqn:E; [apply String.eqb_eq in E; contradiction|reflexivity]. }
  induction l as [|[p w] l IH]; cbn [fd_set].
  - unfold fd_get. cbn [List.find fst]. rewrite Hnm. reflexivity.
  - destruct (p =? n) eqn:E.
    + apply String.eqb_eq in E. subst p.
      pose proof (fd_get_filter_other n m l H) as F. unfold fd_get in *.
      cbn [List.find fst]. rewrite Hnm. exact F.
    + unfold fd_get in *. cbn [List.find fst].
      destruct (p =? m); [reflexivity|exact IH].
Qed.

(** X9. The body of the request carries exactly one entry named
    [orderId], [timestamp] and [_replyto] each, holding the generated
    order id, the ISO time and the trimmed e-mail address, even when the
    form has inputs of these names; every other name has the entries
    the form gave it. *)
Theorem request_body_reserved_entries (env : Env) (st : State) (form : Form)
  (action : string) :
  fd_get "orderId" (rq_body (request_of env st form action)) = Some (generateOrderId env) /\
  fd_count "orderId" (rq_body (request_of env st form action)) = 1 /\
  fd_get "timestamp" (rq_body (request_of env st form action)) = Some (isoString env) /\
  fd_count "timestamp" (rq_body (request_of env st form action)) = 1 /\
  fd_get "_replyto" (rq_body (request_of env st form action))
    = Some (trimmedValue email st) /\
  fd_count "_replyto" (rq_body (request_of env st form action)) = 1 /\
  forall n, n <> "orderId" -> n <> "timestamp" -> n <> "_replyto" ->
    fd_get n (rq_body (request_of env st form action)) = fd_get n (new_FormData form st) /\
    fd_count n (rq_body (request_of env st form action))
      = fd_count n (new_FormData form st).
Proof.
  unfold request_of. cbn [rq_body].
  repeat split.
  - rewrite !fd_get_set_other by discriminate. apply fd_get_set.
  - rewrite !fd_count_set_other by discriminate. apply fd_count_set.
  - rewrite fd_get_set_other by discriminate. apply fd_get_set.
  - rewrite fd_count_set_other by discriminate. apply fd_count_set.
  - apply fd_get_set.
  - apply fd_count_set.
  - rewrite !fd_get_set_other by congruence. reflexivity.
  - rewrite !fd_count_set_other by congruence. reflexivity.
Qed.

(** ** Order identifiers can be told apart *)

Lemma to_int_not_nil (z : Z) :
  Z.to_int z <> Decimal.Pos Decimal.Nil /\ Z.to_int z <> Decimal.Neg Decimal.Nil.
Proof.
  destruct z as [|p|p]; simpl; split; try discriminate;
    intros H; injection H as H; exact (Unsigned.to_uint_nonnil _ H).
Qed.

Lemma number_toString_inj (z z' : Z) :
  number_toString z = number_toString z' -> z = z'.
Proof.
  unfold number_toString. intros H. apply DecimalZ.to_int_inj.
  destruct (to_int_not_nil z) as [A B]. destruct (to_int_not_nil z') as [A' B'].
  pose proof (NilZero.isi _ A B) as I. pose proof (NilZero.isi _ A' B') as I'.
  rewrite H in I. rewrite I in I'. injection I' as I'. exact I'.
Qed.

Lemma dash_not_in_alphabet (x y : string) :
  all_in token_alphabet (x +:+ String "-" y) = false.
Proof.
  induction x as [|c x IH].
  - change ("" +:+ String "-" y) with (String "-" y). reflexivity.
  - rewrite append_String. cbn [all_in]. rewrite IH. apply andb_false_r.
Qed.

Lemma split_at_last_dash (a a' t t' : string) :
  all_in token_alphabet t = true -> all_in token_alphabet t' = true ->
  a +:+ String "-" t = a' +:+ String "-" t' -> a = a' /\ t = t'.
Proof.
  intros Ht Ht'. revert a'. induction a as [|c a IH]; intros [|c' a'] E.
  - injection E as E. auto.
  - change ("" +:+ String "-" t) with (String "-" t) in E.
    rewrite append_String in E. injection E as _ E.
    rewrite E, dash_not_in_alphabet in Ht. discriminate.
  - change ("" +:+ String "-" t') with (String "-" t') in E.
    rewrite append_String in E. injection E as _ E.
    rewrite <- E, dash_not_in_alphabet in Ht'. discriminate.
  - rewrite !append_String in E. injection E as -> E.
    destruct (IH a' E) as [-> ->]. auto.
Qed.

Lemma order_token_alphabet (env : Env) : all_in token_alphabet (order_token env) = true.
Proof. unfold order_token. rewrite random_substring. apply token_alphabet_digits. Qed.

(** X10. An order id determines its two parts: two ids are equal exactly
    when they were made in the same millisecond with the same random
    token.  Ids made in different milliseconds are different. *)
Theorem orderId_parts (env env' : Env) :
  generateOrderId env = generateOrderId env' <->
  now env = now env' /\ order_token env = order_token env'.
Proof.
  unfold generateOrderId. fold (order_token env) (order_token env'). split.
  - intros E.
    change ("RJ-" +:+ ?a +:+ "-" +:+ ?t)
      with (String "R" (String "J" (String "-" (a +:+ String "-" t)))) in E.
    injection E as E.
    destruct (split_at_last_dash _ _ _ _ (order_token_alphabet env)
                (order_token_alphabet env') E) as [Ha Ht].
    split; [apply number_toString_inj; exact Ha|exact Ht].
  - intros [-> ->]. reflexivity.
Qed.

(** ** What [resetForm] restores *)














(** ** After a successful order *)



Lemma marks_openConfirmation (fd : OrderData) (st : State) :
  fields (dom (openConfirmation fd st)) = fields (dom st) /\
  errorSlots (dom (openConfirmation fd st)) = errorSlots (dom st) /\
  orderModal (dom (openConfirmation fd st)) = orderModal (dom st).
Proof. unfold openConfirmation. destruct (confirmationModal (dom st)); repeat split. Qed.





(** ** Opening and closing the order form *)





(** ** Escape *)

Lemma orderModal_resetForm (st : State) :
  orderModal (dom (resetForm st)) = orderModal (dom st) /\
  confirmationModal (dom (resetForm st)) = confirmationModal (dom st).
Proof. destruct (resetForm_touches_marks st) as (fs & es & ->). split; reflexivity. Qed.

Lemma modals_restoreFocus (st : State) :
  orderModal (dom (restoreFocus st)) = orderModal (dom st) /\
  confirmationModal (dom (restoreFocus st)) = confirmationModal (dom st).
Proof. unfold restoreFocus. destruct (previousFocus st); split; reflexivity. Qed.

(** What [closeOrderForm] does to the two modals: the order modal is
    hidden, with [data-submitted] set back when it was true, and keeps
    its listeners; the confirmation is not touched. *)
Lemma closeOrderForm_modals (st : State) :
  (exists g, orderModal (dom (closeOrderForm st)) = g <$> orderModal (dom st) /\
             forall m, m_display (g m) = "none" /\ m_keydown (g m) = m_keydown m) /\
  confirmationModal (dom (closeOrderForm st)) = confirmationModal (dom st).
Proof.
  unfold closeOrderForm. destruct (orderModal (dom st)) as [om|] eqn:Hom.
  - destruct (modals_restoreFocus
                (if match m_submitted om with Some v => v =? "true" | None => false end
                 then updOrderModal (set_m_submitted "false")
                        (resetForm
                           (set_activeModal None
                              (on_dom (set_bodyOverflow "")
                                 (updOrderModal (set_m_display "none") st))))
                 else set_activeModal None
                        (on_dom (set_bodyOverflow "")
                           (updOrderModal (set_m_display "none") st)))) as [-> ->].
    destruct (match m_submitted om with Some v => v =? "true" | None => false end).
    + change (orderModal (dom (updOrderModal ?g ?X))) with (g <$> orderModal (dom X)).
      change (confirmationModal (dom (updOrderModal ?g ?X))) with (confirmationModal (dom X)).
      destruct (orderModal_resetForm
                  (set_activeModal None
                     (on_dom (set_bodyOverflow "")
                        (updOrderModal (set_m_display "none") st)))) as [-> ->].
      change (orderModal (dom (set_activeModal None (on_dom (set_bodyOverflow "")
                (updOrderModal (set_m_display "none") st)))))
        with (set_m_display "none" <$> orderModal (dom st)).
      rewrite Hom. split; [|reflexivity].
      exists (fun m => set_m_submitted "false" (set_m_display "none" m)).
      split; [reflexivity|]. intros m. split; reflexivity.
    + change (orderModal (dom (set_activeModal None (on_dom (set_bodyOverflow "")
                (updOrderModal (set_m_display "none") st)))))
        with (set_m_display "none" <$> orderModal (dom st)).
      rewrite Hom. split; [|reflexivity].
      exists (set_m_display "none"). split; [reflexivity|]. intros m. split; reflexivity.
  - rewrite Hom. split; [|reflexivity]. exists (set_m_display "none").
    split; [reflexivity|]. intros m. split; reflexivity.
Qed.

Lemma closeConfirmation_modals (st : State) :
  orderModal (dom (closeConfirmation st)) = orderModal (dom st) /\
  confirmationModal (dom (closeConfirmation st))
    = set_m_display "none" <$> confirmationModal (dom st).
Proof.
  unfold closeConfirmation. destruct (confirmationModal (dom st)) as [cm|] eqn:Hcm.
  - destruct (modals_restoreFocus
                (set_activeModal None
                   (on_dom (set_bodyOverflow "")
                      (updConfirmationModal (set_m_display "none") st)))) as [-> ->].
    split; [reflexivity|].
    change (confirmationModal (dom (set_activeModal None (on_dom (set_bodyOverflow "")
              (updConfirmationModal (set_m_display "none") st)))))
      with (set_m_display "none" <$> confirmationModal (dom st)).
    rewrite Hcm. reflexivity.
  - rewrite Hcm. split; reflexivity.
Qed.

Lemma displayed_hidden (g : Modal -> Modal) (m : option Modal) :
  (forall x, m_display (g x) = "none") -> displayed (g <$> m) = false.
Proof. intros H. destruct m as [x|]; [|reflexivity]. cbn. rewrite H. reflexivity. Qed.

Lemma handleEscape_order_hidden (st : State) :
  displayed (orderModal (dom (handleEscape st))) = false.
Proof.
  unfold handleEscape. destruct (displayed (orderModal (dom st))) eqn:Ho.
  - destruct (closeOrderForm_modals st) as [(g & -> & Hg) _].
    apply displayed_hidden. intros x. apply Hg.
  - destruct (displayed (confirmationModal (dom st))); [|exact Ho].
    destruct (closeConfirmation_modals st) as [-> _]. exact Ho.
Qed.

(** With the order form hidden, Escape leaves no modal displayed. *)
Lemma handleEscape_one (st : State) :
  displayed (orderModal (dom st)) = false -> modalState (handleEscape st) = Some closed.
Proof.
  intros Ho. unfold modalState. rewrite handleEscape_order_hidden.
  unfold handleEscape. rewrite Ho.
  destruct (displayed (confirmationModal (dom st))) eqn:Hc; [|rewrite Hc; reflexivity].
  destruct (closeConfirmation_modals st) as [_ ->].
  rewrite displayed_hidden by reflexivity. reflexivity.
Qed.

(** With both modals displayed, Escape closes the order form only. *)
Lemma handleEscape_both (st : State) :
  modalState st = None -> modalState (handleEscape st) = Some confirmation_open.
Proof.
  intros H. unfold modalState in *. rewrite handleEscape_order_hidden.
  unfold handleEscape.
  destruct (displayed (orderModal (dom st))) eqn:Ho;
    destruct (displayed (confirmationModal (dom st))) eqn:Hc; try discriminate.
  destruct (closeOrderForm_modals st) as [_ ->]. rewrite Hc. reflexivity.
Qed.

(** X13. One Escape key closes the modal that is displayed; when both
    happen to be displayed it closes the order form only and leaves the
    confirmation.  After two Escape keys no modal is displayed, whatever
    the page looked like. *)
Theorem escape_closes_modals (st : State) :
  modalState (handleEscape (handleEscape st)) = Some closed /\
  (modalState st <> None -> modalState (handleEscape st) = Some closed) /\
  (modalState st = None -> modalState (handleEscape st) = Some confirmation_open).
Proof.
  split; [apply handleEscape_one, handleEscape_order_hidden|]. split.
  - intros H.
    destruct (displayed (orderModal (dom st))) eqn:Ho; [|apply handleEscape_one; exact Ho].
    unfold modalState in *. rewrite handleEscape_order_hidden.
    unfold handleEscape. rewrite Ho in *.
    destruct (closeOrderForm_modals st) as [_ ->].
    destruct (displayed (confirmationModal (dom st))); [contradiction|reflexivity].
  - apply handleEscape_both.
Qed.

(** X14. Nothing keeps the order form from being opened while the
    confirmation is displayed: both modals are then displayed at once,
    and Escape closes the order form and leaves the confirmation. *)
Theorem reopening_over_confirmation (st : State) :
  displayed (confirmationModal (dom st)) = true -> is_Some (orderModal (dom st)) ->
  modalState (openOrderForm st) = None /\
  modalState (handleEscape (openOrderForm st)) = Some confirmation_open.
Proof.
  intros Hc [om Hom].
  assert (H : modalState (openOrderForm st) = None).
  { unfold modalState, openOrderForm. rewrite Hom. cbn. rewrite Hom. cbn. rewrite Hc.
    reflexivity. }
  split; [exact H|]. apply handleEscape_both, H.
Qed.

Lemma reopening_over_confirmation_witness :
  modalState ordered_page = Some confirmation_open /\
  modalState (openOrderForm ordered_page) = None /\
  modalState (handleEscape (openOrderForm ordered_page)) = Some confirmation_open.
Proof.
  split; [vm_compute; reflexivity|].
  apply (reopening_over_confirmation ordered_page).
  - vm_compute. reflexivity.
  - vm_compute. eexists; reflexivity.
Defined.

(** ** The focus trap *)






Lemma last_cons_cons {A} (x y : A) (l : list A) : last (x :: y :: l) = last (y :: l).
Proof. reflexivity. Qed.

Lemma handleTab_again (l : list ElemRef) (shiftKey : bool) (st : State) :
  snd (handleTab l shiftKey (snd (handleTab l shiftKey st)))
    = snd (handleTab l shiftKey st).
Proof.
  unfold handleTab.
  destruct shiftKey.
  - destruct (same_element (activeElement (dom st)) (hd_error l)) eqn:E; cbn [snd].
    + destruct (last l) as [z|] eqn:Hz.
      * change (activeElement (dom (focus z st))) with (Some z).
        destruct (same_element (Some z) (hd_error l)); reflexivity.
      * rewrite E. reflexivity.
    + rewrite E. reflexivity.
  - destruct (same_element (activeElement (dom st)) (last l)) eqn:E; cbn [snd].
    + destruct (hd_error l) as [f|] eqn:Hf.
      * change (activeElement (dom (focus f st))) with (Some f).
        destruct (same_element (Some f) (last l)); reflexivity.
      * rewrite E. reflexivity.
    + rewrite E. reflexivity.
Qed.

(** X16. Any number of Tab listeners of [trapFocus] made over the same
    focusable elements, as repeated openings of the order form leave
    them on the modal, answer a Tab key together exactly as a single one
    does. *)
Theorem duplicate_traps_act_as_one (n : nat) (l : list ElemRef) (shiftKey : bool)
  (st : State) :
  handleTabs (S n) l shiftKey st = snd (handleTab l shiftKey st).
Proof.
  revert st. induction n as [|n IH]; intros st; [reflexivity|].
  change (handleTabs (S (S n)) l shiftKey st)
    with (handleTabs (S n) l shiftKey (snd (handleTab l shiftKey st))).
  rewrite IH. apply handleTab_again.
Qed.

(** ** The listeners of the order modal *)

Lemma listeners_fmap (g : Modal -> Modal) (o : option Modal) :
  (forall m, m_keydown (g m) = m_keydown m) ->
  m_keydown <$> (g <$> o) = m_keydown <$> o.
Proof. intros H. destruct o as [m|]; [|reflexivity]. cbn. rewrite H. reflexivity. Qed.

Lemma orderModal_erase (st st1 : State) :
  erase st1 = erase st -> orderModal (dom st1) = orderModal (dom st).
Proof.
  intros E. change (orderModal (dom (erase st1)) = orderModal (dom (erase st))).
  rewrite E. reflexivity.
Qed.

Lemma listeners_closeOrderForm (st : State) : listeners (closeOrderForm st) = listeners st.
Proof.
  unfold listeners. destruct (closeOrderForm_modals st) as [(g & -> & Hg) _].
  apply listeners_fmap. intros m. apply Hg.
Qed.

Lemma listeners_closeConfirmation (st : State) :
  listeners (closeConfirmation st) = listeners st.
Proof. unfold listeners. destruct (closeConfirmation_modals st) as [-> _]. reflexivity. Qed.

Lemma listeners_submitted (fd : OrderData) (st : State) :
  listeners (submitted fd st) = listeners st.
Proof.
  unfold submitted.
  assert (H : listeners (openConfirmation fd
                (closeOrderForm (updOrderModal (set_m_submitted "true") st)))
              = listeners st).
  { unfold listeners at 1.
    destruct (marks_openConfirmation fd
                (closeOrderForm (updOrderModal (set_m_submitted "true") st)))
      as (_ & _ & ->).
    fold (listeners (closeOrderForm (updOrderModal (set_m_submitted "true") st))).
    rewrite listeners_closeOrderForm. unfold listeners.
    change (orderModal (dom (updOrderModal ?g ?X))) with (g <$> orderModal (dom X)).
    apply listeners_fmap. reflexivity. }
  cbv zeta.
  destruct (pdfPreviewModule (openConfirmation fd
              (closeOrderForm (updOrderModal (set_m_submitted "true") st)))); exact H.
Qed.

Lemma listeners_handleSubmit (env : Env) (st : State) :
  listeners (handleSubmit env st) = listeners st.
Proof.
  submit_cases env st.
  - reflexivity.
  - destruct (firstError (with_marks fs es st)); reflexivity.
  - reflexivity.
  - cbv zeta. destruct (fetched env); try reflexivity.
    change (listeners (submitted (getFormData env st)
              (fetch (request_of env st form action)
                 (setSubmitButtonLoading true (with_marks fs es st)))) = listeners st).
    rewrite listeners_submitted. reflexivity.
Qed.

Lemma listeners_handle (st : State) (e : Event) :
  listeners (handle st e) = (if is_open e then S else id) <$> listeners st.
Proof.
  assert (Id : forall o : option nat, o = id <$> o) by (intros []; reflexivity).
  destruct e; cbn [handle is_open]; rewrite <- ?Id.
  - reflexivity.
  - unfold listeners, openOrderForm. destruct (orderModal (dom st)) as [om|] eqn:Hom.
    + cbn. rewrite Hom. reflexivity.
    + rewrite Hom. reflexivity.
  - apply listeners_closeOrderForm.
  - apply listeners_closeConfirmation.
  - apply listeners_closeOrderForm.
  - apply listeners_closeConfirmation.
  - unfold handleEscape. destruct (displayed (orderModal (dom st)));
      [apply listeners_closeOrderForm|].
    destruct (displayed (confirmationModal (dom st)));
      [apply listeners_closeConfirmation|reflexivity].
  - destruct (initialised st); [|reflexivity].
    destruct (shippingForm (dom st)); [apply listeners_handleSubmit|reflexivity].
  - destruct (timers st) as [|t ts]; [reflexivity|].
    destruct t; cbn [fire]; [|reflexivity].
    destruct (getField firstName (set_timers ts st)); reflexivity.
  - reflexivity.
  - destruct (listens k (typed k v st)); [|reflexivity].
    unfold onInput. destruct (formFields k (typed k v st)) as [f|]; [|reflexivity].
    destruct (f_error f); reflexivity.
  - destruct (listens k st); [|reflexivity].
    unfold onBlur. destruct (formFields k st) as [f|]; [|reflexivity].
    destruct (truthy (trim (f_value f)) || f_required f); [|reflexivity].
    unfold listeners. rewrite (orderModal_erase st _ (validateField_erase k st)).
    reflexivity.
Qed.

(** X17. The Tab listener [trapFocus] puts on the order modal is never
    taken off again: over any run of events the modal bears one listener
    more for every time the order form was opened, closing or submitting
    the form included. *)
Theorem trap_listeners_accumulate (es : list Event) (st : State) :
  listeners (run es st) = (fun n => n + opens es) <$> listeners st.
Proof.
  revert st. induction es as [|e es IH]; intros st.
  - change (run [] st) with st.
    destruct (listeners st) as [n|]; cbn; [apply (f_equal Some); lia|reflexivity].
  - change (run (e :: es) st) with (run es (handle st e)).
    rewrite IH, listeners_handle. unfold opens. cbn [List.filter].
    destruct (listeners st) as [n|]; [|reflexivity].
    destruct (is_open e); cbn; apply (f_equal Some); lia.
Qed.

(** ** The patterns in words *)

(** One or more characters of a bracket expression. *)
Lemma matches_plus_class (n : bool) (items : list citem) (s : string) :
  matches (Plus (Class n items)) s <->
  s <> "" /\ forallb (in_class n items) (list_ascii_of_string s) = true.
Proof.
  split.
  - remember (Plus (Class n items)) as r eqn:Er. intros H.
    induction H as [ | | | | | | | | r0 s0 H0 _ | r0 s1 s2 H1 _ H2 IH2 | | ];
      try discriminate.
    + injection Er as ->. inversion H0; subst. simpl. split; [discriminate|].
      match goal with Hin : in_class _ _ _ = true |- _ => rewrite Hin end. reflexivity.
    + injection Er as ->. inversion H1; subst.
      destruct (IH2 eq_refl) as [_ Hc].
      change (String ?c "" +:+ s2) with (String c s2). simpl. split; [discriminate|].
      rewrite Hc.
      match goal with Hin : in_class _ _ _ = true |- _ => rewrite Hin end. reflexivity.
  - induction s as [|c s IH]; intros [Hne Hc]; [contradiction|].
    simpl in Hc. apply andb_true_iff in Hc. destruct Hc as [Hc1 Hc2].
    destruct s as [|d s].
    + apply MPlusOne. constructor. exact Hc1.
    + change (String c (String d s)) with (String c "" +:+ String d s).
      apply MPlusMore; [constructor; exact Hc1|]. apply IH. split; [discriminate|exact Hc2].
Qed.

Lemma matches_lit_cat (c : ascii) (r : regex) (s : string) :
  matches (Cat (Lit c) r) s <-> exists t, s = String c t /\ matches r t.
Proof.
  split.
  - intros H. inversion H as [ | | | ? ? s1 s2 H1 H2 | | | | | | | | ]; subst.
    inversion H1; subst. exists s2. split; [reflexivity|exact H2].
  - intros (t & -> & H). change (String c t) with (String c "" +:+ t).
    constructor; [constructor|exact H].
Qed.

(** X18. The e-mail pattern accepts exactly the strings [a@b.c] whose
    three parts are not empty and hold neither white space nor another
    [@]; dots are allowed inside the parts. *)
Theorem email_pattern_shape (s : string) :
  test patterns.email s = true <->
  exists a b c,
    s = a +:+ String "@" (b +:+ String "." c) /\
    (a <> "" /\ forallb (in_class true [CSpace; CChar "@"]) (list_ascii_of_string a) = true) /\
    (b <> "" /\ forallb (in_class true [CSpace; CChar "@"]) (list_ascii_of_string b) = true) /\
    (c <> "" /\ forallb (in_class true [CSpace; CChar "@"]) (list_ascii_of_string c) = true).
Proof.
  rewrite test_matches. unfold patterns.email. cbn [seq]. split.
  - intros H. inversion H as [ | | | ? ? a s2 Ha H2 | | | | | | | | ]; subst.
    apply matches_lit_cat in H2. destruct H2 as (t & -> & H3).
    inversion H3 as [ | | | ? ? b s4 Hb H4 | | | | | | | | ]; subst.
    apply matches_lit_cat in H4. destruct H4 as (c & -> & Hc).
    exists a, b, c. split; [reflexivity|].
    split; [apply matches_plus_class; exact Ha|].
    split; [apply matches_plus_class; exact Hb|apply matches_plus_class; exact Hc].
  - intros (a & b & c & -> & Ha & Hb & Hc).
    constructor; [apply matches_plus_class; exact Ha|].
    apply matches_lit_cat. eexists. split; [reflexivity|].
    constructor; [apply matches_plus_class; exact Hb|].
    apply matches_lit_cat. eexists. split; [reflexivity|].
    apply matches_plus_class; exact Hc.
Qed.

(** X19. The name pattern accepts exactly the strings of 2 to 50
    characters that are letters, white space, hyphens or apostrophes; the
    postal code pattern exactly the strings of 3 to 10 letters, digits,
    white space or hyphens. *)
Theorem name_and_postalCode_pattern_shape (s : string) :
  (test patterns.name s = true <->
   2 <= String.length s <= 50 /\
   forallb (in_class false [CRange "a" "z"; CRange "A" "Z"; CSpace; CChar "-"; CChar "'"])
           (list_ascii_of_string s) = true) /\
  (test patterns.postalCode s = true <->
   3 <= String.length s <= 10 /\
   forallb (in_class false [CRange "a" "z"; CRange "A" "Z"; CRange "0" "9"; CSpace; CChar "-"])
           (list_ascii_of_string s) = true).
Proof.
  split; rewrite test_matches; apply matches_rep_class.
Qed.

(** ** The standalone handler *)

(** X20. [validateField] of the standalone handler never gives the
    consent message: a checkbox that is not checked is reported as a
    required field that is missing, and so is every other control whose
    trimmed value is empty, the optional second address line included. *)
Theorem standalone_consent_message_unreachable (k : FieldKey) (f : Field) :
  Standalone.errorMessage k f <> "You must consent to data usage to proceed" /\
  (f_type f = "checkbox" -> f_checked f = false ->
   Standalone.errorMessage k f = "This field is required") /\
  (f_type f <> "checkbox" -> trim (f_value f) = "" ->
   Standalone.errorMessage k f = "This field is required").
Proof.
  unfold Standalone.errorMessage. repeat split.
  - destruct (Standalone.falsy
                (if f_type f =? "checkbox" then Standalone.VBool (f_checked f)
                 else Standalone.VStr (trim (f_value f)))) eqn:F; [discriminate|].
    destruct k;
      repeat match goal with
             | |- context [if ?b then _ else _] => destruct b
             end; discriminate.
  - intros Ht Hc. rewrite Ht, Hc. reflexivity.
  - intros Ht Hv. apply String.eqb_neq in Ht. rewrite Ht, Hv. reflexivity.
Qed.

(** ** The PDF preview *)

Section PdfPreviewProperties.

Import PdfPreview.
Local Open Scope Z_scope.

Ltac zcases :=
  rewrite ?Z.gtb_ltb, ?Z.geb_leb in *;
  repeat match goal with
         | |- context [Z.ltb ?a ?b] => destruct (Z.ltb_spec a b)
         | |- context [Z.leb ?a ?b] => destruct (Z.leb_spec a b)
         end;
  cbn [negb andb orb] in *.

Ltac bools :=
  rewrite ?Z.gtb_ltb, ?Z.geb_leb in *;
  repeat match goal with
         | H : _ || _ = false |- _ => apply orb_false_iff in H; destruct H
         | H : _ && _ = true |- _ => apply andb_true_iff in H; destruct H
         | H : negb _ = false |- _ => apply negb_false_iff in H
         | H : negb _ = true |- _ => apply negb_true_iff in H
         | H : (_ <? _) = false |- _ => apply Z.ltb_ge in H
         | H : (_ <? _) = true |- _ => apply Z.ltb_lt in H
         | H : (_ <=? _) = false |- _ => apply Z.leb_gt in H
         | H : (_ <=? _) = true |- _ => apply Z.leb_le in H
         end.

Ltac safe_solve :=
  unfold pdf_safe, allowed, in_bounds, previewPages, minScale, maxScale, scaleStep in *;
  repeat match goal with
         | E : suspended ?v = _, H : context [suspended ?v] |- _ =>
             lazymatch H with E => fail | _ => rewrite E in H end
         | E : pageNumPending ?v = _, H : context [pageNumPending ?v] |- _ =>
             lazymatch H with E => fail | _ => rewrite E in H end
         end;
  cbn in *; bools;
  repeat match goal with
         | H : _ /\ _ |- _ => destruct H
         end;
  repeat split; intros; simplify_eq;
  try match goal with
      | H : forall p, ?x = Some p -> _, E : ?x = Some _ |- _ =>
          specialize (H _ E)
      end;
  repeat match goal with
         | H : forall p, Some _ = Some p -> _ |- _ => specialize (H _ eq_refl)
         | H : forall p s, Some _ = Some (p, s) -> _ |- _ => specialize (H _ _ eq_refl)
         | H : forall p s, Drawing _ _ = Drawing p s -> _ |- _ => specialize (H _ _ eq_refl)
         | H : forall p s, ?x = Some (p, s) -> _, E : ?x = Some (_, _) |- _ =>
             specialize (H _ _ E)
         | H : forall p s, ?x = Drawing p s -> _, E : ?x = Drawing _ _ |- _ =>
             specialize (H _ _ E)
         | H : forall p, ?x = Some p -> _, E : ?x = Some _ |- _ =>
             specialize (H _ E)
         end;
  try discriminate; try tauto; try lia; try (intuition lia).

Lemma safe_on_elements (g : Elements -> Elements) (v : Viewer) :
  pdf_safe v -> pdf_safe (on_elements g v).
Proof. intros H. exact H. Qed.

Lemma safe_showLockedMessage (show : bool) (v : Viewer) :
  pdf_safe v -> pdf_safe (showLockedMessage show v).
Proof. unfold showLockedMessage. destruct (lockedMessage (elements v)); intros H; exact H. Qed.

Lemma safe_showError (message : string) (v : Viewer) :
  pdf_safe v -> pdf_safe (showError message v).
Proof. unfold showError. destruct (loadingIndicator (elements v)); intros H; exact H. Qed.

Lemma safe_showLoading (show : bool) (v : Viewer) :
  pdf_safe v -> pdf_safe (showLoading show v).
Proof. unfold showLoading. destruct (loadingIndicator (elements v)); intros H; exact H. Qed.

Lemma safe_updatePageControls (v : Viewer) : pdf_safe v -> pdf_safe (updatePageControls v).
Proof. intros H. exact H. Qed.

Lemma safe_renderPage (pageNum : Z) (v : Viewer) :
  pdf_safe v -> allowed v pageNum -> pdf_safe (renderPage pageNum v).
Proof.
  intros H Hp. unfold renderPage.
  destruct (negb (bool_decide (is_Some (pdfDoc v))) || negb (canvas v) || negb (ctx v));
    [exact H|].
  destruct ((pageNum >? previewPages) && negb (isUnlocked v)).
  - apply safe_on_elements, safe_showLockedMessage, H.
  - unfold showLockedMessage. destruct (lockedMessage (elements v)); cbv zeta.
    + change (pageRendering (on_elements (set_canvasDisplay "block")
                (on_elements (set_lockedMessage (Some "none")) v)))
        with (pageRendering v).
      destruct (pageRendering v) eqn:R; safe_solve.
    + change (pageRendering (on_elements (set_canvasDisplay "block") v))
        with (pageRendering v).
      destruct (pageRendering v) eqn:R; safe_solve.
Qed.

Lemma safe_goToPage (pageNum : Z) (v : Viewer) :
  pdf_safe v -> pdf_safe (goToPage pageNum v).
Proof.
  intros H. unfold goToPage.
  destruct ((pageNum <? 1) || (pageNum >? totalPagesExpected v)) eqn:E1; [exact H|].
  destruct ((pageNum >? previewPages) && negb (isUnlocked v)) eqn:E2;
    [apply safe_showLockedMessage, H|].
  cbv zeta. apply safe_on_elements, safe_updatePageControls.
  change (currentPage (set_currentPage pageNum v)) with pageNum.
  assert (A : allowed v pageNum).
  { split; [bools; lia|]. intros U. rewrite U in E2. cbn in E2.
    rewrite andb_true_r in E2. unfold previewPages in *. bools. lia. }
  apply safe_renderPage; [|exact A]. destruct A. safe_solve.
Qed.

Lemma safe_onPrevPage (v : Viewer) : pdf_safe v -> pdf_safe (onPrevPage v).
Proof.
  intros H. unfold onPrevPage. destruct (currentPage v <=? 1); [exact H|].
  apply safe_goToPage, H.
Qed.

Lemma safe_onNextPage (v : Viewer) : pdf_safe v -> pdf_safe (onNextPage v).
Proof.
  intros H. unfold onNextPage.
  destruct ((currentPage v >=? previewPages) && negb (isUnlocked v));
    [apply safe_showLockedMessage, H|].
  destruct (currentPage v >=? totalPagesExpected v); [exact H|].
  apply safe_goToPage, H.
Qed.

Lemma safe_onZoomIn (v : Viewer) : pdf_safe v -> pdf_safe (onZoomIn v).
Proof.
  intros H. unfold onZoomIn. destruct (currentScale v >=? maxScale) eqn:E; [exact H|].
  cbv zeta.
  change (currentPage (set_currentScale (Z.min (currentScale v + scaleStep) maxScale) v))
    with (currentPage v).
  apply safe_renderPage; [|exact (proj1 H)]. safe_solve.
Qed.

Lemma safe_onZoomOut (v : Viewer) : pdf_safe v -> pdf_safe (onZoomOut v).
Proof.
  intros H. unfold onZoomOut. destruct (currentScale v <=? minScale) eqn:E; [exact H|].
  cbv zeta.
  change (currentPage (set_currentScale (Z.max (currentScale v - scaleStep) minScale) v))
    with (currentPage v).
  apply safe_renderPage; [|exact (proj1 H)]. safe_solve.
Qed.

Lemma safe_handleKeyboard (key : string) (inside : bool) (v : Viewer) :
  pdf_safe v -> pdf_safe (handleKeyboard key inside v).
Proof.
  intros H. unfold handleKeyboard.
  repeat match goal with
         | |- pdf_safe (if ?b then _ else _) => destruct b
         end;
    auto using safe_onPrevPage, safe_onNextPage, safe_goToPage, safe_onZoomIn,
      safe_onZoomOut.
Qed.

Lemma safe_unlockFullPdf (v : Viewer) : pdf_safe v -> pdf_safe (unlockFullPdf v).
Proof.
  intros H. unfold unlockFullPdf. cbv zeta.
  apply safe_showLockedMessage, safe_updatePageControls, safe_on_elements. safe_solve.
Qed.

Lemma safe_loaded (numPages : Z) (v : Viewer) : pdf_safe v -> pdf_safe (loaded numPages v).
Proof.
  intros H. unfold loaded. cbv zeta. apply safe_renderPage; [|exact (proj1 H)]. safe_solve.
Qed.

Lemma safe_renderFailed (v : Viewer) : pdf_safe v -> pdf_safe (renderFailed v).
Proof. intros H. unfold renderFailed. apply safe_showError. safe_solve. Qed.

Lemma safe_settled (ok : bool) (v : Viewer) : pdf_safe v -> pdf_safe (settled ok v).
Proof.
  intros H. unfold settled.
  destruct (suspended v) as [|p|p s] eqn:S; [exact H| |].
  - destruct ok; [|apply safe_renderFailed, H]. safe_solve.
  - destruct ok; [|apply safe_renderFailed, H]. cbv zeta.
    change (pageNumPending (set_pageRendering false
              (set_shown (Some (p, s)) (set_suspended Idle v))))
      with (pageNumPending v).
    destruct (pageNumPending v) as [pending|] eqn:P.
    + apply safe_renderPage; [safe_solve|].
      destruct H as (_ & Hp & _). exact (Hp pending P).
    + safe_solve.
Qed.

Lemma safe_handle (v : Viewer) (e : Event) : pdf_safe v -> pdf_safe (handle v e).
Proof.
  intros H.
  destruct e; cbn [handle]; try destruct (canvas v);
    auto using safe_onPrevPage, safe_onNextPage, safe_goToPage, safe_onZoomIn,
      safe_onZoomOut, safe_handleKeyboard, safe_loaded, safe_settled,
      safe_unlockFullPdf, safe_showLoading, safe_showError, safe_updatePageControls.
  - unfold loadFinished. apply safe_showLoading, safe_updatePageControls, H.
  - unfold loadFailed. apply safe_showLoading, safe_showError, H.
Qed.

Lemma safe_run (es : list Event) (v : Viewer) : pdf_safe v -> pdf_safe (run es v).
Proof.
  revert v. induction es as [|e es IH]; intros v H; [exact H|].
  apply IH, safe_handle, H.
Qed.

Lemma safe_init (d : Elements) (c x : bool) : pdf_safe (init d c x).
Proof.
  unfold pdf_safe, allowed, in_bounds, init, previewPages, minScale, maxScale, scale.
  cbn. repeat split; intros; try discriminate; lia.
Qed.

(** X21. While the viewer is locked it stays within the five pages of
    the preview, whatever is clicked or typed and however the document
    loads and the drawings end: the current page, the page waiting to be
    drawn, the page being drawn and the page on the canvas are all among
    the pages 1 to 5. *)
Theorem preview_stays_locked (d : Elements) (c x : bool) (es : list Event) :
  isUnlocked (run es (init d c x)) = false ->
  1 <= currentPage (run es (init d c x)) <= previewPages /\
  (forall p, pageNumPending (run es (init d c x)) = Some p -> 1 <= p <= previewPages) /\
  (forall p, stage_page (suspended (run es (init d c x))) = Some p ->
             1 <= p <= previewPages) /\
  (forall p s, shown (run es (init d c x)) = Some (p, s) -> 1 <= p <= previewPages).
Proof.
  intros U.
  destruct (safe_run es _ (safe_init d c x)) as (Hc & Hp & Hs & Hw & _).
  unfold allowed in *. repeat split.
  - apply Hc.
  - apply Hc, U.
  - apply (Hp p H).
  - apply (Hp p H), U.
  - apply (Hs p H).
  - apply (Hs p H), U.
  - apply (Hw p s H).
  - apply (Hw p s H), U.
Qed.

Lemma preview_stays_locked_witness :
  1 <= currentPage
         (run [Loaded 30; ClickNextPage; KeyDown "End" true; ClickNextPage;
               ClickThumbnail 9; Settled true; Settled true] sample_viewer)
    <= previewPages.
Proof.
  refine (proj1 (preview_stays_locked sample_elements true true
                   [Loaded 30; ClickNextPage; KeyDown "End" true; ClickNextPage;
                    ClickThumbnail 9; Settled true; Settled true] _)).
  vm_compute. reflexivity.
Defined.

(** X22. The zoom stays between 0.5 and 3.0 over every run of events,
    and so does the scale of every drawing that reaches the canvas. *)
Theorem zoom_stays_in_bounds (d : Elements) (c x : bool) (es : list Event) :
  minScale <= currentScale (run es (init d c x)) <= maxScale /\
  (forall p s, shown (run es (init d c x)) = Some (p, s) -> minScale <= s <= maxScale).
Proof.
  destruct (safe_run es _ (safe_init d c x)) as (_ & _ & _ & Hw & Hz & _).
  split; [exact Hz|]. intros p s H. apply (Hw p s H).
Qed.

Ltac frame :=
  repeat match goal with
         | |- context [if ?b then _ else _] => destruct b
         | |- context [match ?x with _ => _ end] => destruct x
         end;
  reflexivity.

Lemma isUnlocked_renderPage (pageNum : Z) (v : Viewer) :
  isUnlocked (renderPage pageNum v) = isUnlocked v.
Proof. unfold renderPage, showLockedMessage. frame. Qed.

Lemma isUnlocked_goToPage (pageNum : Z) (v : Viewer) :
  isUnlocked (goToPage pageNum v) = isUnlocked v.
Proof.
  unfold goToPage.
  destruct ((pageNum <? 1) || (pageNum >? totalPagesExpected v)); [reflexivity|].
  destruct ((pageNum >? previewPages) && negb (isUnlocked v));
    [unfold showLockedMessage; frame|].
  cbv zeta.
  change (isUnlocked (renderPage (currentPage (set_currentPage pageNum v))
                        (set_currentPage pageNum v)) = isUnlocked v).
  rewrite isUnlocked_renderPage. reflexivity.
Qed.

Lemma isUnlocked_settled (ok : bool) (v : Viewer) :
  isUnlocked (settled ok v) = isUnlocked v.
Proof.
  unfold settled, renderFailed, showError.
  destruct (suspended v); [reflexivity| |].
  - frame.
  - destruct ok; [|frame]. cbv zeta.
    match goal with
    | |- context [match ?x with Some _ => _ | None => _ end] => destruct x
    end; [|reflexivity].
    rewrite isUnlocked_renderPage. reflexivity.
Qed.

Lemma isUnlocked_handle (v : Viewer) (e : Event) :
  isUnlocked (handle v e) = isUnlocked v || is_unlock e.
Proof.
  destruct e; cbn [handle is_unlock]; rewrite ?orb_false_r;
    try (destruct (canvas v); [|reflexivity]).
  - unfold onPrevPage. destruct (currentPage v <=? 1);
      [reflexivity|apply isUnlocked_goToPage].
  - unfold onNextPage.
    destruct ((currentPage v >=? previewPages) && negb (isUnlocked v));
      [unfold showLockedMessage; frame|].
    destruct (currentPage v >=? totalPagesExpected v);
      [reflexivity|apply isUnlocked_goToPage].
  - unfold onZoomIn. destruct (currentScale v >=? maxScale); [reflexivity|].
    cbv zeta. rewrite isUnlocked_renderPage. reflexivity.
  - unfold onZoomOut. destruct (currentScale v <=? minScale); [reflexivity|].
    cbv zeta. rewrite isUnlocked_renderPage. reflexivity.
  - apply isUnlocked_goToPage.
  - unfold handleKeyboard, onPrevPage, onNextPage, onZoomIn, onZoomOut.
    repeat match goal with
           | |- isUnlocked (if ?b then _ else _) = _ => destruct b
           end;
      cbv zeta;
      rewrite ?isUnlocked_goToPage, ?isUnlocked_renderPage; try reflexivity;
      unfold showLockedMessage; frame.
  - unfold loaded. cbv zeta. rewrite isUnlocked_renderPage. reflexivity.
  - unfold loadFinished, showLoading. frame.
  - unfold loadFailed, showLoading, showError. frame.
  - apply isUnlocked_settled.
  - rewrite orb_true_r. unfold unlockFullPdf, showLockedMessage. cbv zeta. frame.
Qed.

(** X23. Only [unlockFullPdf] unlocks the viewer, and nothing locks it
    again: after a run of events it is unlocked exactly when it was
    before or the run calls [unlockFullPdf]. *)
Theorem only_unlockFullPdf_unlocks (es : list Event) (v : Viewer) :
  isUnlocked (run es v) = isUnlocked v || existsb is_unlock es.
Proof.
  revert v. induction es as [|e es IH]; intros v.
  - cbn. rewrite orb_false_r. reflexivity.
  - change (run (e :: es) v) with (run es (handle v e)).
    rewrite IH, isUnlocked_handle, <- orb_assoc. reflexivity.
Qed.

(** *** The queue of [renderPage] *)

Lemma synced_on_elements (g : Elements -> Elements) (v : Viewer) :
  pdf_synced v -> pdf_synced (on_elements g v).
Proof. intros H. exact H. Qed.

Lemma synced_showLockedMessage (show : bool) (v : Viewer) :
  pdf_synced v -> pdf_synced (showLockedMessage show v).
Proof. unfold showLockedMessage. destruct (lockedMessage (elements v)); intros H; exact H. Qed.

Lemma synced_showLoading (show : bool) (v : Viewer) :
  pdf_synced v -> pdf_synced (showLoading show v).
Proof. unfold showLoading. destruct (loadingIndicator (elements v)); intros H; exact H. Qed.

Lemma synced_showError (message : string) (v : Viewer) :
  pdf_synced v -> pdf_synced (showError message v).
Proof. unfold showError. destruct (loadingIndicator (elements v)); intros H; exact H. Qed.

Lemma synced_updatePageControls (v : Viewer) :
  pdf_synced v -> pdf_synced (updatePageControls v).
Proof. intros H. exact H. Qed.

(** [renderPage(currentPage)] brings the queue up to date. *)
Lemma synced_renderPage (v : Viewer) :
  pdf_safe v ->
  (is_idle (suspended v) = true -> pageNumPending v = None) ->
  (is_idle (suspended v) = false -> ready v = true) ->
  pdf_synced (renderPage (currentPage v) v).
Proof.
  intros Hs Hi Hr. unfold renderPage.
  assert (R : negb (bool_decide (is_Some (pdfDoc v))) || negb (canvas v) || negb (ctx v)
              = negb (ready v)).
  { unfold ready. destruct (bool_decide (is_Some (pdfDoc v))), (canvas v), (ctx v);
      reflexivity. }
  rewrite R. clear R.
  destruct Hs as ([Hc1 Hc2] & _ & _ & _ & _ & _ & Hpr).
  destruct (ready v) eqn:Rd; cbn [negb].
  - assert (L : (currentPage v >? previewPages) && negb (isUnlocked v) = false).
    { destruct (isUnlocked v); [apply andb_false_r|]. rewrite andb_true_r.
      rewrite Z.gtb_ltb. apply Z.ltb_ge. apply Hc2. reflexivity. }
    rewrite L. cbv zeta.
    assert (P : forall w, pageRendering w = pageRendering v -> suspended w = suspended v ->
                          pageNumPending w = pageNumPending v ->
                          currentPage w = currentPage v -> currentScale w = currentScale v ->
                          ready w = true ->
                          pdf_synced (if pageRendering w
                                      then set_pageNumPending (Some (currentPage v)) w
                                      else set_suspended (Fetching (currentPage v))
                                             (set_pageRendering true w))).
    { intros w E1 E2 E3 E4 E5 E6. rewrite E1, Hpr.
      destruct (suspended v) as [|p|p s] eqn:S; cbn [is_idle negb].
      - unfold pdf_synced. cbn. change (ready _) with (ready w).
        rewrite E3, E4, (Hi eq_refl). repeat split; [discriminate|exact E6].
      - unfold pdf_synced. cbn. change (ready _) with (ready w). rewrite E2, E4.
        repeat split; [congruence|exact E6|discriminate].
      - unfold pdf_synced. cbn. change (ready _) with (ready w). rewrite E2, E4.
        repeat split; [congruence|exact E6|discriminate|discriminate]. }
    unfold showLockedMessage. destruct (lockedMessage (elements v)); apply P;
      try reflexivity; exact Rd.
  - assert (I : is_idle (suspended v) = true).
    { destruct (is_idle (suspended v)) eqn:I; [reflexivity|].
      specialize (Hr eq_refl). congruence. }
    unfold pdf_synced. rewrite (Hi I).
    destruct (suspended v); try discriminate.
    repeat split; [discriminate|]. intros; congruence.
Qed.

Lemma synced_queue (v : Viewer) :
  pdf_synced v ->
  (is_idle (suspended v) = true -> pageNumPending v = None) /\
  (is_idle (suspended v) = false -> ready v = true).
Proof.
  unfold pdf_synced. intros [_ H].
  destruct (suspended v); cbn; split; intros; try discriminate; apply H.
Qed.

Lemma safe_set_currentPage (pageNum : Z) (v : Viewer) :
  pdf_safe v -> allowed v pageNum -> pdf_safe (set_currentPage pageNum v).
Proof. intros H [A1 A2]. safe_solve. Qed.

Lemma synced_goToPage (pageNum : Z) (v : Viewer) :
  pdf_safe v -> pdf_synced v -> pdf_synced (goToPage pageNum v).
Proof.
  intros H Y. unfold goToPage.
  destruct ((pageNum <? 1) || (pageNum >? totalPagesExpected v)) eqn:E1; [exact Y|].
  destruct ((pageNum >? previewPages) && negb (isUnlocked v)) eqn:E2;
    [apply synced_showLockedMessage, Y|].
  cbv zeta. apply synced_on_elements, synced_updatePageControls.
  assert (A : allowed v pageNum).
  { split; [bools; lia|]. intros U. rewrite U in E2. cbn in E2.
    rewrite andb_true_r in E2. unfold previewPages in *. bools. lia. }
  destruct (synced_queue v Y) as [Q1 Q2].
  apply synced_renderPage; [apply safe_set_currentPage; assumption|exact Q1|exact Q2].
Qed.

Lemma synced_onZoomIn (v : Viewer) :
  pdf_safe v -> pdf_synced v -> pdf_synced (onZoomIn v).
Proof.
  intros H Y. unfold onZoomIn. destruct (currentScale v >=? maxScale) eqn:E; [exact Y|].
  cbv zeta. destruct (synced_queue v Y) as [Q1 Q2].
  apply synced_renderPage; [|exact Q1|exact Q2]. safe_solve.
Qed.

Lemma synced_onZoomOut (v : Viewer) :
  pdf_safe v -> pdf_synced v -> pdf_synced (onZoomOut v).
Proof.
  intros H Y. unfold onZoomOut. destruct (currentScale v <=? minScale) eqn:E; [exact Y|].
  cbv zeta. destruct (synced_queue v Y) as [Q1 Q2].
  apply synced_renderPage; [|exact Q1|exact Q2]. safe_solve.
Qed.

Lemma synced_onPrevPage (v : Viewer) :
  pdf_safe v -> pdf_synced v -> pdf_synced (onPrevPage v).
Proof.
  intros H Y. unfold onPrevPage. destruct (currentPage v <=? 1); [exact Y|].
  apply synced_goToPage; assumption.
Qed.

Lemma synced_onNextPage (v : Viewer) :
  pdf_safe v -> pdf_synced v -> pdf_synced (onNextPage v).
Proof.
  intros H Y. unfold onNextPage.
  destruct ((currentPage v >=? previewPages) && negb (isUnlocked v));
    [apply synced_showLockedMessage, Y|].
  destruct (currentPage v >=? totalPagesExpected v); [exact Y|].
  apply synced_goToPage; assumption.
Qed.

Lemma synced_handleKeyboard (key : string) (inside : bool) (v : Viewer) :
  pdf_safe v -> pdf_synced v -> pdf_synced (handleKeyboard key inside v).
Proof.
  intros H Y. unfold handleKeyboard.
  repeat match goal with
         | |- pdf_synced (if ?b then _ else _) => destruct b
         end;
    auto using synced_onPrevPage, synced_onNextPage, synced_goToPage, synced_onZoomIn,
      synced_onZoomOut.
Qed.

Lemma synced_loaded (numPages : Z) (v : Viewer) :
  pdf_safe v -> pdf_synced v -> pdf_synced (loaded numPages v).
Proof.
  intros H Y. unfold loaded. cbv zeta. destruct (synced_queue v Y) as [Q1 Q2].
  apply synced_renderPage; [safe_solve|exact Q1|].
  intros I. specialize (Q2 I). unfold ready in *. cbn.
  destruct (canvas v), (ctx v); try (rewrite ?andb_false_r in Q2; discriminate).
  reflexivity.
Qed.

Lemma synced_settled (v : Viewer) :
  pdf_safe v -> pdf_synced v -> pdf_synced (settled true v).
Proof.
  intros H Y. unfold settled.
  destruct (suspended v) as [|p|p s] eqn:S; [exact Y| |].
  - unfold pdf_synced in *. rewrite S in Y. cbn. change (ready _) with (ready v).
    destruct Y as (Y1 & Y2 & Y3). repeat split; auto.
  - cbv zeta.
    change (pageNumPending (set_pageRendering false
              (set_shown (Some (p, s)) (set_suspended Idle v))))
      with (pageNumPending v).
    destruct (pageNumPending v) as [pending|] eqn:P.
    + assert (E : pending = currentPage v).
      { destruct Y as [Y1 _]. apply Y1. exact P. }
      subst pending.
      apply (synced_renderPage
               (set_pageNumPending None
                  (set_pageRendering false
                     (set_shown (Some (p, s)) (set_suspended Idle v))))).
      * safe_solve.
      * reflexivity.
      * discriminate.
    + unfold pdf_synced in *. rewrite S, P in Y. cbn. change (ready _) with (ready v).
      rewrite P. destruct Y as (_ & _ & Y3). destruct (Y3 eq_refl) as [-> ->].
      repeat split; discriminate.
Qed.

Lemma synced_unlockFullPdf (v : Viewer) : pdf_synced v -> pdf_synced (unlockFullPdf v).
Proof.
  intros Y. unfold unlockFullPdf. cbv zeta.
  apply synced_showLockedMessage, synced_updatePageControls, synced_on_elements. exact Y.
Qed.

Lemma synced_handle (v : Viewer) (e : Event) :
  pdf_safe v -> pdf_synced v -> is_failure e = false -> pdf_synced (handle v e).
Proof.
  intros H Y F.
  destruct e as [| | | | | | | | |ok|]; cbn [handle];
    try (destruct ok; [apply synced_settled; assumption|discriminate]);
    try (apply synced_unlockFullPdf; assumption);
    (destruct (canvas v); [|exact Y]);
    auto using synced_onPrevPage, synced_onNextPage, synced_goToPage, synced_onZoomIn,
      synced_onZoomOut, synced_handleKeyboard, synced_loaded.
  - unfold loadFinished. apply synced_showLoading, synced_updatePageControls, Y.
  - unfold loadFailed. apply synced_showLoading, synced_showError, Y.
Qed.

Lemma synced_run (es : list Event) (v : Viewer) :
  pdf_safe v -> pdf_synced v -> existsb is_failure es = false -> pdf_synced (run es v).
Proof.
  revert v. induction es as [|e es IH]; intros v H Y F; [exact Y|].
  cbn [existsb] in F. apply orb_false_iff in F. destruct F as [F1 F2].
  apply IH; [apply safe_handle, H|apply synced_handle; assumption|exact F2].
Qed.

Lemma synced_init (d : Elements) (c x : bool) : pdf_synced (init d c x).
Proof.
  unfold pdf_synced, init, ready. cbn. repeat split; try discriminate.
Qed.

(** X24. [renderPage] draws one page at a time and remembers only the
    last request made meanwhile.  As long as no drawing fails, whenever
    no drawing is under way nothing is left waiting, and once the
    document is loaded the canvas holds the current page at the current
    zoom. *)
Theorem canvas_catches_up (d : Elements) (c x : bool) (es : list Event) :
  existsb is_failure es = false ->
  pageRendering (run es (init d c x)) = false ->
  pageNumPending (run es (init d c x)) = None /\
  (ready (run es (init d c x)) = true ->
   shown (run es (init d c x))
     = Some (currentPage (run es (init d c x)), currentScale (run es (init d c x)))).
Proof.
  intros F R.
  pose proof (safe_run es _ (safe_init d c x)) as H.
  pose proof (synced_run es _ (safe_init d c x) (synced_init d c x) F) as Y.
  destruct H as (_ & _ & _ & _ & _ & _ & Hpr). rewrite Hpr in R.
  unfold pdf_synced in Y. destruct (suspended (run es (init d c x))); try discriminate.
  apply Y.
Qed.

Lemma canvas_catches_up_witness :
  shown (run [Loaded 5; ClickNextPage; ClickZoomIn; Settled true; Settled true;
              Settled true; Settled true] sample_viewer)
  = Some (2, 7).
Proof.
  destruct (canvas_catches_up sample_elements true true
              [Loaded 5; ClickNextPage; ClickZoomIn; Settled true; Settled true;
               Settled true; Settled true]) as [_ H].
  - vm_compute. reflexivity.
  - vm_compute. reflexivity.
  - unfold sample_viewer. rewrite H; vm_compute; reflexivity.
Defined.

End PdfPreviewProperties.
